(** * Token trade analysis: a shallow embedding of [integrated_analysis.js]

    The analysis part of the script (lines 108-701: normalisation, wallet
    activity, suspicion scoring, interval aggregation, price movements,
    pump-and-dump, suspicious intervals, market impact, market periods and
    cycles, coordinated activity, whale entries) is written as Rocq
    functions, one per top-level [const] of the script, under the script's
    names.

    Numbers.  JavaScript numbers are IEEE binary64, and so are Rocq's
    primitive floats: prices, amounts, values, ratios and percentages are
    [float], with the comparisons and arithmetic of the source.  Timestamps
    are integer epoch seconds that a number holds exactly (at most 2^53 in
    absolute value); they are kept in [Z], where [Math.floor(t / w)] is
    [t / w] and [parseInt] is the identity.  Counters and scores are [nat].
    A cell that is empty in the CSV ([null] after parsing) is [None].

    Stages and exceptions.  Each stage is a pure function of the sorted
    trades, and describes the stage where it runs to its end.  What can end
    the script early is kept apart and put together in [analysis], which
    runs the stages in the order of the script: reading a property of
    [undefined] throws a [TypeError] (the first trade of an empty dataset,
    the [buys] of a wallet whose address names a property that every object
    inherits), and formatting a date that is out of the range of [Date]
    throws a [RangeError].

    Presentation-only fields (ISO date strings, transaction signatures) and
    console output are left out of the records.  A wallet address is a
    string, and as a key of the wallet object it is taken not to be the
    decimal form of an array index. *)

From Stdlib Require Import List ZArith Lia Bool String Floats Uint63.
From Stdlib Require Import Sorting.Permutation Sorting.Sorted.
Import ListNotations.

Set Warnings "-inexact-float".
Open Scope Z_scope.

(** ** JavaScript values *)

Module JS.

(** [if (x)] on a number: every number but [0], [-0] and [NaN]. *)
Definition truthy (x : float) : bool := ((x <? 0) || (0 <? x))%float.

(** A nullable numeric cell read as a number where the source tests or
    parses it: [null] is falsy, and [parseFloat(null)] is [NaN]. *)
Definition valueOf (x : option float) : float :=
  match x with Some v => v | None => nan end.

Definition truthy_num (x : option float) : bool := truthy (valueOf x).

(** [parseFloat] of a number prints and re-reads it: the number itself,
    except that [-0] prints as ["0"]. *)
Definition parseFloat (x : option float) : float :=
  match x with
  | None => nan
  | Some v => if (v =? 0)%float then 0%float else v
  end.

(** [x || 0] on a number. *)
Definition orZero (x : float) : float := if truthy x then x else 0%float.

(** A nullable string cell: [null] and the empty string are falsy. *)
Definition truthy_str (s : option string) : bool :=
  match s with
  | Some s => negb (String.eqb s EmptyString)
  | None => false
  end.

(** [s === lit] for a nullable string cell. *)
Definition str_is (s : option string) (lit : string) : bool :=
  match s with
  | Some s => String.eqb s lit
  | None => false
  end.

(** An integer as a JavaScript number. *)
Definition ofZ (z : Z) : float :=
  if z <? 0 then PrimFloat.opp (PrimFloat.of_uint63 (Uint63.of_Z (- z)))
  else PrimFloat.of_uint63 (Uint63.of_Z z).

Definition ofNat (n : nat) : float := ofZ (Z.of_nat n).

(** Exceptions the analysis can raise. *)
Inductive error : Type :=
| TypeError (msg : string)
| RangeError (msg : string).

Inductive result (A : Type) : Type :=
| Ok (a : A)
| Throw (e : error).
Arguments Ok {A} a.
Arguments Throw {A} e.

Definition bind {A B} (r : result A) (k : A -> result B) : result B :=
  match r with
  | Ok a => k a
  | Throw e => Throw e
  end.

(** [arr[i].field]: reading a property of [undefined] throws. *)
Definition prop_of_index {A} (arr : list A) (i : nat) : result A :=
  match nth_error arr i with
  | Some a => Ok a
  | None => Throw (TypeError "Cannot read properties of undefined")
  end.

(** A loop run for what it throws: the calls are made in the order of the
    array, and the first that throws ends the loop. *)
Fixpoint each {A B} (f : A -> result B) (l : list A) : result unit :=
  match l with
  | [] => Ok tt
  | x :: l' => bind (f x) (fun _ => each f l')
  end.

(** [new Date(ms)]: a date holds a time value in milliseconds; the date is
    invalid, and its time value [NaN] ([None]), when [ms] is [NaN] or beyond
    8.64e15 in absolute value. *)
Definition Date (ms : option Z) : option Z :=
  match ms with
  | Some v => if Z.abs v <=? 8640000000000000 then Some v else None
  | None => None
  end.

(** [date.toISOString()] throws on an invalid date.  Of the string only the
    time value that it spells is kept. *)
Definition toISOString (date : option Z) : result Z :=
  match date with
  | Some v => Ok v
  | None => Throw (RangeError "Invalid time value")
  end.

(** The names under which an object literal finds a property that it
    inherits from [Object.prototype]; what it finds is a function or an
    object, which is truthy. *)
Definition inherited (name : string) : bool :=
  existsb (String.eqb name)
    [ "constructor"; "__defineGetter__"; "__defineSetter__"; "hasOwnProperty";
      "__lookupGetter__"; "__lookupSetter__"; "isPrototypeOf";
      "propertyIsEnumerable"; "toString"; "valueOf"; "__proto__";
      "toLocaleString" ]%string.

(** Stable sort, ascending in an integer key.  [Array.prototype.sort] is
    stable, and so is lodash's [sortBy]; a comparator [(a, b) => k(b) - k(a)]
    is the ascending sort in [- k]. *)
Section Sort.
Context {A : Type} (key : A -> Z).

Fixpoint insert (x : A) (l : list A) : list A :=
  match l with
  | [] => [x]
  | y :: l' => if key x <=? key y then x :: y :: l' else y :: insert x l'
  end.

Fixpoint sort (l : list A) : list A :=
  match l with
  | [] => []
  | x :: l' => insert x (sort l')
  end.

End Sort.

(** Objects whose keys are numbers (time buckets), in creation order. *)
Definition object (A : Type) : Type := list (Z * A).

(** A key is an array index when it is an integer in [0, 2^32 - 2]. *)
Definition is_array_index (k : Z) : bool := (0 <=? k) && (k <=? 4294967294).

(** [Object.entries]: the array-index keys in ascending order, then the
    other keys in creation order. *)
Definition entries {A} (o : object A) : list (Z * A) :=
  sort fst (filter (fun e => is_array_index (fst e)) o)
  ++ filter (fun e => negb (is_array_index (fst e))) o.

(** The create-or-update of a property: [if (!o[k]) o[k] = init;] followed
    by an update [f] of [o[k]].  A new key goes last. *)
Section Upsert.
Context {K V : Type} (eqb : K -> K -> bool).

Fixpoint upsert (k : K) (init : V) (f : V -> V) (o : list (K * V))
  : list (K * V) :=
  match o with
  | [] => [(k, f init)]
  | (k', v) :: o' =>
      if eqb k k' then (k', f v) :: o' else (k', v) :: upsert k init f o'
  end.

End Upsert.

(** [new Set(xs)] keeps the first occurrence of each element. *)
Section SetOf.
Context {A : Type} (eqb : A -> A -> bool).

Fixpoint set_add (x : A) (s : list A) : list A :=
  match s with
  | [] => [x]
  | y :: s' => if eqb x y then s else y :: set_add x s'
  end.

Definition set_of (xs : list A) : list A :=
  fold_left (fun s x => set_add x s) xs [].

End SetOf.

End JS.

(** ** lodash *)

Module Lodash.

(** [_.sortBy(xs, key)]: a stable ascending sort. *)
Definition sortBy {A} (key : A -> Z) (l : list A) : list A := JS.sort key l.

(** One step of [groupBy]: push onto the key's array, created on demand. *)
Definition push_group {A} (k : Z) (x : A) (o : JS.object (list A))
  : JS.object (list A) :=
  JS.upsert Z.eqb k [] (fun xs => xs ++ [x]) o.

(** [_.groupBy(xs, f)]: a group per key, created at the key's first
    element, each group in the order of [xs]. *)
Definition groupBy {A} (f : A -> Z) (l : list A) : JS.object (list A) :=
  fold_left (fun o x => push_group (f x) x o) l [].

(** [baseSum]: the first value, then [result + current]. *)
Definition baseSum {A} (f : A -> float) (l : list A) : float :=
  match l with
  | [] => nan
  | x :: l' => fold_left (fun acc y => (acc + f y)%float) l' (f x)
  end.

(** [_.sumBy]: [0] on the empty array. *)
Definition sumBy {A} (f : A -> float) (l : list A) : float :=
  match l with
  | [] => 0%float
  | _ => baseSum f l
  end.

(** [_.meanBy]: [NaN] on the empty array. *)
Definition meanBy {A} (f : A -> float) (l : list A) : float :=
  match l with
  | [] => nan
  | _ => (baseSum f l / JS.ofNat (List.length l))%float
  end.

End Lodash.

(** ** Thresholds *)

Definition WHALE_THRESHOLD : float := 10000%float.
Definition MEDIUM_THRESHOLD : float := 1000%float.
Definition RETAIL_THRESHOLD : float := 100%float.

(** ** Dates (lines 45-49) *)

(** [convertToUTC8]: the date of the timestamp, moved by eight hours and
    formatted.  [date.getTime()] is [NaN] on an invalid date, and so is the
    sum. *)
Definition convertToUTC8 (timestamp : Z) : JS.result Z :=
  let date := JS.Date (Some (timestamp * 1000)) in
  let utc8Date :=
    JS.Date (option_map (fun ms => ms + 8 * 60 * 60 * 1000) date) in
  JS.toISOString utc8Date.

(** [new Date(timestamp * 1000).toISOString()], the [datetime] of a bucket,
    a period or a whale entry (lines 316, 415, 573, 574 and 692). *)
Definition datetimeOf (timestamp : Z) : JS.result Z :=
  JS.toISOString (JS.Date (Some (timestamp * 1000))).

(** ** Trade rows *)

(** A parsed CSV row. *)
Record raw_row : Type := {
  raw_trade_timestamp : option Z;
  raw_type : option string;
  raw_buy_price : option float;
  raw_buy_amount : option float;
  raw_sell_price : option float;
  raw_sell_amount : option float;
  raw_trader_wallet_address : option string;
  raw_net_sol_balance_change : option float
}.

(** A row of [processedData]: the raw row's fields ([...row]) with
    [transaction_value] and [price] added and the timestamp and amounts
    overwritten. *)
Record trade : Type := {
  trade_timestamp : Z;
  type : option string;
  buy_price : option float;
  sell_price : option float;
  buy_amount : float;
  sell_amount : float;
  price : float;
  transaction_value : float;
  trader_wallet_address : option string;
  net_sol_balance_change : option float
}.

Definition TOKEN_BUY : string := "TOKEN_BUY".
Definition TOKEN_SELL : string := "TOKEN_SELL".

Definition is_buy (tx : trade) : bool := JS.str_is (type tx) TOKEN_BUY.
Definition is_sell (tx : trade) : bool := JS.str_is (type tx) TOKEN_SELL.

(** [!row.trade_timestamp]: a missing or zero timestamp is falsy. *)
Definition truthy_timestamp (t : option Z) : bool :=
  match t with
  | Some z => negb (z =? 0)
  | None => false
  end.

(** The body of [data.map(row => ...)] (lines 109-148); [None] is the
    [null] returned for an invalid row. *)
Definition processRow (row : raw_row) : option trade :=
  let transaction_value :=
    if JS.str_is (raw_type row) TOKEN_BUY
       && JS.truthy_num (raw_buy_price row)
       && JS.truthy_num (raw_buy_amount row)
    then (JS.valueOf (raw_buy_price row) * JS.valueOf (raw_buy_amount row))%float
    else if JS.str_is (raw_type row) TOKEN_SELL
            && JS.truthy_num (raw_sell_price row)
            && JS.truthy_num (raw_sell_amount row)
    then (JS.valueOf (raw_sell_price row) * JS.valueOf (raw_sell_amount row))%float
    else 0%float in
  if negb (truthy_timestamp (raw_trade_timestamp row))
     || negb (JS.truthy_str (raw_type row))
     || (negb (JS.truthy_num (raw_buy_amount row))
         && negb (JS.truthy_num (raw_sell_amount row)))
  then None
  else
    let price :=
      if JS.str_is (raw_type row) TOKEN_BUY
      then JS.parseFloat (raw_buy_price row)
      else JS.parseFloat (raw_sell_price row) in
    Some {|
      trade_timestamp :=
        match raw_trade_timestamp row with Some z => z | None => 0 end;
      type := raw_type row;
      buy_price := raw_buy_price row;
      sell_price := raw_sell_price row;
      buy_amount :=
        if JS.str_is (raw_type row) TOKEN_BUY
        then JS.orZero (JS.parseFloat (raw_buy_amount row))
        else 0%float;
      sell_amount :=
        if JS.str_is (raw_type row) TOKEN_SELL
        then JS.orZero (JS.parseFloat (raw_sell_amount row))
        else 0%float;
      price := price;
      transaction_value := transaction_value;
      trader_wallet_address := raw_trader_wallet_address row;
      net_sol_balance_change := raw_net_sol_balance_change row
    |}.

(** [data.map(...).filter(row => row !== null)]. *)
Fixpoint processedData (data : list raw_row) : list trade :=
  match data with
  | [] => []
  | row :: data' =>
      match processRow row with
      | Some tx => tx :: processedData data'
      | None => processedData data'
      end
  end.

Definition sortedData (data : list raw_row) : list trade :=
  Lodash.sortBy trade_timestamp (processedData data).

(** Lines 130-140: a row that is kept is logged when its price is above
    1000 or below 0.00000001, with its timestamp formatted. *)
Definition logAbnormalPrice (tx : trade) : JS.result unit :=
  if ((1000 <? price tx) || (price tx <? 0.00000001))%float
  then JS.bind (convertToUTC8 (trade_timestamp tx)) (fun _ => JS.Ok tt)
  else JS.Ok tt.

(** [data.map(...)] with its log: the rows are mapped in the order of
    [data]; a row that is dropped returns before the log, a row that is
    kept is logged when its price is abnormal. *)
Definition processedDataRun (data : list raw_row) : JS.result (list trade) :=
  JS.bind (JS.each logAbnormalPrice (processedData data)) (fun _ =>
  JS.Ok (processedData data)).

(** Wallet addresses as [Set] elements and object keys: [null] is one
    value, every string another. *)
Definition address_eqb (a b : option string) : bool :=
  match a, b with
  | Some x, Some y => String.eqb x y
  | None, None => true
  | _, _ => false
  end.

(** ** Wallet activity (lines 192-226) *)

Module Activity.

Record side : Type := { count : nat; volume : float; value : float }.

Record t : Type := {
  buys : side;
  sells : side;
  totalTransactions : nat;
  firstSeen : Z;
  lastSeen : Z;
  netSOLChange : float
}.

Definition zero : side := {| count := 0; volume := 0%float; value := 0%float |}.

(** The object created for a wallet seen for the first time. *)
Definition create (row : trade) : t := {|
  buys := zero;
  sells := zero;
  totalTransactions := 0;
  firstSeen := trade_timestamp row;
  lastSeen := trade_timestamp row;
  netSOLChange := 0%float
|}.

(** The updates of one [forEach] step on the wallet's object. *)
Definition update (wallet : t) (row : trade) : t := {|
  buys :=
    if is_buy row then {|
      count := S (count (buys wallet));
      volume := (volume (buys wallet) + JS.orZero (buy_amount row))%float;
      value := (value (buys wallet) + JS.orZero (transaction_value row))%float
    |} else buys wallet;
  sells :=
    if is_buy row then sells wallet
    else if is_sell row then {|
      count := S (count (sells wallet));
      volume := (volume (sells wallet) + JS.orZero (sell_amount row))%float;
      value := (value (sells wallet) + JS.orZero (transaction_value row))%float
    |} else sells wallet;
  totalTransactions := S (totalTransactions wallet);
  firstSeen := Z.min (firstSeen wallet) (trade_timestamp row);
  lastSeen := Z.max (lastSeen wallet) (trade_timestamp row);
  netSOLChange :=
    (netSOLChange wallet
     + JS.orZero (JS.valueOf (net_sol_balance_change row)))%float
|}.

End Activity.

(** The [walletActivity] object: its keys are wallet addresses, kept in
    creation order.  (With [dynamicTyping] a cell that reads as a number is
    parsed as a number, so that an address that is a string is not the
    decimal form of an array index.)  [walletStep] is the step for an
    address that names no property that every object inherits; [walletRow]
    below is the step for any address. *)
Definition wallet_object : Type := list (string * Activity.t).

(** One step of the [forEach] for a row with an address. *)
Definition walletStep (address : string) (row : trade) (o : wallet_object)
  : wallet_object :=
  JS.upsert String.eqb address (Activity.create row)
    (fun wallet => Activity.update wallet row) o.

Definition walletActivity (sortedData : list trade) : wallet_object :=
  fold_left
    (fun o row =>
       if negb (JS.truthy_str (trader_wallet_address row)) then o
       else
         match trader_wallet_address row with
         | Some address => walletStep address row o
         | None => o
         end)
    sortedData [].

(** One step of the [forEach] on the object and its prototype.  Under a
    name that every object inherits, [walletActivity[address]] is a built-in
    function or object: it is truthy, so no object is created for the
    wallet and [wallet] is the built-in; the writes of [firstSeen],
    [lastSeen], [totalTransactions] and [netSOLChange] go to the built-in
    and store [NaN], which leaves [walletActivity] as it is; the built-in
    has neither [buys] nor [sells], so that [wallet.buys.count++] and
    [wallet.sells.count++] throw. *)
Definition walletRow (o : wallet_object) (row : trade) : JS.result wallet_object :=
  if negb (JS.truthy_str (trader_wallet_address row)) then JS.Ok o
  else
    match trader_wallet_address row with
    | Some address =>
        if JS.inherited address
        then
          if is_buy row || is_sell row
          then JS.Throw (JS.TypeError "Cannot read properties of undefined")
          else JS.Ok o
        else JS.Ok (walletStep address row o)
    | None => JS.Ok o
    end.

Definition walletActivityRun (sortedData : list trade)
  : JS.result wallet_object :=
  fold_left (fun acc row => JS.bind acc (fun o => walletRow o row))
    sortedData (JS.Ok []).

(** ** Suspicion scoring (lines 229-285) *)

Module Wallet.

Record t : Type := {
  address : string;
  totalValue : float;
  buyToSellRatio : float;
  transactionCount : nat;
  timeActiveHours : float;
  transactionFrequency : float;
  netSOLChange : float;
  buys : Activity.side;
  sells : Activity.side;
  suspiciousScore : nat
}.

Definition with_score (w : t) (score : nat) : t := {|
  address := address w;
  totalValue := totalValue w;
  buyToSellRatio := buyToSellRatio w;
  transactionCount := transactionCount w;
  timeActiveHours := timeActiveHours w;
  transactionFrequency := transactionFrequency w;
  netSOLChange := netSOLChange w;
  buys := buys w;
  sells := sells w;
  suspiciousScore := score
|}.

End Wallet.

(** [buys.count > 0 && sells.count > 0 ? buys.count / sells.count
     : (buys.count > 0 ? Infinity : 0)]. *)
Definition walletBuyToSellRatio (activity : Activity.t) : float :=
  let b := Activity.count (Activity.buys activity) in
  let s := Activity.count (Activity.sells activity) in
  if (0 <? b)%nat && (0 <? s)%nat then (JS.ofNat b / JS.ofNat s)%float
  else if (0 <? b)%nat then infinity
  else 0%float.

(** The body of the [map] over [Object.entries(walletActivity)]. *)
Definition profileOf (entry : string * Activity.t) : Wallet.t :=
  let (address, activity) := entry in
  let totalValue :=
    (Activity.value (Activity.buys activity)
     + Activity.value (Activity.sells activity))%float in
  let buyToSellRatio := walletBuyToSellRatio activity in
  let timeActiveHours :=
    (JS.ofZ (Activity.lastSeen activity - Activity.firstSeen activity)
     / 3600)%float in
  let transactionFrequency :=
    if (0 <? timeActiveHours)%float
    then (JS.ofNat (Activity.totalTransactions activity) / timeActiveHours)%float
    else JS.ofNat (Activity.totalTransactions activity) in
  {|
    Wallet.address := address;
    Wallet.totalValue := totalValue;
    Wallet.buyToSellRatio := buyToSellRatio;
    Wallet.transactionCount := Activity.totalTransactions activity;
    Wallet.timeActiveHours := timeActiveHours;
    Wallet.transactionFrequency := transactionFrequency;
    Wallet.netSOLChange := Activity.netSOLChange activity;
    Wallet.buys := Activity.buys activity;
    Wallet.sells := Activity.sells activity;
    Wallet.suspiciousScore := 0
  |}.

(** The body of [suspectedManipulators.forEach]: [score] starts at [0] and
    is increased by one statement after the other. *)
Definition scoreOf (wallet : Wallet.t) : nat :=
  let score := 0%nat in
  let score :=
    if (WHALE_THRESHOLD * 10 <? Wallet.totalValue wallet)%float
    then (score + 5)%nat
    else if (WHALE_THRESHOLD <? Wallet.totalValue wallet)%float
    then (score + 3)%nat
    else score in
  let score :=
    if ((10 <? Wallet.buyToSellRatio wallet)
        || (Wallet.buyToSellRatio wallet <? 0.1))%float
    then (score + 3)%nat
    else score in
  let score :=
    if (10 <? Wallet.transactionFrequency wallet)%float
    then (score + 3)%nat
    else if (5 <? Wallet.transactionFrequency wallet)%float
    then (score + 2)%nat
    else score in
  let score :=
    if (Wallet.timeActiveHours wallet <? 1)%float
       && (20 <? Wallet.transactionCount wallet)%nat
    then (score + 4)%nat
    else score in
  let score :=
    if (10 <? Wallet.netSOLChange wallet)%float
    then (score + 3)%nat
    else score in
  score.

(** [suspectedManipulators] after the scoring loop, from the wallet
    object. *)
Definition scoredWallets (walletActivity : wallet_object) : list Wallet.t :=
  map (fun wallet => Wallet.with_score wallet (scoreOf wallet))
      (map profileOf walletActivity).

Definition suspectedManipulators (sortedData : list trade) : list Wallet.t :=
  scoredWallets (walletActivity sortedData).

(** [.sort((a, b) => b.suspiciousScore - a.suspiciousScore).slice(0, 20)]. *)
Definition topScored (suspectedManipulators : list Wallet.t) : list Wallet.t :=
  firstn 20
    (JS.sort (fun w => - Z.of_nat (Wallet.suspiciousScore w))
       suspectedManipulators).

Definition topSuspiciousWallets (sortedData : list trade) : list Wallet.t :=
  topScored (suspectedManipulators sortedData).

(** ** Price by interval (lines 291-333) *)

Module PriceInterval.

Record t : Type := {
  timestamp : Z;
  avgBuyPrice : option float;
  avgSellPrice : option float;
  price : option float;
  buyCount : nat;
  sellCount : nat;
  buyVolume : float;
  sellVolume : float;
  buyValue : float;
  sellValue : float;
  totalTransactions : nat
}.

End PriceInterval.

(** The key of a trade's bucket of width [w]:
    [Math.floor(row.trade_timestamp / w) * w]. *)
Definition bucketKey (w : Z) (row : trade) : Z := trade_timestamp row / w * w.

Definition timeIntervals (sortedData : list trade) : JS.object (list trade) :=
  Lodash.groupBy (bucketKey 600) sortedData.

(** The body of the [map] over [Object.entries(timeIntervals)]. *)
Definition priceOfInterval (entry : Z * list trade) : PriceInterval.t :=
  let (timestamp, transactions) := entry in
  let buys := filter is_buy transactions in
  let sells := filter is_sell transactions in
  let avgBuyPrice :=
    if (0 <? List.length buys)%nat
    then Some (Lodash.meanBy (fun tx => JS.valueOf (buy_price tx))
                 (filter (fun tx => JS.truthy_num (buy_price tx)) buys))
    else None in
  let avgSellPrice :=
    if (0 <? List.length sells)%nat
    then Some (Lodash.meanBy (fun tx => JS.valueOf (sell_price tx))
                 (filter (fun tx => JS.truthy_num (sell_price tx)) sells))
    else None in
  {|
    PriceInterval.timestamp := timestamp;
    PriceInterval.avgBuyPrice := avgBuyPrice;
    PriceInterval.avgSellPrice := avgSellPrice;
    PriceInterval.price :=
      if JS.truthy_num avgBuyPrice then avgBuyPrice else avgSellPrice;
    PriceInterval.buyCount := List.length buys;
    PriceInterval.sellCount := List.length sells;
    PriceInterval.buyVolume := Lodash.sumBy buy_amount buys;
    PriceInterval.sellVolume := Lodash.sumBy sell_amount sells;
    PriceInterval.buyValue := Lodash.sumBy transaction_value buys;
    PriceInterval.sellValue := Lodash.sumBy transaction_value sells;
    PriceInterval.totalTransactions := List.length transactions
  |}.

Definition priceByInterval (sortedData : list trade) : list PriceInterval.t :=
  map priceOfInterval (JS.entries (timeIntervals sortedData)).

(** [.filter(interval => interval.price)
     .sort((a, b) => a.timestamp - b.timestamp)]. *)
Definition sortedPriceIntervals (sortedData : list trade)
  : list PriceInterval.t :=
  JS.sort PriceInterval.timestamp
    (filter (fun interval => JS.truthy_num (PriceInterval.price interval))
       (priceByInterval sortedData)).

(** ** Price changes (lines 336-359) *)

Module PriceChange.

Record t : Type := {
  startTimestamp : Z;
  endTimestamp : Z;
  startPrice : float;
  endPrice : float;
  percentChange : float;
  buyVolume : float;
  sellVolume : float;
  isSignificant : bool
}.

End PriceChange.

Definition percentChangeOf (prev curr : PriceInterval.t) : float :=
  ((JS.valueOf (PriceInterval.price curr) - JS.valueOf (PriceInterval.price prev))
   / JS.valueOf (PriceInterval.price prev) * 100)%float.

Definition changeOf (prev curr : PriceInterval.t) : PriceChange.t := {|
  PriceChange.startTimestamp := PriceInterval.timestamp prev;
  PriceChange.endTimestamp := PriceInterval.timestamp curr;
  PriceChange.startPrice := JS.valueOf (PriceInterval.price prev);
  PriceChange.endPrice := JS.valueOf (PriceInterval.price curr);
  PriceChange.percentChange := percentChangeOf prev curr;
  PriceChange.buyVolume := PriceInterval.buyVolume curr;
  PriceChange.sellVolume := PriceInterval.sellVolume curr;
  PriceChange.isSignificant := (10 <? abs (percentChangeOf prev curr))%float
|}.

(** The loop [for (i = 1; i < length; i++)], with [prev] the interval at
    [i-1] and [rest] the intervals from [i] on. *)
Fixpoint priceChangesLoop (prev : PriceInterval.t) (rest : list PriceInterval.t)
  : list PriceChange.t :=
  match rest with
  | [] => []
  | curr :: rest' =>
      (if JS.truthy_num (PriceInterval.price prev)
          && JS.truthy_num (PriceInterval.price curr)
       then
         if (5 <? abs (percentChangeOf prev curr))%float
         then [changeOf prev curr]
         else []
       else [])
      ++ priceChangesLoop curr rest'
  end.

Definition priceChangesOf (intervals : list PriceInterval.t)
  : list PriceChange.t :=
  match intervals with
  | [] => []
  | first :: rest => priceChangesLoop first rest
  end.

Definition priceChanges (sortedData : list trade) : list PriceChange.t :=
  priceChangesOf (sortedPriceIntervals sortedData).

(** ** Pump and dump (lines 365-401) *)

Module Pump.

Record t : Type := {
  pump : PriceChange.t;
  retailBuysCount : nat;
  retailBuysValue : float;
  whaleSellsCount : nat;
  whaleSellsValue : float;
  suspiciousWallets : list (option string)
}.

End Pump.

Definition retailBuysDuringPump (sortedData : list trade) (pump : PriceChange.t)
  : list trade :=
  filter
    (fun tx =>
       is_buy tx
       && (PriceChange.startTimestamp pump <=? trade_timestamp tx)
       && (trade_timestamp tx <=? PriceChange.endTimestamp pump)
       && (0 <? transaction_value tx)%float
       && (transaction_value tx <=? RETAIL_THRESHOLD)%float)
    sortedData.

Definition whaleSellsAfterPump (sortedData : list trade) (pump : PriceChange.t)
  : list trade :=
  filter
    (fun tx =>
       is_sell tx
       && (PriceChange.endTimestamp pump <? trade_timestamp tx)
       && (trade_timestamp tx <=? PriceChange.endTimestamp pump + 1800)
       && (MEDIUM_THRESHOLD <=? transaction_value tx)%float)
    sortedData.

(** The body of the [forEach] over the pumps: it pushes at most one
    pattern. *)
Definition pumpPattern (sortedData : list trade) (pump : PriceChange.t)
  : list Pump.t :=
  let retailBuys := retailBuysDuringPump sortedData pump in
  let whaleSells := whaleSellsAfterPump sortedData pump in
  if (5 <? List.length retailBuys)%nat && (0 <? List.length whaleSells)%nat
  then [{|
    Pump.pump := pump;
    Pump.retailBuysCount := List.length retailBuys;
    Pump.retailBuysValue := Lodash.sumBy transaction_value retailBuys;
    Pump.whaleSellsCount := List.length whaleSells;
    Pump.whaleSellsValue := Lodash.sumBy transaction_value whaleSells;
    Pump.suspiciousWallets :=
      JS.set_of address_eqb (map trader_wallet_address whaleSells)
  |}]
  else [].

Definition pumpAndDumpPatterns (sortedData : list trade) : list Pump.t :=
  flat_map (pumpPattern sortedData)
    (filter (fun change => (10 <? PriceChange.percentChange change)%float)
       (priceChanges sortedData)).

(** ** Suspicious activity intervals (lines 407-493) *)

Module SuspiciousInterval.

Record t : Type := {
  timestamp : Z;
  totalTransactions : nat;
  uniqueWallets : nat;
  transactionsPerWallet : float;
  largeTransactionsCount : nat;
  buyCount : nat;
  sellCount : nat;
  buyToSellRatio : float;
  potentialWashTraders : list string;
  washTradingCount : nat;
  whaleTransactionsCount : nat;
  uniqueWhaleWallets : nat;
  suspiciousScore : nat
}.

End SuspiciousInterval.

Definition detailedTimeIntervals (sortedData : list trade)
  : JS.object (list trade) :=
  Lodash.groupBy (bucketKey 300) sortedData.

(** The per-bucket [walletActions] object: buy and sell counters per
    address, in creation order. *)
Definition actions_object : Type := list (string * (nat * nat)).

Definition countAction (tx : trade) (actions : nat * nat) : nat * nat :=
  if is_buy tx then (S (fst actions), snd actions)
  else if is_sell tx then (fst actions, S (snd actions))
  else actions.

Definition actionStep (address : string) (tx : trade) (o : actions_object)
  : actions_object :=
  JS.upsert String.eqb address (0%nat, 0%nat) (countAction tx) o.

Definition walletActions (transactions : list trade) : actions_object :=
  fold_left
    (fun o tx =>
       if negb (JS.truthy_str (trader_wallet_address tx)) then o
       else
         match trader_wallet_address tx with
         | Some address => actionStep address tx o
         | None => o
         end)
    transactions [].

Definition potentialWashTraders (transactions : list trade) : list string :=
  map fst
    (filter (fun e => (0 <? fst (snd e))%nat && (0 <? snd (snd e))%nat)
       (walletActions transactions)).

(** [sells.length > 0 ? buys.length / sells.length
     : (buys.length > 0 ? Infinity : 0)]. *)
Definition countRatio (buys sells : nat) : float :=
  if (0 <? sells)%nat then (JS.ofNat buys / JS.ofNat sells)%float
  else if (0 <? buys)%nat then infinity
  else 0%float.

Definition whaleTransactionsOf (transactions : list trade) : list trade :=
  filter (fun tx => (WHALE_THRESHOLD <=? transaction_value tx)%float)
    transactions.

(** The body of the [map] over [Object.entries(detailedTimeIntervals)]. *)
Definition suspiciousIntervalOf (entry : Z * list trade)
  : SuspiciousInterval.t :=
  let (timestamp, transactions) := entry in
  let uniqueWallets :=
    JS.set_of address_eqb (map trader_wallet_address transactions) in
  let largeTransactions :=
    filter (fun tx => (MEDIUM_THRESHOLD <=? transaction_value tx)%float)
      transactions in
  let washTraders := potentialWashTraders transactions in
  let buys := filter is_buy transactions in
  let sells := filter is_sell transactions in
  let buyToSellRatio := countRatio (List.length buys) (List.length sells) in
  let whaleTransactions := whaleTransactionsOf transactions in
  let uniqueWhaleWallets :=
    JS.set_of address_eqb (map trader_wallet_address whaleTransactions) in
  let suspiciousScore := 0%nat in
  let suspiciousScore :=
    if (20 <? List.length transactions)%nat
       && (List.length uniqueWallets <? 5)%nat
    then (suspiciousScore + 3)%nat
    else suspiciousScore in
  let suspiciousScore :=
    if (0 <? List.length washTraders)%nat
    then (suspiciousScore + List.length washTraders * 2)%nat
    else suspiciousScore in
  let suspiciousScore :=
    if ((10 <? buyToSellRatio) || (buyToSellRatio <? 0.1))%float
    then (suspiciousScore + 2)%nat
    else suspiciousScore in
  let suspiciousScore :=
    if (3 <? List.length whaleTransactions)%nat
    then (suspiciousScore + 3)%nat
    else suspiciousScore in
  {|
    SuspiciousInterval.timestamp := timestamp;
    SuspiciousInterval.totalTransactions := List.length transactions;
    SuspiciousInterval.uniqueWallets := List.length uniqueWallets;
    SuspiciousInterval.transactionsPerWallet :=
      (JS.ofNat (List.length transactions)
       / JS.ofNat (if (0 <? List.length uniqueWallets)%nat
                   then List.length uniqueWallets else 1))%float;
    SuspiciousInterval.largeTransactionsCount := List.length largeTransactions;
    SuspiciousInterval.buyCount := List.length buys;
    SuspiciousInterval.sellCount := List.length sells;
    SuspiciousInterval.buyToSellRatio := buyToSellRatio;
    SuspiciousInterval.potentialWashTraders := washTraders;
    SuspiciousInterval.washTradingCount := List.length washTraders;
    SuspiciousInterval.whaleTransactionsCount := List.length whaleTransactions;
    SuspiciousInterval.uniqueWhaleWallets := List.length uniqueWhaleWallets;
    SuspiciousInterval.suspiciousScore := suspiciousScore
  |}.

(** [.filter(interval => interval.suspiciousScore > 0)
     .sort((a, b) => b.suspiciousScore - a.suspiciousScore)]. *)
Definition suspiciousActivityIntervals (sortedData : list trade)
  : list SuspiciousInterval.t :=
  JS.sort (fun interval => - Z.of_nat (SuspiciousInterval.suspiciousScore interval))
    (filter (fun interval => (0 <? SuspiciousInterval.suspiciousScore interval)%nat)
       (map suspiciousIntervalOf (JS.entries (detailedTimeIntervals sortedData)))).

(** ** Market impact of the top wallets (lines 514-524) *)

Module Impact.

Record t : Type := { wallet : Wallet.t; marketImpact : float }.

End Impact.

Definition totalTransactionValue (sortedData : list trade) : float :=
  Lodash.sumBy transaction_value sortedData.

(** The [map] over [topSuspiciousWallets]. *)
Definition impactOf (sortedData : list trade)
  (topSuspiciousWallets : list Wallet.t) : list Impact.t :=
  map
    (fun wallet =>
       let walletTransactions :=
         filter
           (fun tx => JS.str_is (trader_wallet_address tx) (Wallet.address wallet))
           sortedData in
       let walletValue := Lodash.sumBy transaction_value walletTransactions in
       {| Impact.wallet := wallet;
          Impact.marketImpact :=
            (walletValue / totalTransactionValue sortedData * 100)%float |})
    topSuspiciousWallets.

Definition topWalletsImpact (sortedData : list trade) : list Impact.t :=
  impactOf sortedData (topSuspiciousWallets sortedData).

(** ** Market periods (lines 530-590) *)

Module Period.

Record t : Type := {
  periodNumber : nat;
  startTime : Z;
  endTime : Z;
  transactionCount : nat;
  buyCount : nat;
  sellCount : nat;
  buyToSellRatio : float;
  avgPrice : option float;
  priceAtStart : option float;
  priceAtEnd : option float;
  priceChange : option float;
  activeWalletsCount : nat;
  whaleTransactionsCount : nat;
  whaleWalletsCount : nat
}.

End Period.

(** [tx.buy_price || tx.sell_price]. *)
Definition anyPrice (tx : trade) : option float :=
  if JS.truthy_num (buy_price tx) then buy_price tx else sell_price tx.

Definition periodTransactions (sortedData : list trade) (startTime endTime : Z)
  : list trade :=
  filter
    (fun tx => (startTime <=? trade_timestamp tx) && (trade_timestamp tx <? endTime))
    sortedData.

(** The body of the loop [for (i = 0; i < 6; i++)]. *)
Definition periodOf (sortedData : list trade) (earliestTimestamp periodDuration : Z)
  (i : nat) : Period.t :=
  let startTime := earliestTimestamp + Z.of_nat i * periodDuration in
  let endTime := earliestTimestamp + (Z.of_nat i + 1) * periodDuration in
  let transactions := periodTransactions sortedData startTime endTime in
  let buyTransactions := filter is_buy transactions in
  let sellTransactions := filter is_sell transactions in
  let avgPrice :=
    if (0 <? List.length transactions)%nat
    then Some (Lodash.meanBy (fun tx => JS.valueOf (anyPrice tx))
                 (filter (fun tx => JS.truthy_num (anyPrice tx)) transactions))
    else None in
  let priceAtStart :=
    match transactions with
    | first :: _ => anyPrice first
    | [] => None
    end in
  let priceAtEnd :=
    match rev transactions with
    | last :: _ => anyPrice last
    | [] => None
    end in
  let whaleTransactions := whaleTransactionsOf transactions in
  {|
    Period.periodNumber := i + 1;
    Period.startTime := startTime;
    Period.endTime := endTime;
    Period.transactionCount := List.length transactions;
    Period.buyCount := List.length buyTransactions;
    Period.sellCount := List.length sellTransactions;
    Period.buyToSellRatio :=
      countRatio (List.length buyTransactions) (List.length sellTransactions);
    Period.avgPrice := avgPrice;
    Period.priceAtStart := priceAtStart;
    Period.priceAtEnd := priceAtEnd;
    Period.priceChange :=
      if JS.truthy_num priceAtStart && JS.truthy_num priceAtEnd
      then Some ((JS.valueOf priceAtEnd - JS.valueOf priceAtStart)
                 / JS.valueOf priceAtStart * 100)%float
      else None;
    Period.activeWalletsCount :=
      List.length (JS.set_of address_eqb (map trader_wallet_address transactions));
    Period.whaleTransactionsCount := List.length whaleTransactions;
    Period.whaleWalletsCount :=
      List.length
        (JS.set_of address_eqb (map trader_wallet_address whaleTransactions))
  |}.

(** Line 530: the script sorts [sortedData] once more. *)
Definition sortedTransactions (sortedData : list trade) : list trade :=
  Lodash.sortBy trade_timestamp sortedData.

(** The six periods between two timestamps. *)
Definition periodsBetween (sortedData : list trade)
  (earliestTimestamp latestTimestamp : Z) : list Period.t :=
  let periodDuration := (latestTimestamp - earliestTimestamp) / 6 in
  map (periodOf sortedData earliestTimestamp periodDuration) (seq 0 6).

(** Lines 531-590: [sortedTransactions[0].trade_timestamp] and
    [sortedTransactions[length - 1].trade_timestamp] throw on an empty
    array. *)
Definition periods (sortedData : list trade) : JS.result (list Period.t) :=
  let sorted := sortedTransactions sortedData in
  JS.bind (JS.prop_of_index sorted 0) (fun first =>
  JS.bind (JS.prop_of_index sorted (List.length sorted - 1)) (fun last =>
  JS.Ok (periodsBetween sortedData (trade_timestamp first) (trade_timestamp last)))).

(** ** Market cycles (lines 596-648) *)

Module Cycle.

Inductive kind : Type :=
| accumulation_to_markup
| markup_to_distribution
| distribution_to_markdown.

Record t : Type := {
  startPeriod : nat;
  endPeriod : nat;
  type : kind;
  startTime : Z;
  endTime : Z;
  priceChange : float
}.

End Cycle.

Definition cycleOf (kind : Cycle.kind) (current next : Period.t) (change : float)
  : Cycle.t := {|
  Cycle.startPeriod := Period.periodNumber current;
  Cycle.endPeriod := Period.periodNumber next;
  Cycle.type := kind;
  Cycle.startTime := Period.startTime current;
  Cycle.endTime := Period.endTime next;
  Cycle.priceChange := change
|}.

(** The three tests on one pair of adjacent periods. *)
Definition cyclesOfPair (current next : Period.t) : list Cycle.t :=
  if JS.truthy_num (Period.priceChange current)
     && JS.truthy_num (Period.priceChange next)
  then
    let c := JS.valueOf (Period.priceChange current) in
    let n := JS.valueOf (Period.priceChange next) in
    (if ((c <? 5) && (10 <? n))%float
     then [cycleOf Cycle.accumulation_to_markup current next n] else [])
    ++ (if ((10 <? c) && (n <? 5) && (Period.buyToSellRatio next <? 1))%float
        then [cycleOf Cycle.markup_to_distribution current next c] else [])
    ++ (if ((c <? 5) && (Period.buyToSellRatio current <? 1) && (n <? -10))%float
        then [cycleOf Cycle.distribution_to_markdown current next n] else [])
  else [].

Fixpoint marketCyclesLoop (current : Period.t) (rest : list Period.t)
  : list Cycle.t :=
  match rest with
  | [] => []
  | next :: rest' => cyclesOfPair current next ++ marketCyclesLoop next rest'
  end.

Definition marketCycles (periods : list Period.t) : list Cycle.t :=
  match periods with
  | [] => []
  | first :: rest => marketCyclesLoop first rest
  end.

(** ** Coordinated activities (lines 653-663) *)

Module Coordinated.

Record t : Type := {
  timestamp : Z;
  suspiciousScore : nat;
  whaleCount : nat;
  transactionCount : nat;
  buyToSellRatio : float
}.

End Coordinated.

Definition isCoordinated (interval : SuspiciousInterval.t) : bool :=
  (5 <=? SuspiciousInterval.suspiciousScore interval)%nat
  && (2 <=? SuspiciousInterval.whaleTransactionsCount interval)%nat.

Definition coordinatedOf (interval : SuspiciousInterval.t) : Coordinated.t := {|
  Coordinated.timestamp := SuspiciousInterval.timestamp interval;
  Coordinated.suspiciousScore := SuspiciousInterval.suspiciousScore interval;
  Coordinated.whaleCount := SuspiciousInterval.uniqueWhaleWallets interval;
  Coordinated.transactionCount := SuspiciousInterval.totalTransactions interval;
  Coordinated.buyToSellRatio := SuspiciousInterval.buyToSellRatio interval
|}.

Definition coordinatedActivities (sortedData : list trade)
  : list Coordinated.t :=
  map coordinatedOf
    (filter isCoordinated (suspiciousActivityIntervals sortedData)).

(** ** Whale entries (lines 668-699) *)

Module WhaleEntry.

Record t : Type := {
  timestamp : Z;
  whaleCount : nat;
  totalBuyVolume : float;
  percentOfTotalSupply : float;
  transactions : nat
}.

End WhaleEntry.

Definition totalTokenVolume (sortedData : list trade) : float :=
  Lodash.sumBy
    (fun tx =>
       if is_buy tx then JS.orZero (buy_amount tx)
       else if is_sell tx then JS.orZero (sell_amount tx)
       else 0%float)
    sortedData.

(** Line 676-678: the hourly grouping key is
    [Math.floor(tx.trade_timestamp / 3600)]. *)
Definition timeWindows (sortedData : list trade) : JS.object (list trade) :=
  Lodash.groupBy (fun tx => trade_timestamp tx / 3600)
    (sortedTransactions sortedData).

Definition whaleBuysOf (transactions : list trade) : list trade :=
  filter
    (fun tx => is_buy tx && (WHALE_THRESHOLD <=? transaction_value tx)%float)
    transactions.

(** The body of the [forEach] over [Object.entries(timeWindows)]: it pushes
    at most one entry. *)
Definition whaleEntryOf (sortedData : list trade) (entry : Z * list trade)
  : list WhaleEntry.t :=
  let (timestamp, transactions) := entry in
  let buyTransactions := whaleBuysOf transactions in
  if (2 <=? List.length buyTransactions)%nat
  then
    let uniqueWhales :=
      JS.set_of address_eqb (map trader_wallet_address buyTransactions) in
    let totalBuyVolume := Lodash.sumBy buy_amount buyTransactions in
    [{|
      WhaleEntry.timestamp := timestamp;
      WhaleEntry.whaleCount := List.length uniqueWhales;
      WhaleEntry.totalBuyVolume := totalBuyVolume;
      WhaleEntry.percentOfTotalSupply :=
        (totalBuyVolume / totalTokenVolume sortedData * 100)%float;
      WhaleEntry.transactions := List.length buyTransactions
    |}]
  else [].

Definition whaleEntries (sortedData : list trade) : list WhaleEntry.t :=
  flat_map (whaleEntryOf sortedData) (JS.entries (timeWindows sortedData)).

(** ** Price statistics (lines 163-179) *)

Module PriceStat.

(** An extreme price with the timestamp of its trade ([time] holds the
    timestamp that [convertToUTC8] formats). *)
Record t : Type := { price : float; time : Z }.

End PriceStat.

Record price_stats : Type := {
  stats_max : option PriceStat.t;
  stats_min : option PriceStat.t
}.

(** The body of the [reduce]: a row with a usable price replaces the
    maximum when there is none or its price is greater, and the minimum
    when there is none or its price is smaller. *)
Definition priceStatsStep (stats : price_stats) (row : trade) : price_stats :=
  if JS.truthy (price row) then
    let stats :=
      if match stats_max stats with
         | None => true
         | Some m => (PriceStat.price m <? price row)%float
         end
      then {| stats_max := Some {| PriceStat.price := price row;
                                   PriceStat.time := trade_timestamp row |};
              stats_min := stats_min stats |}
      else stats in
    if match stats_min stats with
       | None => true
       | Some m => (price row <? PriceStat.price m)%float
       end
    then {| stats_max := stats_max stats;
            stats_min := Some {| PriceStat.price := price row;
                                 PriceStat.time := trade_timestamp row |} |}
    else stats
  else stats.

Definition priceStats (sortedData : list trade) : price_stats :=
  fold_left priceStatsStep sortedData {| stats_max := None; stats_min := None |}.

(** The same step with the dates it formats: [convertToUTC8] runs when the
    maximum is replaced and when the minimum is replaced. *)
Definition priceStatsStepRun (stats : price_stats) (row : trade)
  : JS.result price_stats :=
  if JS.truthy (price row) then
    JS.bind
      (if match stats_max stats with
          | None => true
          | Some m => (PriceStat.price m <? price row)%float
          end
       then
         JS.bind (convertToUTC8 (trade_timestamp row)) (fun _ =>
         JS.Ok {| stats_max := Some {| PriceStat.price := price row;
                                       PriceStat.time := trade_timestamp row |};
                  stats_min := stats_min stats |})
       else JS.Ok stats)
      (fun stats =>
         if match stats_min stats with
            | None => true
            | Some m => (price row <? PriceStat.price m)%float
            end
         then
           JS.bind (convertToUTC8 (trade_timestamp row)) (fun _ =>
           JS.Ok {| stats_max := stats_max stats;
                    stats_min := Some {| PriceStat.price := price row;
                                         PriceStat.time := trade_timestamp row |} |})
         else JS.Ok stats)
  else JS.Ok stats.

Definition priceStatsRun (sortedData : list trade) : JS.result price_stats :=
  fold_left (fun acc row => JS.bind acc (fun stats => priceStatsStepRun stats row))
    sortedData (JS.Ok {| stats_max := None; stats_min := None |}).

(** ** The analysis, top to bottom *)

Record analysis_result : Type := {
  res_sortedData : list trade;
  res_priceStats : price_stats;
  res_walletActivity : wallet_object;
  res_topSuspiciousWallets : list Wallet.t;
  res_priceChanges : list PriceChange.t;
  res_pumpAndDumpPatterns : list Pump.t;
  res_suspiciousActivityIntervals : list SuspiciousInterval.t;
  res_topWalletsImpact : list Impact.t;
  res_periods : list Period.t;
  res_marketCycles : list Cycle.t;
  res_coordinatedActivities : list Coordinated.t;
  res_whaleEntries : list WhaleEntry.t
}.

(** Lines 156-160, the time-range log: its arguments are evaluated from
    left to right, [convertToUTC8(sortedData[0].trade_timestamp)] first. *)
Definition timeRangeLog (sortedData : list trade) : JS.result unit :=
  JS.bind (JS.prop_of_index sortedData 0) (fun first =>
  JS.bind (convertToUTC8 (trade_timestamp first)) (fun _ =>
  JS.bind (JS.prop_of_index sortedData (List.length sortedData - 1)) (fun last =>
  JS.bind (convertToUTC8 (trade_timestamp last)) (fun _ =>
  JS.Ok tt)))).

(** Lines 530-590 with the dates of lines 573-574: each period formats its
    start and its end. *)
Definition periodsRun (sortedData : list trade) : JS.result (list Period.t) :=
  JS.bind (periods sortedData) (fun ps =>
  JS.bind
    (JS.each
       (fun p =>
          JS.bind (datetimeOf (Period.startTime p)) (fun _ =>
          datetimeOf (Period.endTime p)))
       ps) (fun _ =>
  JS.Ok ps)).

(** The statements of the script in order.  A stage that formats dates
    does so once for each element it builds: a price interval and a 300 s
    interval for each bucket (lines 316 and 415, before any interval is
    dropped), a whale entry for each entry pushed (line 692). *)
Definition analysis (data : list raw_row) : JS.result analysis_result :=
  JS.bind (processedDataRun data) (fun processed =>
  let sorted := Lodash.sortBy trade_timestamp processed in
  JS.bind (timeRangeLog sorted) (fun _ =>
  JS.bind (priceStatsRun sorted) (fun stats =>
  JS.bind (walletActivityRun sorted) (fun wallets =>
  let top := topScored (scoredWallets wallets) in
  JS.bind (JS.each datetimeOf (map fst (JS.entries (timeIntervals sorted))))
    (fun _ =>
  JS.bind
    (JS.each datetimeOf (map fst (JS.entries (detailedTimeIntervals sorted))))
    (fun _ =>
  JS.bind (periodsRun sorted) (fun ps =>
  JS.bind (JS.each datetimeOf (map WhaleEntry.timestamp (whaleEntries sorted)))
    (fun _ =>
  JS.Ok {|
    res_sortedData := sorted;
    res_priceStats := stats;
    res_walletActivity := wallets;
    res_topSuspiciousWallets := top;
    res_priceChanges := priceChanges sorted;
    res_pumpAndDumpPatterns := pumpAndDumpPatterns sorted;
    res_suspiciousActivityIntervals := suspiciousActivityIntervals sorted;
    res_topWalletsImpact := impactOf sorted top;
    res_periods := ps;
    res_marketCycles := marketCycles ps;
    res_coordinatedActivities := coordinatedActivities sorted;
    res_whaleEntries := whaleEntries sorted
  |})))))))).

(** * Statements *)

(** ** Normalised records *)

(** The amount of a record's own side. *)
Definition active_amount (tx : trade) : float :=
  if is_buy tx then buy_amount tx else sell_amount tx.

(** [value == amount * price]: the recorded value is the product of the
    recorded amount and price. *)
Definition value_is_product (tx : trade) : Prop :=
  transaction_value tx = (active_amount tx * price tx)%float.

Definition ascending (l : list trade) : Prop :=
  StronglySorted (fun a b => trade_timestamp a <= trade_timestamp b) l.

(** Records of one timestamp are in the same order in both lists. *)
Definition keeps_order_of_ties (input output : list trade) : Prop :=
  forall t : Z,
    filter (fun tx => trade_timestamp tx =? t) output
    = filter (fun tx => trade_timestamp tx =? t) input.

(** The normaliser's output as the specification words it. *)
Definition normalized_as_specified (data : list raw_row) : Prop :=
  ascending (sortedData data)
  /\ keeps_order_of_ties (processedData data) (sortedData data)
  /\ Forall value_is_product (sortedData data).

(** A buy row whose price cell is empty. *)
Definition row_without_price : raw_row := {|
  raw_trade_timestamp := Some 1;
  raw_type := Some TOKEN_BUY;
  raw_buy_price := None;
  raw_buy_amount := Some 5%float;
  raw_sell_price := None;
  raw_sell_amount := None;
  raw_trader_wallet_address := Some "wallet"%string;
  raw_net_sol_balance_change := None
|}.

(** A row without a timestamp: the normaliser drops it. *)
Definition row_without_timestamp : raw_row := {|
  raw_trade_timestamp := None;
  raw_type := Some TOKEN_BUY;
  raw_buy_price := Some 1%float;
  raw_buy_amount := Some 5%float;
  raw_sell_price := None;
  raw_sell_amount := None;
  raw_trader_wallet_address := Some "wallet"%string;
  raw_net_sol_balance_change := None
|}.

(** ** Example rows *)

Definition buy_row (t : Z) (buy_price buy_amount : float) (wallet : option string)
  : raw_row := {|
  raw_trade_timestamp := Some t;
  raw_type := Some TOKEN_BUY;
  raw_buy_price := Some buy_price;
  raw_buy_amount := Some buy_amount;
  raw_sell_price := None;
  raw_sell_amount := None;
  raw_trader_wallet_address := wallet;
  raw_net_sol_balance_change := None
|}.

Definition sell_row (t : Z) (sell_price sell_amount : float)
  (wallet : option string) (net_sol : option float) : raw_row := {|
  raw_trade_timestamp := Some t;
  raw_type := Some TOKEN_SELL;
  raw_buy_price := None;
  raw_buy_amount := None;
  raw_sell_price := Some sell_price;
  raw_sell_amount := Some sell_amount;
  raw_trader_wallet_address := wallet;
  raw_net_sol_balance_change := net_sol
|}.

(** Two whale buys in the hour that starts at epoch second 7200. *)
Definition whale_hour_rows : list raw_row :=
  [ buy_row 7200 1 10000 (Some "whale1"%string);
    buy_row 7300 1 20000 (Some "whale2"%string) ].

(** Two trades, 60 seconds apart. *)
Definition minute_rows : list raw_row :=
  [ buy_row 1000 1 10 (Some "a"%string);
    buy_row 1060 1 10 (Some "b"%string) ].

(** The later trade of [minute_rows]. *)
Definition minute_latest : trade :=
  Eval vm_compute in
    last (sortedData minute_rows)
      (Build_trade 0 None None None 0%float 0%float 0%float 0%float None None).

(** ** Market periods *)

(** A timestamp lies in a period when [startTime <= t < endTime]. *)
Definition in_period (p : Period.t) (t : Z) : Prop :=
  Period.startTime p <= t < Period.endTime p.

(** ** Suspicion score *)

(** The five increments of the specification, each on its own. *)
Definition valueIncrement (w : Wallet.t) : nat :=
  if (10 * WHALE_THRESHOLD <? Wallet.totalValue w)%float then 5
  else if (WHALE_THRESHOLD <? Wallet.totalValue w)%float then 3
  else 0.

Definition ratioIncrement (w : Wallet.t) : nat :=
  if ((10 <? Wallet.buyToSellRatio w) || (Wallet.buyToSellRatio w <? 0.1))%float
  then 3 else 0.

Definition frequencyIncrement (w : Wallet.t) : nat :=
  if (10 <? Wallet.transactionFrequency w)%float then 3
  else if (5 <? Wallet.transactionFrequency w)%float then 2
  else 0.

Definition burstIncrement (w : Wallet.t) : nat :=
  if (Wallet.timeActiveHours w <? 1)%float
     && (20 <? Wallet.transactionCount w)%nat
  then 4 else 0.

Definition profitIncrement (w : Wallet.t) : nat :=
  if (10 <? Wallet.netSOLChange w)%float then 3 else 0.

Definition specifiedScore (w : Wallet.t) : nat :=
  valueIncrement w + ratioIncrement w + frequencyIncrement w
  + burstIncrement w + profitIncrement w.

(** Twelve sells of one wallet over two hours, 150000 in value, with a net
    quote change of 15. *)
Definition scorer_rows : list raw_row :=
  sell_row 1000 1 12500 (Some "seller"%string) (Some 15%float)
  :: map (fun n => sell_row (1000 + 600 * Z.of_nat n) 1 12500
                     (Some "seller"%string) None)
       (seq 1 10)
  ++ [sell_row 8200 1 12500 (Some "seller"%string) None].

(** A row that is neither a buy nor a sell. *)
Definition transfer_row (t : Z) (wallet : option string) : raw_row := {|
  raw_trade_timestamp := Some t;
  raw_type := Some "TRANSFER"%string;
  raw_buy_price := None;
  raw_buy_amount := Some 1%float;
  raw_sell_price := None;
  raw_sell_amount := None;
  raw_trader_wallet_address := wallet;
  raw_net_sol_balance_change := None
|}.

(** Wallet [a] buys 9 times and sells 3 times, wallet [b] buys 12 times,
    wallet [c] neither buys nor sells. *)
Definition ratio_rows : list raw_row :=
  map (fun n => buy_row (Z.of_nat n) 1 1 (Some "a"%string)) (seq 1 9)
  ++ map (fun n => sell_row (Z.of_nat n) 1 1 (Some "a"%string) None) (seq 10 3)
  ++ map (fun n => buy_row (Z.of_nat n) 1 1 (Some "b"%string)) (seq 13 12)
  ++ [transfer_row 30 (Some "c"%string)].

(** The profile the scorer builds for the seller of [scorer_rows]. *)
Definition scorer_wallet : Wallet.t :=
  Eval vm_compute in
    hd {| Wallet.address := EmptyString; Wallet.totalValue := 0%float;
          Wallet.buyToSellRatio := 0%float; Wallet.transactionCount := 0;
          Wallet.timeActiveHours := 0%float;
          Wallet.transactionFrequency := 0%float;
          Wallet.netSOLChange := 0%float; Wallet.buys := Activity.zero;
          Wallet.sells := Activity.zero; Wallet.suspiciousScore := 0 |}
       (suspectedManipulators (sortedData scorer_rows)).

(** The activity of the wallets [a], [b] and [c] of [ratio_rows]. *)
Definition activity_a : Activity.t :=
  Eval vm_compute in
    snd (nth 0 (walletActivity (sortedData ratio_rows))
           (EmptyString, Activity.create (Build_trade 0 None None None
              0%float 0%float 0%float 0%float None None))).

Definition activity_b : Activity.t :=
  Eval vm_compute in
    snd (nth 1 (walletActivity (sortedData ratio_rows))
           (EmptyString, Activity.create (Build_trade 0 None None None
              0%float 0%float 0%float 0%float None None))).

Definition activity_c : Activity.t :=
  Eval vm_compute in
    snd (nth 2 (walletActivity (sortedData ratio_rows))
           (EmptyString, Activity.create (Build_trade 0 None None None
              0%float 0%float 0%float 0%float None None))).

(** ** Price series *)









(** The chronologically adjacent pairs of a series. *)
Definition adjacentPairs {A} (l : list A) : list (A * A) := combine l (tl l).



(** ** Pump and dump *)

(** Retail buys strictly inside the window of a price change. *)
Definition retailBuysStrictlyInside (sortedData : list trade)
  (e : PriceChange.t) : list trade :=
  filter
    (fun tx =>
       is_buy tx
       && (PriceChange.startTimestamp e <? trade_timestamp tx)
       && (trade_timestamp tx <? PriceChange.endTimestamp e)
       && (0 <? transaction_value tx)%float
       && (transaction_value tx <=? RETAIL_THRESHOLD)%float)
    sortedData.

(** There is a sell of value at least [MEDIUM_THRESHOLD] in
    (eventEnd, eventEnd + 1800]. *)
Definition whaleSellAfter (sortedData : list trade) (e : PriceChange.t) : Prop :=
  exists tx,
    In tx sortedData
    /\ is_sell tx = true
    /\ PriceChange.endTimestamp e < trade_timestamp tx
       <= PriceChange.endTimestamp e + 1800
    /\ (MEDIUM_THRESHOLD <=? transaction_value tx)%float = true.

Definition candidateEmitted (sortedData : list trade) (e : PriceChange.t) : Prop :=
  exists c, In c (pumpAndDumpPatterns sortedData) /\ Pump.pump c = e.

(** The pump-and-dump rule as the specification words it. *)
Definition pump_rule_as_specified (sortedData : list trade) : Prop :=
  forall e,
    In e (priceChanges sortedData) ->
    (10 <? PriceChange.percentChange e)%float = true ->
    (candidateEmitted sortedData e
     <-> (5 < List.length (retailBuysStrictlyInside sortedData e))%nat
         /\ whaleSellAfter sortedData e).

(** Six retail buys at the first second of one bucket, a buy at twice the
    price at the first second of the next, and a large sell after it. *)
Definition pump_rows : list raw_row :=
  map (fun _ => buy_row 600 1 50 (Some "retail"%string)) (seq 0 6)
  ++ [ buy_row 1200 2 1 (Some "late"%string);
       sell_row 1300 2 600 (Some "whale"%string) None ].

(** The price change of [pump_rows]: from 1 to 2 between the buckets 600
    and 1200. *)
Definition pump_event : PriceChange.t :=
  Eval vm_compute in
    hd (PriceChange.Build_t 0 0 0%float 0%float 0%float 0%float 0%float false)
       (priceChanges (sortedData pump_rows)).

(** ** Suspicious intervals *)

(** [n] is the number of distinct elements of [l]. *)
Definition distinctCount {A} (l : list A) (n : nat) : Prop :=
  exists s, NoDup s /\ (forall a, In a s <-> In a l) /\ List.length s = n.

(** A wash-trader candidate of a bucket: a wallet with both a buy and a
    sell in it. *)
Definition isWashTrader (transactions : list trade) (a : string) : Prop :=
  a <> EmptyString
  /\ (exists tx, In tx transactions
                 /\ trader_wallet_address tx = Some a /\ is_buy tx = true)
  /\ (exists tx, In tx transactions
                 /\ trader_wallet_address tx = Some a /\ is_sell tx = true).

(** The composite score of the specification, from the bucket's summary. *)
Definition specifiedIntervalScore (i : SuspiciousInterval.t) : nat :=
  (if (20 <? SuspiciousInterval.totalTransactions i)%nat
      && (SuspiciousInterval.uniqueWallets i <? 5)%nat
   then 3 else 0)
  + 2 * SuspiciousInterval.washTradingCount i
  + (if ((10 <? SuspiciousInterval.buyToSellRatio i)
         || (SuspiciousInterval.buyToSellRatio i <? 0.1))%float
     then 2 else 0)
  + (if (3 <? SuspiciousInterval.whaleTransactionsCount i)%nat then 3 else 0).

(** A bucket is reported as a coordinated activity. *)
Definition reportedCoordinated (sortedData : list trade) (k : Z) : Prop :=
  exists c, In c (coordinatedActivities sortedData) /\ Coordinated.timestamp c = k.

(** The coordinated-activity rule as the specification words it: score at
    least 5 and at least 2 distinct whale wallets. *)
Definition coordination_as_specified (sortedData : list trade) : Prop :=
  forall k transactions,
    In (k, transactions) (detailedTimeIntervals sortedData) ->
    In (suspiciousIntervalOf (k, transactions))
       (suspiciousActivityIntervals sortedData) ->
    (reportedCoordinated sortedData k
     <-> (5 <= SuspiciousInterval.suspiciousScore
                 (suspiciousIntervalOf (k, transactions)))%nat
         /\ exists n,
              distinctCount
                (map trader_wallet_address (whaleTransactionsOf transactions)) n
              /\ (2 <= n)%nat).

(** Four whale buys of one wallet in one 300 s bucket. *)
Definition one_whale_rows : list raw_row :=
  map (fun n => buy_row (300 + Z.of_nat n) 1 10000 (Some "whale"%string))
    (seq 0 4).

Definition one_whale_bucket : list trade :=
  Eval vm_compute in sortedData one_whale_rows.

(** ** Trades without a wallet address *)

Definition has_address (tx : trade) : bool :=
  JS.truthy_str (trader_wallet_address tx).

(** The addresses that are present in a list of [Set] elements. *)
Fixpoint presentAddresses (s : list (option string)) : list string :=
  match s with
  | [] => []
  | Some a :: s' => a :: presentAddresses s'
  | None :: s' => presentAddresses s'
  end.

(** The buys and the sells of a wallet in a list of trades. *)
Definition buysOf (a : string) (l : list trade) : nat :=
  List.length
    (filter (fun tx => address_eqb (trader_wallet_address tx) (Some a) && is_buy tx) l).

Definition sellsOf (a : string) (l : list trade) : nat :=
  List.length
    (filter (fun tx => address_eqb (trader_wallet_address tx) (Some a) && is_sell tx) l).

(** Two trades without an address and two wallets in one 300 s bucket. *)
Definition anonymous_rows : list raw_row :=
  [ buy_row 300 1 10 None;
    buy_row 310 1 10 (Some "a"%string);
    sell_row 320 1 10 None None;
    sell_row 330 1 10 (Some "b"%string) None ].

Definition anonymous_bucket : list trade :=
  Eval vm_compute in sortedData anonymous_rows.

(** Trades of three hours, not in chronological order: two whale buys in
    each of the hours 1 and 2, two wallets that buy and sell within the
    300 s buckets 4200 and 8100, one buy and one sell of different wallets
    in the bucket 5400, and a single sell in the bucket 9000. *)
Definition tied_rows : list raw_row :=
  [ sell_row 9000 1 10 (Some "a"%string) None;
    buy_row 8100 1 10 (Some "a"%string);
    sell_row 8110 1 10 (Some "a"%string) None;
    buy_row 8120 1 10 (Some "b"%string);
    sell_row 8130 1 10 (Some "b"%string) None;
    buy_row 3600 1 10000 (Some "whale1"%string);
    buy_row 3700 1 20000 (Some "whale2"%string);
    buy_row 4200 1 10 (Some "a"%string);
    sell_row 4210 1 10 (Some "a"%string) None;
    buy_row 4220 1 10 (Some "b"%string);
    sell_row 4230 1 10 (Some "b"%string) None;
    buy_row 7200 1 10000 (Some "whale1"%string);
    buy_row 7250 1 30000 (Some "whale3"%string);
    buy_row 5400 1 10 (Some "a"%string);
    sell_row 5410 1 10 (Some "b"%string) None ].


(** ** Wallet activity *)

(** The trades of a wallet, in order. *)
Definition tradesOf (a : string) (l : list trade) : list trade :=
  filter (fun tx => address_eqb (trader_wallet_address tx) (Some a)) l.

(** The activity object built from a wallet's own trades: created at the
    first, updated by each in turn. *)
Definition activityOf (transactions : list trade) : option Activity.t :=
  match transactions with
  | [] => None
  | first :: _ =>
      Some (fold_left Activity.update transactions (Activity.create first))
  end.

(** ** Completion *)






(** ** Extreme prices *)

(** An extreme of the usable prices of [l] under the order [better]: the
    price of a trade of [l] that no usable price of [l] betters; none when
    [l] has no usable price. *)
Definition extreme_of (better : float -> float -> bool) (l : list trade)
  (o : option PriceStat.t) : Prop :=
  match o with
  | None => Forall (fun tx => JS.truthy (price tx) = false) l
  | Some m =>
      (exists tx, In tx l
                  /\ JS.truthy (price tx) = true
                  /\ price tx = PriceStat.price m
                  /\ trade_timestamp tx = PriceStat.time m)
      /\ Forall (fun tx => JS.truthy (price tx) = true ->
                           better (price tx) (PriceStat.price m) = false) l
  end.

(** * Properties *)

(** ** Stable sorting *)

Section SortFacts.
Context {A : Type} (key : A -> Z).

Lemma insert_perm (x : A) (l : list A) :
  Permutation (x :: l) (JS.insert key x l).
Proof.
  induction l as [|y l IH]; simpl.
  - apply Permutation_refl.
  - destruct (key x <=? key y).
    + apply Permutation_refl.
    + eapply perm_trans; [apply perm_swap|].
      now apply perm_skip.
Qed.

Lemma sort_perm (l : list A) : Permutation l (JS.sort key l).
Proof.
  induction l as [|x l IH]; simpl.
  - constructor.
  - eapply perm_trans; [apply perm_skip, IH|apply insert_perm].
Qed.

Lemma sort_In (l : list A) (x : A) : In x (JS.sort key l) <-> In x l.
Proof.
  split; apply Permutation_in;
    [apply Permutation_sym|]; apply sort_perm.
Qed.

Lemma insert_sorted (x : A) (l : list A) :
  StronglySorted (fun a b => key a <= key b) l ->
  StronglySorted (fun a b => key a <= key b) (JS.insert key x l).
Proof.
  induction 1 as [|y l Hl IH Hy]; simpl.
  - repeat constructor.
  - destruct (key x <=? key y) eqn:E.
    + apply Z.leb_le in E.
      constructor; [now constructor|].
      constructor; [exact E|].
      eapply Forall_impl; [|exact Hy].
      simpl; intros; lia.
    + apply Z.leb_gt in E.
      constructor; [exact IH|].
      apply Forall_forall; intros z Hz.
      apply (Permutation_in _ (Permutation_sym (insert_perm x l))) in Hz.
      destruct Hz as [<-|Hz]; [lia|].
      rewrite Forall_forall in Hy; now apply Hy.
Qed.

Lemma sort_sorted (l : list A) :
  StronglySorted (fun a b => key a <= key b) (JS.sort key l).
Proof.
  induction l as [|x l IH]; simpl.
  - constructor.
  - now apply insert_sorted.
Qed.

(** Stability: the elements of any one key are in their original order. *)
Lemma insert_filter_key (k : Z) (x : A) (l : list A) :
  filter (fun a => key a =? k) (JS.insert key x l)
  = filter (fun a => key a =? k) (x :: l).
Proof.
  induction l as [|y l IH]; simpl; [reflexivity|].
  destruct (key x <=? key y) eqn:E; simpl; [reflexivity|].
  apply Z.leb_gt in E.
  rewrite IH; simpl.
  destruct (key x =? k) eqn:Ex, (key y =? k) eqn:Ey; try reflexivity.
  apply Z.eqb_eq in Ex, Ey; lia.
Qed.

Lemma sort_stable (k : Z) (l : list A) :
  filter (fun a => key a =? k) (JS.sort key l)
  = filter (fun a => key a =? k) l.
Proof.
  induction l as [|x l IH]; simpl; [reflexivity|].
  rewrite insert_filter_key; simpl.
  now rewrite IH.
Qed.

End SortFacts.

(** ** [Object.entries] *)

Lemma entries_perm {A} (o : JS.object A) : Permutation o (JS.entries o).
Proof.
  unfold JS.entries.
  eapply perm_trans; [|apply Permutation_app_tail, sort_perm].
  induction o as [|e o IH]; simpl; [constructor|].
  destruct (JS.is_array_index (fst e)); simpl.
  - now apply perm_skip.
  - eapply perm_trans; [apply perm_skip, IH|].
    apply Permutation_middle.
Qed.

Lemma entries_In {A} (o : JS.object A) (e : Z * A) :
  In e (JS.entries o) <-> In e o.
Proof.
  split; apply Permutation_in;
    [apply Permutation_sym|]; apply entries_perm.
Qed.

Lemma entries_NoDup {A} (o : JS.object A) :
  NoDup (map fst o) -> NoDup (map fst (JS.entries o)).
Proof.
  apply Permutation_NoDup, Permutation_map, entries_perm.
Qed.

(** ** Creating and updating properties *)

Section UpsertFacts.
Context {K V : Type} (eqb : K -> K -> bool).
Context (eqb_eq : forall a b, eqb a b = true <-> a = b).

Lemma upsert_keys (k : K) (init : V) (f : V -> V) (o : list (K * V)) (k' : K) :
  In k' (map fst (JS.upsert eqb k init f o)) <-> k' = k \/ In k' (map fst o).
Proof.
  induction o as [|[k0 v] o IH]; simpl.
  - intuition.
  - destruct (eqb k k0) eqn:E; simpl.
    + apply eqb_eq in E; subst. intuition.
    + rewrite IH. intuition.
Qed.

Lemma upsert_NoDup (k : K) (init : V) (f : V -> V) (o : list (K * V)) :
  NoDup (map fst o) -> NoDup (map fst (JS.upsert eqb k init f o)).
Proof.
  induction o as [|[k0 v] o IH]; simpl; intros H.
  - repeat constructor. intros [].
  - inversion H as [|? ? Hn Hd]; subst.
    destruct (eqb k k0) eqn:E; simpl.
    + now constructor.
    + constructor; [|now apply IH].
      rewrite upsert_keys. intros [->|Hin]; [|now apply Hn].
      assert (eqb k k = true) as Ek by now apply eqb_eq.
      congruence.
Qed.

Lemma upsert_other (k : K) (init : V) (f : V -> V) (o : list (K * V))
  (k' : K) (v' : V) :
  k' <> k -> (In (k', v') (JS.upsert eqb k init f o) <-> In (k', v') o).
Proof.
  intros Hk.
  induction o as [|[k0 v] o IH]; simpl.
  - split; [intros [H|[]]; inversion H; subst; now elim Hk|intros []].
  - destruct (eqb k k0) eqn:E; simpl.
    + apply eqb_eq in E; subst.
      split; (intros [H|H]; [inversion H; subst; now elim Hk|now right]).
    + rewrite IH. reflexivity.
Qed.

Lemma upsert_same (k : K) (init : V) (f : V -> V) (o : list (K * V)) (v' : V) :
  NoDup (map fst o) ->
  (In (k, v') (JS.upsert eqb k init f o) <->
   (exists v, In (k, v) o /\ v' = f v)
   \/ (~ In k (map fst o) /\ v' = f init)).
Proof.
  induction o as [|[k0 v] o IH]; simpl; intros Hnd.
  - split.
    + intros [H|[]]. inversion H; subst. right. split; [intros []|reflexivity].
    + intros [[v [[] _]]|[_ ->]]. now left.
  - inversion Hnd as [|? ? Hn Hd]; subst.
    destruct (eqb k k0) eqn:E; simpl.
    + apply eqb_eq in E; subst k0.
      split.
      * intros [H|H].
        -- inversion H; subst. left. exists v. split; [now left|reflexivity].
        -- elim Hn. apply in_map_iff. now exists (k, v').
      * intros [[w [[H|H] ->]]|[Hno _]].
        -- inversion H; subst. now left.
        -- elim Hn. apply in_map_iff. now exists (k, w).
        -- elim Hno. now left.
    + assert (k <> k0) as Ek.
      { intros ->. assert (eqb k0 k0 = true) by now apply eqb_eq. congruence. }
      rewrite (IH Hd).
      split.
      * intros [H|[[w [H ->]]|[Hno ->]]].
        -- inversion H; subst. now elim Ek.
        -- left. exists w. split; [now right|reflexivity].
        -- right. split; [|reflexivity].
           intros [H|H]; [now elim Ek|now apply Hno].
      * intros [[w [[H|H] ->]]|[Hno ->]].
        -- inversion H; subst. now elim Ek.
        -- right. left. now exists w.
        -- right. right. split; [|reflexivity].
           intros H. apply Hno. now right.
Qed.

End UpsertFacts.

(** ** [groupBy] *)

Section GroupByFacts.
Context {A : Type}.

Lemma push_group_NoDup (k : Z) (x : A) (o : JS.object (list A)) :
  NoDup (map fst o) -> NoDup (map fst (Lodash.push_group k x o)).
Proof. apply upsert_NoDup, Z.eqb_eq. Qed.

Lemma push_group_other (k : Z) (x : A) (o : JS.object (list A))
  (k' : Z) (xs' : list A) :
  k' <> k -> (In (k', xs') (Lodash.push_group k x o) <-> In (k', xs') o).
Proof. apply upsert_other, Z.eqb_eq. Qed.

Lemma push_group_same (k : Z) (x : A) (o : JS.object (list A)) (xs' : list A) :
  NoDup (map fst o) ->
  (In (k, xs') (Lodash.push_group k x o) <->
   (exists xs, In (k, xs) o /\ xs' = xs ++ [x])
   \/ (~ In k (map fst o) /\ xs' = [x])).
Proof. apply (upsert_same Z.eqb Z.eqb_eq k [] (fun xs => xs ++ [x])). Qed.

Context (f : A -> Z).

Lemma groupBy_snoc (l : list A) (x : A) :
  Lodash.groupBy f (l ++ [x])
  = Lodash.push_group (f x) x (Lodash.groupBy f l).
Proof. unfold Lodash.groupBy. now rewrite fold_left_app. Qed.

Lemma groupBy_NoDup (l : list A) : NoDup (map fst (Lodash.groupBy f l)).
Proof.
  induction l as [|x l IH] using rev_ind.
  - constructor.
  - rewrite groupBy_snoc. now apply push_group_NoDup.
Qed.

(** A group holds exactly the elements of its key, in their order, and no
    group is empty. *)
Lemma groupBy_In (l : list A) (k : Z) (xs : list A) :
  In (k, xs) (Lodash.groupBy f l)
  <-> xs = filter (fun x => f x =? k) l /\ xs <> [].
Proof.
  revert k xs.
  induction l as [|x l IH] using rev_ind; intros k xs.
  - simpl. split; [intros []|intros [-> H]; now elim H].
  - rewrite groupBy_snoc, filter_app; simpl.
    destruct (f x =? k) eqn:E.
    + apply Z.eqb_eq in E; subst k.
      rewrite (push_group_same _ _ _ _ (groupBy_NoDup l)).
      split.
      * intros [[ys [H ->]]|[Hno ->]].
        -- apply IH in H. destruct H as [-> _].
           split; [reflexivity|]. now destruct (filter _ l).
        -- split; [|discriminate].
           destruct (filter (fun x0 => f x0 =? f x) l) as [|y ys] eqn:F;
             [reflexivity|].
           elim Hno. apply in_map_iff. exists (f x, y :: ys). split; [reflexivity|].
           apply IH. split; [now rewrite F|discriminate].
      * intros [-> _].
        destruct (filter (fun x0 => f x0 =? f x) l) as [|y ys] eqn:F.
        -- right. split; [|reflexivity].
           intros H. apply in_map_iff in H. destruct H as [[k' zs] [Hk H]].
           simpl in Hk; subst k'. apply IH in H. destruct H as [-> H].
           now apply H.
        -- left. exists (y :: ys). split; [|reflexivity].
           apply IH. split; [now rewrite F|discriminate].
    + apply Z.eqb_neq in E.
      rewrite push_group_other by congruence.
      rewrite app_nil_r. apply IH.
Qed.

End GroupByFacts.

(** The bucket of width [w] with key [k] holds exactly the trades of
    [k <= t < k + w]. *)
Lemma bucketKey_range (w k : Z) (tx : trade) :
  0 < w ->
  (bucketKey w tx = k
   <-> k mod w = 0 /\ k <= trade_timestamp tx < k + w).
Proof.
  intros Hw. unfold bucketKey.
  pose proof (Z.div_mod (trade_timestamp tx) w ltac:(lia)) as Hdm.
  pose proof (Z.mod_pos_bound (trade_timestamp tx) w Hw) as Hb.
  split.
  - intros <-. split; [apply Z.mod_mul; lia|lia].
  - intros [Hk Hr].
    apply Z.mod_divide in Hk; [|lia]. destruct Hk as [q ->].
    assert (trade_timestamp tx / w = q) as ->; [|reflexivity].
    symmetry. apply (Z.div_unique _ _ q (trade_timestamp tx - q * w)); lia.
Qed.

Lemma bucket_contents (w : Z) (sortedData : list trade) (k : Z)
  (transactions : list trade) :
  0 < w ->
  In (k, transactions) (JS.entries (Lodash.groupBy (bucketKey w) sortedData)) ->
  k mod w = 0
  /\ transactions <> []
  /\ transactions
     = filter (fun tx => (k <=? trade_timestamp tx) && (trade_timestamp tx <? k + w))
         sortedData.
Proof.
  intros Hw H. apply entries_In, groupBy_In in H. destruct H as [-> Hne].
  assert (k mod w = 0) as Hk.
  { destruct (filter _ sortedData) as [|tx l] eqn:F; [now elim Hne|].
    assert (In tx (filter (fun x => bucketKey w x =? k) sortedData)) as Hin
      by (rewrite F; now left).
    apply filter_In in Hin. destruct Hin as [_ Hin].
    apply Z.eqb_eq, bucketKey_range in Hin; tauto. }
  repeat split; [exact Hk|exact Hne|].
  apply filter_ext. intros tx.
  destruct (bucketKey w tx =? k) eqn:E.
  - apply Z.eqb_eq, bucketKey_range in E; [|exact Hw].
    symmetry. apply andb_true_iff. split; [apply Z.leb_le|apply Z.ltb_lt]; lia.
  - symmetry. apply not_true_iff_false. intros H.
    apply andb_true_iff in H. destruct H as [H1 H2].
    apply Z.leb_le in H1. apply Z.ltb_lt in H2.
    apply Z.eqb_neq in E. apply E. apply bucketKey_range; [exact Hw|]. tauto.
Qed.

(** ** JavaScript numbers *)

Lemma float_mul_comm (x y : float) : (x * y = y * x)%float.
Proof.
  rewrite <- (SF2Prim_Prim2SF (x * y)), <- (SF2Prim_Prim2SF (y * x)).
  rewrite !FloatAxioms.mul_spec. f_equal.
  unfold SF64mul, SFmul.
  destruct (Prim2SF x) as [sx|sx| |sx mx ex], (Prim2SF y) as [sy|sy| |sy my ey];
    try reflexivity; try (now rewrite xorb_comm).
  now rewrite xorb_comm, Pos.mul_comm, Z.add_comm.
Qed.

Lemma truthy_eqb_zero (v : float) :
  JS.truthy v = true -> (v =? 0)%float = false.
Proof.
  unfold JS.truthy. rewrite FloatAxioms.eqb_spec, !FloatAxioms.ltb_spec.
  replace (Prim2SF 0%float) with (S754_zero false) by reflexivity.
  unfold SFeqb, SFltb.
  destruct (Prim2SF v) as [s|s| |s m e]; simpl;
    try destruct s; simpl; try reflexivity; try discriminate.
Qed.


Lemma parseFloat_truthy (x : option float) :
  JS.truthy_num x = true -> JS.parseFloat x = JS.valueOf x.
Proof.
  destruct x as [v|]; simpl; [|reflexivity].
  unfold JS.truthy_num; simpl. intros H.
  now rewrite (truthy_eqb_zero _ H).
Qed.

Lemma parseFloat_falsy (x : option float) :
  JS.truthy_num x = false -> JS.truthy (JS.parseFloat x) = false.
Proof.
  destruct x as [v|]; simpl; [|reflexivity].
  unfold JS.truthy_num; simpl. intros H.
  destruct (v =? 0)%float; [reflexivity|exact H].
Qed.

Lemma orZero_parseFloat_truthy (x : option float) :
  JS.truthy_num x = true -> JS.orZero (JS.parseFloat x) = JS.valueOf x.
Proof.
  intros H. rewrite (parseFloat_truthy _ H).
  unfold JS.orZero. unfold JS.truthy_num in H. now rewrite H.
Qed.

Lemma orZero_parseFloat_falsy (x : option float) :
  JS.truthy_num x = false -> JS.orZero (JS.parseFloat x) = 0%float.
Proof.
  intros H. unfold JS.orZero. now rewrite (parseFloat_falsy _ H).
Qed.

(** ** The normaliser *)

Lemma buy_is_not_sell (s : option string) :
  JS.str_is s TOKEN_BUY = true -> JS.str_is s TOKEN_SELL = false.
Proof.
  destruct s as [s|]; simpl; [|discriminate].
  intros H. apply String.eqb_eq in H. now subst.
Qed.

(** What [transaction_value] is on a record the normaliser keeps. *)
Lemma processRow_value (row : raw_row) (tx : trade) :
  processRow row = Some tx ->
  transaction_value tx
  = if (is_buy tx || is_sell tx)
       && JS.truthy (price tx) && JS.truthy (active_amount tx)
    then (active_amount tx * price tx)%float
    else 0%float.
Proof.
  unfold processRow.
  destruct (negb (truthy_timestamp (raw_trade_timestamp row))
            || negb (JS.truthy_str (raw_type row))
            || negb (JS.truthy_num (raw_buy_amount row))
               && negb (JS.truthy_num (raw_sell_amount row)));
    [discriminate|].
  intros H. injection H as <-.
  unfold active_amount, is_buy, is_sell; simpl.
  destruct (JS.str_is (raw_type row) TOKEN_BUY) eqn:Eb.
  - simpl.
    destruct (JS.truthy_num (raw_buy_price row)) eqn:Ep;
      destruct (JS.truthy_num (raw_buy_amount row)) eqn:Ea; simpl.
    + rewrite (parseFloat_truthy _ Ep), (orZero_parseFloat_truthy _ Ea).
      unfold JS.truthy_num in Ep, Ea. rewrite Ep, Ea. simpl.
      apply float_mul_comm.
    + rewrite (buy_is_not_sell _ Eb). simpl.
      rewrite (orZero_parseFloat_falsy _ Ea).
      now rewrite andb_false_r.
    + rewrite (buy_is_not_sell _ Eb). simpl.
      now rewrite (parseFloat_falsy _ Ep).
    + rewrite (buy_is_not_sell _ Eb). simpl.
      now rewrite (parseFloat_falsy _ Ep).
  - simpl.
    destruct (JS.str_is (raw_type row) TOKEN_SELL) eqn:Es; simpl;
      [|reflexivity].
    destruct (JS.truthy_num (raw_sell_price row)) eqn:Ep;
      destruct (JS.truthy_num (raw_sell_amount row)) eqn:Ea; simpl.
    + rewrite (parseFloat_truthy _ Ep), (orZero_parseFloat_truthy _ Ea).
      unfold JS.truthy_num in Ep, Ea. rewrite Ep, Ea. simpl.
      apply float_mul_comm.
    + rewrite (orZero_parseFloat_falsy _ Ea).
      now rewrite andb_false_r.
    + now rewrite (parseFloat_falsy _ Ep).
    + now rewrite (parseFloat_falsy _ Ep).
Qed.

Lemma processedData_In (data : list raw_row) (tx : trade) :
  In tx (processedData data)
  <-> exists row, In row data /\ processRow row = Some tx.
Proof.
  induction data as [|row data IH]; simpl.
  - split; [intros []|intros [? [[] _]]].
  - destruct (processRow row) as [tx'|] eqn:E; simpl; rewrite ?IH.
    + split.
      * intros [<-|[r [Hr Hp]]]; [exists row; auto|exists r; auto].
      * intros [r [[<-|Hr] Hp]]; [left; congruence|right; now exists r].
    + split.
      * intros [r [Hr Hp]]. exists r; auto.
      * intros [r [[<-|Hr] Hp]]; [congruence|now exists r].
Qed.

(** C7, as the code has it: the output is the kept records sorted
    non-decreasing by timestamp, records of equal timestamp in their input
    order; the value of a buy or sell record whose price and amount are
    both present and non-zero is its amount times its price, and the value
    of every other record is 0. *)
Theorem sortedData_sorted_stable_valued (data : list raw_row) :
  ascending (sortedData data)
  /\ Permutation (processedData data) (sortedData data)
  /\ keeps_order_of_ties (processedData data) (sortedData data)
  /\ Forall
       (fun tx =>
          transaction_value tx
          = if (is_buy tx || is_sell tx)
               && JS.truthy (price tx) && JS.truthy (active_amount tx)
            then (active_amount tx * price tx)%float
            else 0%float)
       (sortedData data).
Proof.
  unfold ascending, keeps_order_of_ties, sortedData, Lodash.sortBy.
  split; [apply sort_sorted|].
  split; [apply sort_perm|].
  split; [intros t; apply sort_stable|].
  apply Forall_forall. intros tx Hin.
  apply sort_In, processedData_In in Hin.
  destruct Hin as [row [_ Hrow]].
  now apply (processRow_value row).
Qed.

(** C7, as stated, fails on a buy row with an empty price cell: the record
    is kept with value 0, amount 5 and price [NaN]. *)
Lemma sortedData_value_counterexample :
  ~ normalized_as_specified [row_without_price].
Proof.
  intros [_ [_ H]].
  apply Forall_inv in H.
  unfold value_is_product in H. vm_compute in H.
  assert (is_nan 0%float = is_nan nan) as E by (f_equal; exact H).
  vm_compute in E. discriminate.
Qed.

(** ** The empty dataset *)

(** C1: when normalisation keeps no record, the analysis does not return
    empty outputs: the time-range log reads [sortedData[0].trade_timestamp]
    and throws, and so does the market-period stage on its own
    ([sortedTransactions[0].trade_timestamp]). *)
Theorem analysis_of_empty_dataset_throws (data : list raw_row) :
  processedData data = [] ->
  analysis data
  = JS.Throw (JS.TypeError "Cannot read properties of undefined")
  /\ periods (sortedData data)
     = JS.Throw (JS.TypeError "Cannot read properties of undefined").
Proof.
  intros H. unfold analysis, processedDataRun, periods, sortedData.
  rewrite H. split; reflexivity.
Qed.

Lemma analysis_of_empty_dataset_throws_witness :
  processedData [row_without_timestamp] = []
  /\ analysis [row_without_timestamp]
     = JS.Throw (JS.TypeError "Cannot read properties of undefined")
  /\ periods (sortedData [row_without_timestamp])
     = JS.Throw (JS.TypeError "Cannot read properties of undefined").
Proof.
  split; [reflexivity|].
  apply (analysis_of_empty_dataset_throws [row_without_timestamp]).
  reflexivity.
Defined.

(** ** Market periods *)

Lemma prop_of_index_In {A} (arr : list A) (i : nat) (a : A) :
  JS.prop_of_index arr i = JS.Ok a -> In a arr.
Proof.
  unfold JS.prop_of_index.
  destruct (nth_error arr i) eqn:E; [|discriminate].
  intros H. injection H as <-. now apply nth_error_In in E.
Qed.

(** C9: the six periods do not cover the observed range: every period ends
    at or before the latest observed timestamp, so the latest trade lies in
    no period. *)
Theorem latest_trade_in_no_period (sortedData : list trade)
  (ps : list Period.t) (tx : trade) :
  periods sortedData = JS.Ok ps ->
  In tx sortedData ->
  Forall (fun tx' => trade_timestamp tx' <= trade_timestamp tx) sortedData ->
  List.length ps = 6%nat
  /\ Forall (fun p => ~ in_period p (trade_timestamp tx)) ps.
Proof.
  unfold periods, JS.bind. intros Hps Hin Hmax.
  destruct (JS.prop_of_index (sortedTransactions sortedData) 0)
    as [first|] eqn:E0; [|discriminate].
  destruct (JS.prop_of_index (sortedTransactions sortedData)
              (List.length (sortedTransactions sortedData) - 1))
    as [last|] eqn:E1; [|discriminate].
  injection Hps as <-.
  apply prop_of_index_In, sort_In in E0, E1.
  rewrite Forall_forall in Hmax.
  pose proof (Hmax _ E0) as H0. pose proof (Hmax _ E1) as H1.
  split; [reflexivity|].
  apply Forall_forall. intros p Hp.
  unfold periodsBetween in Hp. apply in_map_iff in Hp.
  destruct Hp as [i [<- Hi]]. apply in_seq in Hi.
  unfold in_period; simpl.
  pose proof (Z.mul_div_le (trade_timestamp last - trade_timestamp first) 6
                ltac:(lia)) as Hd.
  nia.
Qed.

Lemma latest_trade_in_no_period_witness :
  exists ps,
    periods (sortedData minute_rows) = JS.Ok ps
    /\ In minute_latest (sortedData minute_rows)
    /\ trade_timestamp minute_latest = 1060
    /\ map (fun p => (Period.startTime p, Period.endTime p)) ps
       = [(1000, 1010); (1010, 1020); (1020, 1030);
          (1030, 1040); (1040, 1050); (1050, 1060)]
    /\ List.length ps = 6%nat
    /\ Forall (fun p => ~ in_period p (trade_timestamp minute_latest)) ps.
Proof.
  eexists.
  split; [reflexivity|].
  split; [right; left; reflexivity|].
  split; [reflexivity|].
  split; [reflexivity|].
  apply (latest_trade_in_no_period (sortedData minute_rows)).
  - reflexivity.
  - right; left; reflexivity.
  - repeat constructor; simpl; lia.
Defined.

(** ** Whale entries *)

(** C8: the timestamp of a whale entry is the hour number
    [floor(t / 3600)] of its trades, which is not the start of the hour in
    epoch seconds: the hour starts at 3600 times the recorded timestamp. *)
Theorem whaleEntry_timestamp_is_hour_number (sortedData : list trade)
  (e : WhaleEntry.t) :
  In e (whaleEntries sortedData) ->
  exists tx,
    In tx sortedData
    /\ is_buy tx = true
    /\ (WHALE_THRESHOLD <=? transaction_value tx)%float = true
    /\ WhaleEntry.timestamp e = trade_timestamp tx / 3600
    /\ bucketKey 3600 tx = 3600 * WhaleEntry.timestamp e.
Proof.
  unfold whaleEntries. intros H.
  apply in_flat_map in H. destruct H as [[k txs] [Hk He]].
  unfold whaleEntryOf in He.
  destruct (2 <=? List.length (whaleBuysOf txs))%nat eqn:E; [|destruct He].
  destruct He as [<-|[]]. simpl.
  apply entries_In, groupBy_In in Hk. destruct Hk as [Htxs _].
  destruct (whaleBuysOf txs) as [|tx rest] eqn:W; [discriminate|].
  assert (In tx (whaleBuysOf txs)) as Hin by (rewrite W; now left).
  apply filter_In in Hin. destruct Hin as [Hin Hb].
  apply andb_true_iff in Hb. destruct Hb as [Hb Hv].
  rewrite Htxs in Hin. apply filter_In in Hin. destruct Hin as [Hin Hkey].
  apply Z.eqb_eq in Hkey. apply sort_In in Hin.
  exists tx. unfold bucketKey.
  split; [exact Hin|]. split; [exact Hb|]. split; [exact Hv|].
  rewrite Hkey. split; [reflexivity|apply Z.mul_comm].
Qed.

Lemma whaleEntry_timestamp_is_hour_number_witness :
  exists e,
    In e (whaleEntries (sortedData whale_hour_rows))
    /\ WhaleEntry.timestamp e = 2
    /\ exists tx,
         In tx (sortedData whale_hour_rows)
         /\ is_buy tx = true
         /\ (WHALE_THRESHOLD <=? transaction_value tx)%float = true
         /\ WhaleEntry.timestamp e = trade_timestamp tx / 3600
         /\ bucketKey 3600 tx = 3600 * WhaleEntry.timestamp e.
Proof.
  eexists.
  split; [left; reflexivity|].
  split; [reflexivity|].
  apply (whaleEntry_timestamp_is_hour_number (sortedData whale_hour_rows)).
  left; reflexivity.
Defined.

(** ** Suspicion scoring *)

Lemma scoreOf_specified (w : Wallet.t) : scoreOf w = specifiedScore w.
Proof.
  unfold scoreOf, specifiedScore, valueIncrement, ratioIncrement,
    frequencyIncrement, burstIncrement, profitIncrement.
  replace (WHALE_THRESHOLD * 10)%float with (10 * WHALE_THRESHOLD)%float
    by reflexivity.
  destruct (10 * WHALE_THRESHOLD <? Wallet.totalValue w)%float;
    destruct (WHALE_THRESHOLD <? Wallet.totalValue w)%float;
    destruct ((10 <? Wallet.buyToSellRatio w)
              || (Wallet.buyToSellRatio w <? 0.1))%float;
    destruct (10 <? Wallet.transactionFrequency w)%float;
    destruct (5 <? Wallet.transactionFrequency w)%float;
    destruct ((Wallet.timeActiveHours w <? 1)%float
              && (20 <? Wallet.transactionCount w)%nat);
    destruct (10 <? Wallet.netSOLChange w)%float;
    reflexivity.
Qed.

Lemma suspectedManipulators_In (sortedData : list trade) (w : Wallet.t) :
  In w (suspectedManipulators sortedData)
  <-> exists entry,
        In entry (walletActivity sortedData)
        /\ w = Wallet.with_score (profileOf entry) (scoreOf (profileOf entry)).
Proof.
  unfold suspectedManipulators, scoredWallets. rewrite map_map, in_map_iff.
  split; intros [entry [H1 H2]]; exists entry; auto.
Qed.

(** C5: the score of every wallet is the sum of the five increments of its
    profile, and a wallet with total value 150000, ratio 0, frequency 6,
    2 active hours, 12 transactions and net quote change 15 scores 13. *)
Theorem suspiciousScore_is_sum_of_increments (sortedData : list trade)
  (w : Wallet.t) :
  In w (suspectedManipulators sortedData) ->
  Wallet.suspiciousScore w = specifiedScore w
  /\ (Wallet.totalValue w = 150000%float ->
      Wallet.buyToSellRatio w = 0%float ->
      Wallet.transactionFrequency w = 6%float ->
      Wallet.timeActiveHours w = 2%float ->
      Wallet.transactionCount w = 12%nat ->
      Wallet.netSOLChange w = 15%float ->
      Wallet.suspiciousScore w = 13%nat).
Proof.
  intros H. apply suspectedManipulators_In in H.
  destruct H as [entry [_ ->]].
  assert (Wallet.suspiciousScore
            (Wallet.with_score (profileOf entry) (scoreOf (profileOf entry)))
          = specifiedScore
              (Wallet.with_score (profileOf entry) (scoreOf (profileOf entry))))
    as Hs by (simpl; now rewrite scoreOf_specified).
  split; [exact Hs|].
  rewrite Hs.
  unfold specifiedScore, valueIncrement, ratioIncrement, frequencyIncrement,
    burstIncrement, profitIncrement.
  intros -> -> -> -> -> ->. reflexivity.
Qed.

Lemma suspiciousScore_is_sum_of_increments_witness :
  exists w,
    In w (suspectedManipulators (sortedData scorer_rows))
    /\ Wallet.totalValue w = 150000%float
    /\ Wallet.buyToSellRatio w = 0%float
    /\ Wallet.transactionFrequency w = 6%float
    /\ Wallet.timeActiveHours w = 2%float
    /\ Wallet.transactionCount w = 12%nat
    /\ Wallet.netSOLChange w = 15%float
    /\ Wallet.suspiciousScore w = specifiedScore w
    /\ Wallet.suspiciousScore w = 13%nat.
Proof.
  exists scorer_wallet.
  assert (In scorer_wallet (suspectedManipulators (sortedData scorer_rows)))
    as Hin by (vm_compute; left; reflexivity).
  split; [exact Hin|].
  do 6 (split; [vm_compute; reflexivity|]).
  destruct (suspiciousScore_is_sum_of_increments _ _ Hin) as [H1 H2].
  split; [exact H1|].
  apply H2; vm_compute; reflexivity.
Defined.

(** C6: the buy-to-sell ratio of every wallet profile follows the
    convention (buys/sells when both counts are positive, [Infinity] when
    only the buy count is, 0 when both are 0), and the profile is always
    produced. *)
Theorem buyToSellRatio_convention (sortedData : list trade)
  (address : string) (activity : Activity.t) :
  In (address, activity) (walletActivity sortedData) ->
  let buys := Activity.count (Activity.buys activity) in
  let sells := Activity.count (Activity.sells activity) in
  let w := Wallet.with_score (profileOf (address, activity))
             (scoreOf (profileOf (address, activity))) in
  In w (suspectedManipulators sortedData)
  /\ ((0 < buys)%nat -> (0 < sells)%nat ->
      Wallet.buyToSellRatio w = (JS.ofNat buys / JS.ofNat sells)%float)
  /\ ((0 < buys)%nat -> sells = 0%nat -> Wallet.buyToSellRatio w = infinity)
  /\ (buys = 0%nat -> sells = 0%nat -> Wallet.buyToSellRatio w = 0%float)
  /\ (buys = 12%nat -> sells = 0%nat -> Wallet.buyToSellRatio w = infinity)
  /\ (buys = 9%nat -> sells = 3%nat -> Wallet.buyToSellRatio w = 3%float).
Proof.
  intros H buys sells w.
  split.
  { apply suspectedManipulators_In. now exists (address, activity). }
  subst w. simpl. unfold walletBuyToSellRatio. fold buys sells.
  repeat split.
  - intros Hb Hs.
    apply Nat.ltb_lt in Hb, Hs. now rewrite Hb, Hs.
  - intros Hb ->. apply Nat.ltb_lt in Hb. now rewrite Hb.
  - now intros -> ->.
  - now intros -> ->.
  - now intros -> ->.
Qed.

Lemma buyToSellRatio_convention_witness :
  (In ("a"%string, activity_a) (walletActivity (sortedData ratio_rows))
   /\ Activity.count (Activity.buys activity_a) = 9%nat
   /\ Activity.count (Activity.sells activity_a) = 3%nat
   /\ walletBuyToSellRatio activity_a = 3%float)
  /\ (In ("b"%string, activity_b) (walletActivity (sortedData ratio_rows))
      /\ Activity.count (Activity.buys activity_b) = 12%nat
      /\ Activity.count (Activity.sells activity_b) = 0%nat
      /\ walletBuyToSellRatio activity_b = infinity)
  /\ (In ("c"%string, activity_c) (walletActivity (sortedData ratio_rows))
      /\ Activity.count (Activity.buys activity_c) = 0%nat
      /\ Activity.count (Activity.sells activity_c) = 0%nat
      /\ walletBuyToSellRatio activity_c = 0%float).
Proof.
  assert (In ("a"%string, activity_a) (walletActivity (sortedData ratio_rows)))
    as Ha by (vm_compute; left; reflexivity).
  assert (In ("b"%string, activity_b) (walletActivity (sortedData ratio_rows)))
    as Hb by (vm_compute; right; left; reflexivity).
  assert (In ("c"%string, activity_c) (walletActivity (sortedData ratio_rows)))
    as Hc by (vm_compute; right; right; left; reflexivity).
  split; [|split].
  - split; [exact Ha|].
    do 2 (split; [reflexivity|]).
    apply (buyToSellRatio_convention _ _ _ Ha); reflexivity.
  - split; [exact Hb|].
    do 2 (split; [reflexivity|]).
    apply (buyToSellRatio_convention _ _ _ Hb); reflexivity.
  - split; [exact Hc|].
    do 2 (split; [reflexivity|]).
    apply (buyToSellRatio_convention _ _ _ Hc); reflexivity.
Defined.

(** ** Pump and dump *)

Lemma pumpPattern_pump (sortedData : list trade) (e : PriceChange.t)
  (c : Pump.t) :
  In c (pumpPattern sortedData e) -> Pump.pump c = e.
Proof.
  unfold pumpPattern.
  destruct ((5 <? List.length (retailBuysDuringPump sortedData e))%nat
            && (0 <? List.length (whaleSellsAfterPump sortedData e))%nat);
    [|intros []].
  intros [<-|[]]. reflexivity.
Qed.

Lemma pumpPattern_emits (sortedData : list trade) (e : PriceChange.t) :
  (exists c, In c (pumpPattern sortedData e))
  <-> (5 < List.length (retailBuysDuringPump sortedData e))%nat
      /\ whaleSellAfter sortedData e.
Proof.
  unfold pumpPattern, whaleSellAfter.
  destruct (5 <? List.length (retailBuysDuringPump sortedData e))%nat eqn:E5;
    simpl.
  - apply Nat.ltb_lt in E5.
    destruct (whaleSellsAfterPump sortedData e) as [|tx rest] eqn:W; simpl.
    + split; [intros [c []]|].
      intros [_ [tx [Hin [Hs [[H1 H2] Hv]]]]].
      assert (In tx (whaleSellsAfterPump sortedData e)) as Hw.
      { apply filter_In. split; [exact Hin|].
        rewrite Hs, Hv, andb_true_r. simpl.
        apply andb_true_iff. split; [apply Z.ltb_lt|apply Z.leb_le]; lia. }
      rewrite W in Hw. destruct Hw.
    + split; [|intros _; eexists; now left].
      intros _. split; [exact E5|].
      assert (In tx (whaleSellsAfterPump sortedData e)) as Hw
        by (rewrite W; now left).
      apply filter_In in Hw. destruct Hw as [Hin Hc].
      repeat (apply andb_true_iff in Hc; destruct Hc as [Hc ?]).
      exists tx. repeat split; auto; [apply Z.ltb_lt|apply Z.leb_le]; auto.
  - apply Nat.ltb_ge in E5.
    split; [intros [c []]|intros [H _]; lia].
Qed.

(** C3, as the code has it: for an upward price change of more than 10%, a
    candidate is emitted exactly when more than 5 retail buys (value in
    (0, RETAIL_THRESHOLD]) have a timestamp in the closed window
    [eventStart, eventEnd] and some sell of value at least MEDIUM_THRESHOLD
    has a timestamp in (eventEnd, eventEnd + 1800]; with 4 such buys there
    is no candidate. *)
Theorem pump_candidate_rule (sortedData : list trade) (e : PriceChange.t) :
  In e (priceChanges sortedData) ->
  (10 <? PriceChange.percentChange e)%float = true ->
  (candidateEmitted sortedData e
   <-> (5 < List.length (retailBuysDuringPump sortedData e))%nat
       /\ whaleSellAfter sortedData e)
  /\ (forall tx,
        In tx (retailBuysDuringPump sortedData e)
        <-> In tx sortedData
            /\ is_buy tx = true
            /\ PriceChange.startTimestamp e <= trade_timestamp tx
               <= PriceChange.endTimestamp e
            /\ (0 <? transaction_value tx)%float = true
            /\ (transaction_value tx <=? RETAIL_THRESHOLD)%float = true)
  /\ (List.length (retailBuysDuringPump sortedData e) = 4%nat ->
      ~ candidateEmitted sortedData e).
Proof.
  intros Hin Hup.
  assert (candidateEmitted sortedData e
          <-> (5 < List.length (retailBuysDuringPump sortedData e))%nat
              /\ whaleSellAfter sortedData e) as Hrule.
  { rewrite <- pumpPattern_emits.
    unfold candidateEmitted, pumpAndDumpPatterns.
    split.
    - intros [c [Hc Hp]].
      apply in_flat_map in Hc. destruct Hc as [e' [_ Hc]].
      rewrite (pumpPattern_pump _ _ _ Hc) in Hp. subst e'.
      now exists c.
    - intros [c Hc]. exists c.
      split; [|now apply (pumpPattern_pump sortedData)].
      apply in_flat_map. exists e. split; [|exact Hc].
      apply filter_In. now split. }
  split; [exact Hrule|]. split.
  - intros tx. unfold retailBuysDuringPump. rewrite filter_In.
    rewrite !andb_true_iff, Z.leb_le, Z.leb_le. tauto.
  - intros H4 Hc. apply Hrule in Hc. destruct Hc as [Hc _]. lia.
Qed.

Lemma pump_candidate_rule_witness :
  In pump_event (priceChanges (sortedData pump_rows))
  /\ (10 <? PriceChange.percentChange pump_event)%float = true
  /\ List.length (retailBuysDuringPump (sortedData pump_rows) pump_event) = 7%nat
  /\ (candidateEmitted (sortedData pump_rows) pump_event
      <-> (5 < List.length
                 (retailBuysDuringPump (sortedData pump_rows) pump_event))%nat
          /\ whaleSellAfter (sortedData pump_rows) pump_event).
Proof.
  assert (In pump_event (priceChanges (sortedData pump_rows))) as Hin
    by (vm_compute; left; reflexivity).
  split; [exact Hin|].
  split; [vm_compute; reflexivity|].
  split; [vm_compute; reflexivity|].
  apply (pump_candidate_rule (sortedData pump_rows) pump_event Hin).
  vm_compute; reflexivity.
Defined.

(** C3, as stated, fails when the retail buys are at the first second of
    the event window: the candidate is emitted although no retail buy is
    strictly inside the window. *)
Lemma pump_strict_window_counterexample :
  ~ pump_rule_as_specified (sortedData pump_rows).
Proof.
  intros H.
  assert (In pump_event (priceChanges (sortedData pump_rows))) as Hin
    by (vm_compute; left; reflexivity).
  assert ((10 <? PriceChange.percentChange pump_event)%float = true) as Hup
    by (vm_compute; reflexivity).
  destruct (H pump_event Hin Hup) as [Hrule _].
  assert (candidateEmitted (sortedData pump_rows) pump_event) as Hc.
  { eexists. split; [vm_compute; left; reflexivity|reflexivity]. }
  destruct (Hrule Hc) as [Hlen _].
  vm_compute in Hlen. lia.
Qed.

(** ** Price series and price changes *)

Lemma filter_filter_and {A} (p q : A -> bool) (l : list A) :
  filter q (filter p l) = filter (fun x => p x && q x) l.
Proof.
  induction l as [|x l IH]; simpl; [reflexivity|].
  destruct (p x); simpl; [|exact IH].
  destruct (q x); now rewrite IH.
Qed.

(** Dropping elements keeps their keys distinct. *)
Lemma filter_distinct_keys {V K} (keep : V -> bool) (key : V -> K)
  (vs : list V) (Hdistinct : NoDup (map key vs)) :
  NoDup (map key (filter keep vs)).
Proof.
  induction vs as [|v vs IH]; simpl; [constructor|].
  inversion Hdistinct as [|? ? Hn Hd]; subst.
  destruct (keep v); simpl; [|now apply IH].
  constructor; [|now apply IH].
  intros Hin. apply Hn.
  apply in_map_iff in Hin. destruct Hin as [y [Hy Hin]].
  apply filter_In in Hin. apply in_map_iff. exists y. tauto.
Qed.

Lemma sorted_NoDup_strict {A} (key : A -> Z) (l : list A) :
  StronglySorted (fun a b => key a <= key b) l ->
  NoDup (map key l) ->
  StronglySorted (fun a b => key a < key b) l.
Proof.
  induction 1 as [|x l Hl IH Hx]; simpl; intros Hnd; constructor.
  - apply IH. now inversion Hnd.
  - inversion Hnd as [|? ? Hn _]; subst.
    rewrite Forall_forall in *. intros y Hy.
    assert (key x <> key y).
    { intros E. apply Hn. rewrite E. now apply in_map. }
    specialize (Hx y Hy). lia.
Qed.







Lemma priceByInterval_timestamps (sortedData : list trade) :
  map PriceInterval.timestamp (priceByInterval sortedData)
  = map fst (JS.entries (timeIntervals sortedData)).
Proof.
  unfold priceByInterval. rewrite map_map. apply map_ext.
  now intros [k txs].
Qed.

Lemma sortedPriceIntervals_truthy (sortedData : list trade) :
  Forall (fun p => JS.truthy_num (PriceInterval.price p) = true)
    (sortedPriceIntervals sortedData).
Proof.
  apply Forall_forall. intros p H.
  apply sort_In, filter_In in H. tauto.
Qed.

(** The loop emits, in order, the adjacent pairs that move by more than 5%. *)
Lemma priceChangesLoop_pairs (prev : PriceInterval.t)
  (rest : list PriceInterval.t) :
  Forall (fun p => JS.truthy_num (PriceInterval.price p) = true) (prev :: rest) ->
  priceChangesLoop prev rest
  = map (fun pair => changeOf (fst pair) (snd pair))
      (filter (fun pair => (5 <? abs (percentChangeOf (fst pair) (snd pair)))%float)
         (adjacentPairs (prev :: rest))).
Proof.
  revert prev. induction rest as [|curr rest IH]; intros prev H;
    [reflexivity|].
  inversion H as [|? ? Hp Hrest]; subst.
  pose proof (Forall_inv Hrest) as Hc.
  cbn [priceChangesLoop]. rewrite Hp, Hc. cbn [andb].
  rewrite (IH curr Hrest).
  unfold adjacentPairs. cbn [tl combine filter fst snd].
  now destruct (5 <? abs (percentChangeOf prev curr))%float.
Qed.

Lemma priceChangesOf_pairs (series : list PriceInterval.t) :
  Forall (fun p => JS.truthy_num (PriceInterval.price p) = true) series ->
  priceChangesOf series
  = map (fun pair => changeOf (fst pair) (snd pair))
      (filter (fun pair => (5 <? abs (percentChangeOf (fst pair) (snd pair)))%float)
         (adjacentPairs series)).
Proof.
  destruct series as [|first rest]; [reflexivity|].
  apply priceChangesLoop_pairs.
Qed.


(** ** Sets *)

Section SetFacts.
Context {A : Type} (eqb : A -> A -> bool).
Context (eqb_eq : forall a b, eqb a b = true <-> a = b).

Lemma set_add_In (x : A) (s : list A) (a : A) :
  In a (JS.set_add eqb x s) <-> a = x \/ In a s.
Proof.
  induction s as [|y s IH]; simpl.
  - intuition.
  - destruct (eqb x y) eqn:E; simpl.
    + apply eqb_eq in E; subst. intuition.
    + rewrite IH. intuition.
Qed.

Lemma set_add_NoDup (x : A) (s : list A) :
  NoDup s -> NoDup (JS.set_add eqb x s).
Proof.
  induction s as [|y s IH]; simpl; intros H.
  - repeat constructor. intros [].
  - destruct (eqb x y) eqn:E; [exact H|].
    inversion H as [|? ? Hn Hd]; subst.
    constructor; [|now apply IH].
    rewrite set_add_In. intros [->|Hin]; [|now apply Hn].
    assert (eqb x x = true) by now apply eqb_eq. congruence.
Qed.

Lemma set_of_snoc (l : list A) (x : A) :
  JS.set_of eqb (l ++ [x]) = JS.set_add eqb x (JS.set_of eqb l).
Proof. unfold JS.set_of. now rewrite fold_left_app. Qed.

Lemma set_of_In (l : list A) (a : A) : In a (JS.set_of eqb l) <-> In a l.
Proof.
  induction l as [|x l IH] using rev_ind; [reflexivity|].
  rewrite set_of_snoc, set_add_In, IH, in_app_iff. simpl. intuition.
Qed.

Lemma set_of_NoDup (l : list A) : NoDup (JS.set_of eqb l).
Proof.
  induction l as [|x l IH] using rev_ind; [constructor|].
  rewrite set_of_snoc. now apply set_add_NoDup.
Qed.

Lemma set_of_distinctCount (l : list A) :
  distinctCount l (List.length (JS.set_of eqb l)).
Proof.
  exists (JS.set_of eqb l).
  split; [apply set_of_NoDup|]. split; [apply set_of_In|reflexivity].
Qed.

End SetFacts.

Lemma address_eqb_eq (a b : option string) : address_eqb a b = true <-> a = b.
Proof.
  destruct a as [x|], b as [y|]; simpl; try (split; congruence).
  rewrite String.eqb_eq. split; congruence.
Qed.

(** The number of distinct elements does not depend on the enumeration. *)
Lemma distinctCount_unique {A} (l : list A) (n m : nat) :
  distinctCount l n -> distinctCount l m -> n = m.
Proof.
  intros [s [Hs [Hin <-]]] [t [Ht [Hin' <-]]].
  apply Permutation_length, NoDup_Permutation; auto.
  intros a. now rewrite Hin, Hin'.
Qed.

Lemma presentAddresses_In (s : list (option string)) (a : string) :
  In a (presentAddresses s) <-> In (Some a) s.
Proof.
  induction s as [|[b|] s IH]; simpl.
  - reflexivity.
  - rewrite IH. split; (intros [H|H]; [left; congruence|now right]).
  - rewrite IH. split; [now right|intros [H|H]; [discriminate|exact H]].
Qed.

Lemma presentAddresses_NoDup (s : list (option string)) :
  NoDup s -> NoDup (presentAddresses s).
Proof.
  induction 1 as [|[b|] s Hn Hd IH]; simpl; auto.
  - constructor.
  - constructor; [|exact IH]. now rewrite presentAddresses_In.
Qed.

(** In a set that holds [null], [null] is one element. *)
Lemma presentAddresses_length (s : list (option string)) :
  NoDup s -> In None s ->
  List.length s = S (List.length (presentAddresses s)).
Proof.
  induction 1 as [|[b|] s Hn Hd IH]; simpl; intros Hin.
  - destruct Hin.
  - destruct Hin as [Hin|Hin]; [discriminate|]. now rewrite IH.
  - f_equal. clear IH Hin.
    induction s as [|[c|] s IH]; simpl; [reflexivity| |].
    + f_equal. apply IH; [|now inversion Hd].
      intros H. apply Hn. now right.
    + elim Hn. now left.
Qed.

(** ** Skipping rows in a [forEach] *)

Lemma fold_left_skip {A B} (step : B -> A -> B) (keep : A -> bool) (l : list A) :
  (forall acc x, keep x = false -> step acc x = acc) ->
  forall acc, fold_left step l acc = fold_left step (filter keep l) acc.
Proof.
  intros Hskip. induction l as [|x l IH]; intros acc; simpl; [reflexivity|].
  destruct (keep x) eqn:E; simpl.
  - apply IH.
  - rewrite (Hskip _ _ E). apply IH.
Qed.

Lemma walletActivity_skips (sortedData : list trade) :
  walletActivity sortedData = walletActivity (filter has_address sortedData).
Proof.
  unfold walletActivity. apply fold_left_skip.
  intros acc x H. unfold has_address in H. now rewrite H.
Qed.

Lemma walletActions_skips (transactions : list trade) :
  walletActions transactions = walletActions (filter has_address transactions).
Proof.
  unfold walletActions. apply fold_left_skip.
  intros acc x H. unfold has_address in H. now rewrite H.
Qed.

(** ** Wash-trader candidates *)

Lemma walletActions_snoc (l : list trade) (tx : trade) :
  walletActions (l ++ [tx])
  = if negb (JS.truthy_str (trader_wallet_address tx)) then walletActions l
    else match trader_wallet_address tx with
         | Some address => actionStep address tx (walletActions l)
         | None => walletActions l
         end.
Proof. unfold walletActions. now rewrite fold_left_app. Qed.

Lemma walletActions_NoDup (l : list trade) : NoDup (map fst (walletActions l)).
Proof.
  induction l as [|tx l IH] using rev_ind; [constructor|].
  rewrite walletActions_snoc.
  destruct (negb (JS.truthy_str (trader_wallet_address tx))); [exact IH|].
  destruct (trader_wallet_address tx); [|exact IH].
  apply upsert_NoDup; [apply String.eqb_eq|exact IH].
Qed.

Lemma counts_snoc_other (a : string) (l : list trade) (tx : trade) :
  trader_wallet_address tx <> Some a ->
  buysOf a (l ++ [tx]) = buysOf a l /\ sellsOf a (l ++ [tx]) = sellsOf a l.
Proof.
  intros H. unfold buysOf, sellsOf. rewrite !filter_app; simpl.
  destruct (address_eqb (trader_wallet_address tx) (Some a)) eqn:E.
  - apply address_eqb_eq in E. contradiction.
  - simpl. now rewrite !app_nil_r.
Qed.

Lemma counts_snoc_same (a : string) (l : list trade) (tx : trade) :
  trader_wallet_address tx = Some a ->
  (buysOf a (l ++ [tx]), sellsOf a (l ++ [tx]))
  = countAction tx (buysOf a l, sellsOf a l).
Proof.
  intros H. unfold buysOf, sellsOf, countAction.
  rewrite !filter_app, !length_app; simpl.
  rewrite H. rewrite (proj2 (address_eqb_eq (Some a) (Some a)) eq_refl). simpl.
  destruct (is_buy tx) eqn:Eb.
  - unfold is_buy in Eb. unfold is_sell. rewrite (buy_is_not_sell _ Eb).
    simpl. f_equal; lia.
  - destruct (is_sell tx); simpl; f_equal; lia.
Qed.

Lemma counts_zero (a : string) (l : list trade) :
  (forall tx, In tx l -> trader_wallet_address tx <> Some a) ->
  buysOf a l = 0%nat /\ sellsOf a l = 0%nat.
Proof.
  intros H. unfold buysOf, sellsOf.
  induction l as [|tx l IH]; simpl; [now split|].
  destruct (address_eqb (trader_wallet_address tx) (Some a)) eqn:E.
  - apply address_eqb_eq in E. elim (H tx (or_introl eq_refl) E).
  - simpl. apply IH. intros tx' Hin. apply H. now right.
Qed.

(** The [walletActions] object of a bucket: a property for every
    non-empty address of the bucket, holding the counts of its buys and
    sells. *)
Lemma walletActions_In (l : list trade) (a : string) (c : nat * nat) :
  In (a, c) (walletActions l)
  <-> a <> EmptyString
      /\ (exists tx, In tx l /\ trader_wallet_address tx = Some a)
      /\ c = (buysOf a l, sellsOf a l).
Proof.
  revert a c. induction l as [|tx l IH] using rev_ind; intros a c.
  - simpl. split; [intros []|intros [_ [[tx [[] _]] _]]].
  - assert (forall tx', In tx' (l ++ [tx]) <-> In tx' l \/ tx' = tx) as Hsnoc.
    { intros tx'. rewrite in_app_iff. simpl. intuition. }
    assert (trader_wallet_address tx <> Some a ->
            (In (a, c) (walletActions l)
             <-> a <> EmptyString
                 /\ (exists tx0, In tx0 (l ++ [tx])
                                 /\ trader_wallet_address tx0 = Some a)
                 /\ c = (buysOf a (l ++ [tx]), sellsOf a (l ++ [tx]))))
      as Hother.
    { intros Hne. rewrite IH.
      destruct (counts_snoc_other a l tx Hne) as [-> ->].
      split; intros [H1 [[tx0 [H2 H3]] H4]]; repeat split; auto.
      - exists tx0. rewrite Hsnoc. auto.
      - exists tx0. apply Hsnoc in H2. destruct H2 as [H2| ->]; [auto|].
        contradiction. }
    rewrite walletActions_snoc.
    destruct (trader_wallet_address tx) as [a0|] eqn:Ea; simpl;
      [|apply Hother; discriminate].
    destruct (String.eqb a0 EmptyString) eqn:E0; simpl.
    { apply String.eqb_eq in E0. subst a0.
      destruct (string_dec a EmptyString) as [->|Hne].
      - split; [|now intros [H _]].
        intros H. apply IH in H. now destruct H as [H _].
      - apply Hother. congruence. }
    apply String.eqb_neq in E0.
    destruct (string_dec a a0) as [->|Hne].
    + unfold actionStep.
      rewrite (upsert_same String.eqb String.eqb_eq _ _ _ _ _
                 (walletActions_NoDup l)).
      rewrite (counts_snoc_same a0 l tx Ea).
      split.
      * intros [[c0 [H ->]]|[Hno ->]].
        -- apply IH in H. destruct H as [_ [_ ->]].
           repeat split; [exact E0|exists tx; rewrite Hsnoc; auto].
        -- repeat split; [exact E0|exists tx; rewrite Hsnoc; auto|].
           destruct (counts_zero a0 l) as [-> ->]; [|reflexivity].
           intros tx' Hin Htx'. apply Hno.
           apply in_map_iff. exists (a0, (buysOf a0 l, sellsOf a0 l)).
           split; [reflexivity|]. apply IH. repeat split; auto.
           now exists tx'.
      * intros [_ [_ ->]].
        destruct (in_dec string_dec a0 (map fst (walletActions l))) as [Hk|Hk].
        -- left. apply in_map_iff in Hk. destruct Hk as [[a1 c0] [Hk Hin]].
           simpl in Hk; subst a1. exists c0. split; [exact Hin|].
           apply IH in Hin. now destruct Hin as [_ [_ ->]].
        -- right. split; [exact Hk|].
           destruct (counts_zero a0 l) as [-> ->]; [|reflexivity].
           intros tx' Hin Htx'. apply Hk.
           apply in_map_iff. exists (a0, (buysOf a0 l, sellsOf a0 l)).
           split; [reflexivity|]. apply IH. repeat split; auto.
           now exists tx'.
    + unfold actionStep.
      rewrite (upsert_other String.eqb String.eqb_eq) by exact Hne.
      apply Hother. congruence.
Qed.

Lemma count_positive (p : trade -> bool) (l : list trade) :
  (0 < List.length (filter p l))%nat <-> exists tx, In tx l /\ p tx = true.
Proof.
  split.
  - destruct (filter p l) as [|tx rest] eqn:F; simpl; [lia|].
    intros _. exists tx. apply filter_In. rewrite F. now left.
  - intros [tx H]. apply filter_In in H.
    destruct (filter p l); [destruct H|simpl; lia].
Qed.

Lemma potentialWashTraders_NoDup (l : list trade) :
  NoDup (potentialWashTraders l).
Proof. apply filter_distinct_keys, walletActions_NoDup. Qed.

Lemma potentialWashTraders_In (l : list trade) (a : string) :
  In a (potentialWashTraders l) <-> isWashTrader l a.
Proof.
  unfold potentialWashTraders, isWashTrader. rewrite in_map_iff.
  assert (forall side,
            (0 < List.length
                   (filter (fun tx => address_eqb (trader_wallet_address tx) (Some a)
                                      && side tx) l))%nat
            <-> exists tx, In tx l /\ trader_wallet_address tx = Some a
                           /\ side tx = true) as Hside.
  { intros side. rewrite count_positive.
    split; intros [tx [H1 H2]]; exists tx.
    - apply andb_true_iff in H2. rewrite address_eqb_eq in H2. tauto.
    - rewrite andb_true_iff, address_eqb_eq. tauto. }
  split.
  - intros [[a' [b s]] [Ha H]]. simpl in Ha; subst a'.
    apply filter_In in H. destruct H as [H Hpos]. simpl in Hpos.
    apply walletActions_In in H. destruct H as [H0 [_ Hc]].
    injection Hc as -> ->.
    apply andb_true_iff in Hpos. destruct Hpos as [Hb Hs].
    apply Nat.ltb_lt in Hb, Hs.
    split; [exact H0|]. split; [now apply (Hside is_buy)|now apply (Hside is_sell)].
  - intros [H0 [Hb Hs]].
    exists (a, (buysOf a l, sellsOf a l)). split; [reflexivity|].
    apply filter_In. split.
    + apply walletActions_In. repeat split; auto.
      destruct Hb as [tx [H1 [H2 _]]]. now exists tx.
    + simpl. apply andb_true_iff.
      split; apply Nat.ltb_lt; [now apply (Hside is_buy)|now apply (Hside is_sell)].
Qed.

(** ** Suspicious intervals *)

Lemma StronglySorted_weaken {A} (R R' : A -> A -> Prop) (l : list A) :
  (forall a b, R a b -> R' a b) -> StronglySorted R l -> StronglySorted R' l.
Proof.
  intros HR. induction 1 as [|x l Hl IH Hx]; constructor; auto.
  eapply Forall_impl; [|exact Hx]. auto.
Qed.

Lemma suspiciousIntervalOf_score (entry : Z * list trade) :
  SuspiciousInterval.suspiciousScore (suspiciousIntervalOf entry)
  = specifiedIntervalScore (suspiciousIntervalOf entry).
Proof.
  destruct entry as [k txs].
  unfold specifiedIntervalScore, suspiciousIntervalOf.
  cbn [SuspiciousInterval.suspiciousScore SuspiciousInterval.totalTransactions
       SuspiciousInterval.uniqueWallets SuspiciousInterval.washTradingCount
       SuspiciousInterval.buyToSellRatio
       SuspiciousInterval.whaleTransactionsCount].
  destruct ((20 <? List.length txs)%nat
            && (List.length
                  (JS.set_of address_eqb (map trader_wallet_address txs)) <? 5)%nat);
    destruct (List.length (potentialWashTraders txs)) as [|n];
    destruct ((10 <? countRatio (List.length (filter is_buy txs))
                       (List.length (filter is_sell txs)))
              || (countRatio (List.length (filter is_buy txs))
                    (List.length (filter is_sell txs)) <? 0.1))%float;
    destruct (3 <? List.length (whaleTransactionsOf txs))%nat;
    cbn [Nat.ltb Nat.leb]; lia.
Qed.

Lemma suspiciousActivityIntervals_In (sortedData : list trade)
  (i : SuspiciousInterval.t) :
  In i (suspiciousActivityIntervals sortedData)
  <-> (0 < SuspiciousInterval.suspiciousScore i)%nat
      /\ exists k transactions,
           In (k, transactions) (detailedTimeIntervals sortedData)
           /\ i = suspiciousIntervalOf (k, transactions).
Proof.
  unfold suspiciousActivityIntervals.
  rewrite sort_In, filter_In, in_map_iff, Nat.ltb_lt.
  split.
  - intros [[[k txs] [<- H]] Hs]. rewrite entries_In in H.
    split; [exact Hs|]. now exists k, txs.
  - intros [Hs [k [txs [H ->]]]]. split; [|exact Hs].
    exists (k, txs). split; [reflexivity|]. now rewrite entries_In.
Qed.

Lemma detailedTimeIntervals_functional (sortedData : list trade) (k : Z)
  (txs txs' : list trade) :
  In (k, txs) (detailedTimeIntervals sortedData) ->
  In (k, txs') (detailedTimeIntervals sortedData) ->
  txs = txs'.
Proof.
  unfold detailedTimeIntervals. rewrite !groupBy_In.
  intros [-> _] [-> _]. reflexivity.
Qed.

Lemma reportedCoordinated_iff (sortedData : list trade) (k : Z)
  (transactions : list trade) :
  In (k, transactions) (detailedTimeIntervals sortedData) ->
  (reportedCoordinated sortedData k
   <-> isCoordinated (suspiciousIntervalOf (k, transactions)) = true).
Proof.
  intros Hin. unfold reportedCoordinated, coordinatedActivities.
  split.
  - intros [c [Hc Hk]].
    apply in_map_iff in Hc. destruct Hc as [i [<- Hi]].
    apply filter_In in Hi. destruct Hi as [Hi Hco].
    apply suspiciousActivityIntervals_In in Hi.
    destruct Hi as [_ [k' [txs' [Hin' ->]]]].
    simpl in Hk. subst k'.
    now rewrite (detailedTimeIntervals_functional _ _ _ _ Hin Hin').
  - intros Hco. exists (coordinatedOf (suspiciousIntervalOf (k, transactions))).
    split; [|reflexivity].
    apply in_map, filter_In. split; [|exact Hco].
    apply suspiciousActivityIntervals_In. split; [|now exists k, transactions].
    unfold isCoordinated in Hco. apply andb_true_iff in Hco.
    destruct Hco as [Hco _]. apply Nat.leb_le in Hco. lia.
Qed.

(** C2, as the code has it: the score of every 300 s bucket is the sum
    +3 if totalTransactions > 20 and uniqueWallets < 5, plus twice the
    number of wash-trader candidates, plus 2 if the buy-to-sell ratio is
    above 10 or below 0.1, plus 3 if more than 3 transactions have a value
    of at least WHALE_THRESHOLD; the buckets with a positive score are
    retained, sorted by descending score; and a bucket is reported as a
    coordinated activity exactly when its score is at least 5 and it holds
    at least 2 whale transactions. *)
Theorem suspicious_interval_scoring (sortedData : list trade) :
  (forall k transactions,
     In (k, transactions) (detailedTimeIntervals sortedData) ->
     let i := suspiciousIntervalOf (k, transactions) in
     transactions
     = filter (fun tx => (k <=? trade_timestamp tx) && (trade_timestamp tx <? k + 300))
         sortedData
     /\ SuspiciousInterval.totalTransactions i = List.length transactions
     /\ distinctCount (map trader_wallet_address transactions)
          (SuspiciousInterval.uniqueWallets i)
     /\ (exists ws,
           NoDup ws
           /\ (forall a, In a ws <-> isWashTrader transactions a)
           /\ SuspiciousInterval.washTradingCount i = List.length ws)
     /\ SuspiciousInterval.buyToSellRatio i
        = countRatio (List.length (filter is_buy transactions))
            (List.length (filter is_sell transactions))
     /\ SuspiciousInterval.whaleTransactionsCount i
        = List.length
            (filter (fun tx => (WHALE_THRESHOLD <=? transaction_value tx)%float)
               transactions)
     /\ SuspiciousInterval.suspiciousScore i = specifiedIntervalScore i
     /\ (In i (suspiciousActivityIntervals sortedData)
         <-> (0 < SuspiciousInterval.suspiciousScore i)%nat)
     /\ (reportedCoordinated sortedData k
         <-> (5 <= SuspiciousInterval.suspiciousScore i)%nat
             /\ (2 <= SuspiciousInterval.whaleTransactionsCount i)%nat))
  /\ StronglySorted
       (fun a b => (SuspiciousInterval.suspiciousScore b
                    <= SuspiciousInterval.suspiciousScore a)%nat)
       (suspiciousActivityIntervals sortedData)
  /\ Forall
       (fun i =>
          (0 < SuspiciousInterval.suspiciousScore i)%nat
          /\ exists k transactions,
               In (k, transactions) (detailedTimeIntervals sortedData)
               /\ i = suspiciousIntervalOf (k, transactions))
       (suspiciousActivityIntervals sortedData).
Proof.
  split; [|split].
  - intros k txs Hin i.
    split.
    { pose proof Hin as H. unfold detailedTimeIntervals in H.
      rewrite <- entries_In in H.
      now destruct (bucket_contents 300 sortedData k txs ltac:(lia) H)
        as [_ [_ Htxs]]. }
    split; [reflexivity|].
    split; [apply (set_of_distinctCount address_eqb address_eqb_eq)|].
    split.
    { exists (potentialWashTraders txs).
      split; [apply potentialWashTraders_NoDup|].
      split; [apply potentialWashTraders_In|reflexivity]. }
    split; [reflexivity|]. split; [reflexivity|].
    split; [apply suspiciousIntervalOf_score|].
    split.
    { rewrite suspiciousActivityIntervals_In.
      split; [tauto|]. intros H. split; [exact H|]. now exists k, txs. }
    rewrite (reportedCoordinated_iff _ _ _ Hin).
    unfold isCoordinated. fold i.
    now rewrite andb_true_iff, !Nat.leb_le.
  - unfold suspiciousActivityIntervals.
    eapply StronglySorted_weaken; [|apply sort_sorted].
    simpl. intros a b. lia.
  - apply Forall_forall. intros i.
    now rewrite suspiciousActivityIntervals_In.
Qed.

Lemma suspicious_interval_scoring_witness :
  In (300, one_whale_bucket) (detailedTimeIntervals (sortedData one_whale_rows))
  /\ SuspiciousInterval.suspiciousScore
       (suspiciousIntervalOf (300%Z, one_whale_bucket)) = 5%nat
  /\ SuspiciousInterval.suspiciousScore
       (suspiciousIntervalOf (300%Z, one_whale_bucket))
     = specifiedIntervalScore (suspiciousIntervalOf (300%Z, one_whale_bucket))
  /\ (reportedCoordinated (sortedData one_whale_rows) 300
      <-> (5 <= SuspiciousInterval.suspiciousScore
                  (suspiciousIntervalOf (300%Z, one_whale_bucket)))%nat
          /\ (2 <= SuspiciousInterval.whaleTransactionsCount
                     (suspiciousIntervalOf (300%Z, one_whale_bucket)))%nat).
Proof.
  assert (In (300, one_whale_bucket)
            (detailedTimeIntervals (sortedData one_whale_rows))) as Hin
    by (vm_compute; left; reflexivity).
  split; [exact Hin|].
  split; [vm_compute; reflexivity|].
  destruct (suspicious_interval_scoring (sortedData one_whale_rows)) as [H _].
  destruct (H 300 one_whale_bucket Hin) as (_ & _ & _ & _ & _ & _ & Hs & _ & Hc).
  split; [exact Hs|exact Hc].
Defined.

(** C2, as stated, fails on a bucket of four whale buys by one wallet: it
    scores 5 and is reported as a coordinated activity with a single
    distinct whale wallet. *)
Lemma coordination_counterexample :
  ~ coordination_as_specified (sortedData one_whale_rows).
Proof.
  intros H.
  assert (In (300, one_whale_bucket)
            (detailedTimeIntervals (sortedData one_whale_rows))) as Hin
    by (vm_compute; left; reflexivity).
  assert (In (suspiciousIntervalOf (300, one_whale_bucket))
            (suspiciousActivityIntervals (sortedData one_whale_rows))) as Hi
    by (vm_compute; left; reflexivity).
  destruct (H 300 one_whale_bucket Hin Hi) as [Hrep _].
  destruct Hrep as [_ [n [Hn Hle]]].
  { eexists. split; [vm_compute; left; reflexivity|reflexivity]. }
  pose proof (set_of_distinctCount address_eqb address_eqb_eq
                (map trader_wallet_address
                   (whaleTransactionsOf one_whale_bucket))) as H1.
  pose proof (distinctCount_unique _ _ _ Hn H1) as E.
  vm_compute in E. lia.
Qed.


(** ** Trades without a wallet address *)

Lemma walletActivity_snoc (l : list trade) (tx : trade) :
  walletActivity (l ++ [tx])
  = if negb (JS.truthy_str (trader_wallet_address tx)) then walletActivity l
    else match trader_wallet_address tx with
         | Some address => walletStep address tx (walletActivity l)
         | None => walletActivity l
         end.
Proof. unfold walletActivity. now rewrite fold_left_app. Qed.

(** The wallets with a profile are the non-empty addresses of the trades. *)
Lemma walletActivity_keys (l : list trade) (a : string) :
  In a (map fst (walletActivity l))
  <-> a <> EmptyString
      /\ exists tx, In tx l /\ trader_wallet_address tx = Some a.
Proof.
  induction l as [|tx l IH] using rev_ind.
  - simpl. split; [intros []|intros [_ [tx [[] _]]]].
  - assert ((a <> EmptyString
             /\ exists tx0, In tx0 (l ++ [tx]) /\ trader_wallet_address tx0 = Some a)
            <-> (a <> EmptyString /\ trader_wallet_address tx = Some a)
                \/ In a (map fst (walletActivity l))) as Hsnoc.
    { rewrite IH. split.
      - intros [H0 [tx0 [Hin Ha]]]. apply in_app_iff in Hin.
        destruct Hin as [Hin|[<-|[]]]; [right|left]; auto.
        split; [exact H0|now exists tx0].
      - intros [[H0 Ha]|[H0 [tx0 [Hin Ha]]]]; (split; [exact H0|]).
        + exists tx. split; [apply in_app_iff; right; now left|exact Ha].
        + exists tx0. split; [apply in_app_iff; now left|exact Ha]. }
    rewrite Hsnoc, walletActivity_snoc.
    destruct (trader_wallet_address tx) as [a0|] eqn:Ea; simpl.
    + destruct (String.eqb a0 EmptyString) eqn:E0; simpl.
      * apply String.eqb_eq in E0. subst a0.
        split; [now right|]. intros [[H0 H]|H]; [|exact H].
        injection H as <-. now elim H0.
      * apply String.eqb_neq in E0. unfold walletStep.
        rewrite (upsert_keys String.eqb String.eqb_eq).
        split.
        -- intros [->|H]; [left; now split|now right].
        -- intros [[_ H]|H]; [left; congruence|now right].
    + split; [now right|]. intros [[_ H]|H]; [discriminate|exact H].
Qed.

(** C10: trades without a wallet address create no wallet profile and no
    wash-trader candidate, and in a bucket that contains such trades they
    count as one wallet: the unique-wallet count is one more than the
    number of distinct addresses present. *)
Theorem addressless_trades (sortedData : list trade) :
  walletActivity sortedData = walletActivity (filter has_address sortedData)
  /\ (forall a,
        In a (map fst (walletActivity sortedData))
        <-> a <> EmptyString
            /\ exists tx, In tx sortedData /\ trader_wallet_address tx = Some a)
  /\ (forall k transactions,
        let i := suspiciousIntervalOf (k, transactions) in
        SuspiciousInterval.potentialWashTraders i
        = potentialWashTraders (filter has_address transactions)
        /\ (forall a,
              In a (SuspiciousInterval.potentialWashTraders i) ->
              a <> EmptyString
              /\ exists tx,
                   In tx transactions /\ trader_wallet_address tx = Some a)
        /\ ((exists tx, In tx transactions /\ trader_wallet_address tx = None) ->
            exists present,
              NoDup present
              /\ (forall a,
                    In a present
                    <-> exists tx,
                          In tx transactions
                          /\ trader_wallet_address tx = Some a)
              /\ SuspiciousInterval.uniqueWallets i = S (List.length present))).
Proof.
  split; [apply walletActivity_skips|].
  split; [apply walletActivity_keys|].
  intros k txs i. subst i. unfold suspiciousIntervalOf.
  cbn [SuspiciousInterval.potentialWashTraders SuspiciousInterval.uniqueWallets].
  split.
  { unfold potentialWashTraders. now rewrite <- walletActions_skips. }
  split.
  { intros a Ha. apply potentialWashTraders_In in Ha.
    destruct Ha as [H0 [[tx [Hin [Ha _]]] _]].
    split; [exact H0|now exists tx]. }
  intros [tx [Hin Hnone]].
  pose proof (set_of_NoDup address_eqb address_eqb_eq
                (map trader_wallet_address txs)) as Hnd.
  pose proof (set_of_In address_eqb address_eqb_eq
                (map trader_wallet_address txs)) as Hset.
  exists (presentAddresses (JS.set_of address_eqb (map trader_wallet_address txs))).
  split; [now apply presentAddresses_NoDup|].
  split.
  - intros a. rewrite presentAddresses_In, Hset, in_map_iff.
    split; intros [tx' H]; exists tx'; tauto.
  - apply presentAddresses_length; [exact Hnd|].
    apply Hset, in_map_iff. now exists tx.
Qed.

Lemma addressless_trades_witness :
  (exists tx, In tx anonymous_bucket /\ trader_wallet_address tx = None)
  /\ walletActivity (sortedData anonymous_rows)
     = walletActivity (filter has_address (sortedData anonymous_rows))
  /\ map fst (walletActivity (sortedData anonymous_rows))
     = ["a"%string; "b"%string]
  /\ SuspiciousInterval.uniqueWallets
       (suspiciousIntervalOf (300, anonymous_bucket)) = 3%nat
  /\ exists present,
       NoDup present
       /\ (forall a,
             In a present
             <-> exists tx,
                   In tx anonymous_bucket /\ trader_wallet_address tx = Some a)
       /\ SuspiciousInterval.uniqueWallets
            (suspiciousIntervalOf (300, anonymous_bucket))
          = S (List.length present).
Proof.
  assert (exists tx, In tx anonymous_bucket /\ trader_wallet_address tx = None)
    as Hnone by (eexists; split; [left; reflexivity|reflexivity]).
  split; [exact Hnone|].
  destruct (addressless_trades (sortedData anonymous_rows)) as (H1 & _ & H3).
  split; [exact H1|].
  split; [vm_compute; reflexivity|].
  split; [vm_compute; reflexivity|].
  destruct (H3 300 anonymous_bucket) as (_ & _ & H).
  exact (H Hnone).
Defined.

(** * Further properties of the analysis *)

(** ** Normalised records *)

Lemma orZero_cases (x : float) :
  JS.orZero x = 0%float \/ JS.truthy (JS.orZero x) = true.
Proof.
  unfold JS.orZero. destruct (JS.truthy x) eqn:E; [right; exact E|now left].
Qed.

Lemma processRow_invariants (row : raw_row) (tx : trade) :
  processRow row = Some tx ->
  trade_timestamp tx <> 0
  /\ JS.truthy_str (type tx) = true
  /\ (buy_amount tx = 0%float \/ JS.truthy (buy_amount tx) = true)
  /\ (sell_amount tx = 0%float \/ JS.truthy (sell_amount tx) = true)
  /\ (is_buy tx = false -> buy_amount tx = 0%float)
  /\ (is_sell tx = false -> sell_amount tx = 0%float)
  /\ (is_buy tx = false -> is_sell tx = false ->
      transaction_value tx = 0%float).
Proof.
  unfold processRow.
  destruct (truthy_timestamp (raw_trade_timestamp row)) eqn:Et;
    [|discriminate].
  destruct (JS.truthy_str (raw_type row)) eqn:Ety; [|discriminate].
  cbn [negb orb].
  destruct (negb (JS.truthy_num (raw_buy_amount row))
            && negb (JS.truthy_num (raw_sell_amount row)));
    [discriminate|].
  intros H. injection H as <-.
  unfold is_buy, is_sell.
  cbn [trade_timestamp type buy_amount sell_amount transaction_value].
  split.
  { destruct (raw_trade_timestamp row) as [z|]; [|discriminate].
    simpl in Et. apply negb_true_iff, Z.eqb_neq in Et. exact Et. }
  split; [exact Ety|].
  split.
  { destruct (JS.str_is (raw_type row) TOKEN_BUY);
      [apply orZero_cases|now left]. }
  split.
  { destruct (JS.str_is (raw_type row) TOKEN_SELL);
      [apply orZero_cases|now left]. }
  split; [now intros ->|].
  split; [now intros ->|].
  now intros -> ->.
Qed.

(** X1: every record the normaliser keeps has a non-zero timestamp and a
    non-empty type; its amounts are numbers (0 or a non-zero number, never
    [NaN]); the amount of a side the record is not on is 0; and a record
    that is neither a buy nor a sell has value 0. *)
Theorem normalized_record_invariants (data : list raw_row) :
  Forall
    (fun tx =>
       trade_timestamp tx <> 0
       /\ JS.truthy_str (type tx) = true
       /\ (buy_amount tx = 0%float \/ JS.truthy (buy_amount tx) = true)
       /\ (sell_amount tx = 0%float \/ JS.truthy (sell_amount tx) = true)
       /\ (is_buy tx = false -> buy_amount tx = 0%float)
       /\ (is_sell tx = false -> sell_amount tx = 0%float)
       /\ (is_buy tx = false -> is_sell tx = false ->
           transaction_value tx = 0%float))
    (sortedData data).
Proof.
  apply Forall_forall. intros tx Hin.
  apply sort_In, processedData_In in Hin.
  destruct Hin as [row [_ Hrow]].
  now apply (processRow_invariants row).
Qed.

(** ** Sorting again *)

Section SortAgain.
Context {A : Type} (key : A -> Z).

Lemma insert_least (x : A) (l : list A) :
  Forall (fun y => key x <= key y) l -> JS.insert key x l = x :: l.
Proof.
  destruct l as [|y l]; simpl; [reflexivity|].
  intros H. apply Forall_inv in H.
  destruct (key x <=? key y) eqn:E; [reflexivity|].
  apply Z.leb_gt in E. lia.
Qed.

Lemma sort_ascending_fixed (l : list A) :
  StronglySorted (fun a b => key a <= key b) l -> JS.sort key l = l.
Proof.
  induction 1 as [|x l Hl IH Hx]; simpl; [reflexivity|].
  rewrite IH. now apply insert_least.
Qed.

End SortAgain.

(** X2: sorting the sorted data once more (line 530) changes nothing, so
    the market periods and the whale entries read the trades in the order
    of [sortedData]. *)
Theorem sortedTransactions_is_sortedData (data : list raw_row) :
  sortedTransactions (sortedData data) = sortedData data
  /\ timeWindows (sortedData data)
     = Lodash.groupBy (fun tx => trade_timestamp tx / 3600) (sortedData data).
Proof.
  assert (sortedTransactions (sortedData data) = sortedData data) as H.
  { unfold sortedTransactions, Lodash.sortBy.
    apply sort_ascending_fixed. apply sort_sorted. }
  split; [exact H|]. unfold timeWindows. now rewrite H.
Qed.

(** ** Grouping loses nothing *)

Lemma list_sum_perm (l l' : list nat) :
  Permutation l l' -> list_sum l = list_sum l'.
Proof. induction 1; simpl; lia. Qed.

Lemma list_sum_lengths {A} (groups : list (list A)) :
  list_sum (map (@List.length A) groups) = List.length (List.concat groups).
Proof.
  induction groups as [|g groups IH]; simpl; [reflexivity|].
  now rewrite length_app, IH.
Qed.

Lemma push_group_concat {A} (k : Z) (x : A) (o : JS.object (list A)) :
  Permutation (List.concat (map snd (Lodash.push_group k x o)))
    (x :: List.concat (map snd o)).
Proof.
  unfold Lodash.push_group.
  induction o as [|[k' xs] o IH]; simpl; [apply Permutation_refl|].
  destruct (k =? k'); simpl.
  - rewrite <- app_assoc. simpl.
    apply Permutation_sym, Permutation_middle.
  - eapply perm_trans; [apply Permutation_app_head, IH|].
    apply Permutation_sym, Permutation_middle.
Qed.

Lemma groupBy_concat {A} (f : A -> Z) (l : list A) :
  Permutation (List.concat (map snd (Lodash.groupBy f l))) l.
Proof.
  induction l as [|x l IH] using rev_ind; [constructor|].
  rewrite groupBy_snoc.
  eapply perm_trans; [apply push_group_concat|].
  eapply perm_trans; [apply perm_skip, IH|].
  apply Permutation_cons_append.
Qed.

Lemma entries_group_total {A} (o : JS.object (list A)) :
  list_sum (map (fun e => List.length (snd e)) (JS.entries o))
  = List.length (List.concat (map snd o)).
Proof.
  rewrite <- list_sum_lengths, map_map.
  apply list_sum_perm, Permutation_map, Permutation_sym, entries_perm.
Qed.

Lemma filter_exclusive_length {A} (p q : A -> bool) (l : list A) :
  (forall x, p x = true -> q x = false) ->
  (List.length (filter p l) + List.length (filter q l) <= List.length l)%nat.
Proof.
  intros H. induction l as [|x l IH]; simpl; [lia|].
  destruct (p x) eqn:Ep.
  - rewrite (H x Ep). simpl. lia.
  - destruct (q x); simpl; lia.
Qed.

Lemma is_buy_not_sell (tx : trade) : is_buy tx = true -> is_sell tx = false.
Proof. apply buy_is_not_sell. Qed.

(** X4: the 600 s buckets partition the trades: their transaction counts
    add up to the number of trades, no bucket is empty, the bucket
    timestamps are distinct multiples of 600, and in every bucket the buys
    and the sells together are at most the transactions. *)
Theorem priceByInterval_partitions (sortedData : list trade) :
  list_sum (map PriceInterval.totalTransactions (priceByInterval sortedData))
  = List.length sortedData
  /\ NoDup (map PriceInterval.timestamp (priceByInterval sortedData))
  /\ Forall
       (fun p =>
          PriceInterval.timestamp p mod 600 = 0
          /\ (1 <= PriceInterval.totalTransactions p)%nat
          /\ (PriceInterval.buyCount p + PriceInterval.sellCount p
              <= PriceInterval.totalTransactions p)%nat)
       (priceByInterval sortedData).
Proof.
  split; [|split].
  - unfold priceByInterval. rewrite map_map.
    rewrite (map_ext _ (fun e => List.length (snd e)))
      by (now intros [k txs]).
    rewrite entries_group_total.
    apply Permutation_length, groupBy_concat.
  - rewrite priceByInterval_timestamps.
    apply entries_NoDup, groupBy_NoDup.
  - apply Forall_forall. intros p Hp.
    apply in_map_iff in Hp. destruct Hp as [[k txs] [<- Hin]].
    destruct (bucket_contents 600 sortedData k txs ltac:(lia) Hin)
      as [Hk [Hne _]].
    simpl. split; [exact Hk|]. split.
    + destruct txs; [now elim Hne|simpl; lia].
    + apply filter_exclusive_length, is_buy_not_sell.
Qed.

(** ** Wallet activity *)

Lemma walletActivity_NoDup (l : list trade) : NoDup (map fst (walletActivity l)).
Proof.
  induction l as [|tx l IH] using rev_ind; [constructor|].
  rewrite walletActivity_snoc.
  destruct (negb (JS.truthy_str (trader_wallet_address tx))); [exact IH|].
  destruct (trader_wallet_address tx); [|exact IH].
  apply upsert_NoDup; [apply String.eqb_eq|exact IH].
Qed.

Lemma tradesOf_snoc (a : string) (l : list trade) (tx : trade) :
  tradesOf a (l ++ [tx])
  = if address_eqb (trader_wallet_address tx) (Some a)
    then tradesOf a l ++ [tx] else tradesOf a l.
Proof.
  unfold tradesOf. rewrite filter_app. simpl.
  destruct (address_eqb (trader_wallet_address tx) (Some a));
    [reflexivity|apply app_nil_r].
Qed.

Lemma activityOf_snoc (transactions : list trade) (tx : trade) :
  activityOf (transactions ++ [tx])
  = Some match activityOf transactions with
         | Some w => Activity.update w tx
         | None => Activity.update (Activity.create tx) tx
         end.
Proof.
  destruct transactions as [|first rest]; simpl; [reflexivity|].
  now rewrite fold_left_app.
Qed.

Lemma tradesOf_nonempty (a : string) (l : list trade) :
  tradesOf a l <> []
  <-> exists tx, In tx l /\ trader_wallet_address tx = Some a.
Proof.
  unfold tradesOf. split.
  - destruct (filter _ l) as [|tx rest] eqn:F; [intros H; now elim H|].
    intros _. exists tx.
    assert (In tx (filter (fun tx => address_eqb (trader_wallet_address tx)
                                       (Some a)) l)) as H
      by (rewrite F; now left).
    apply filter_In in H. now rewrite address_eqb_eq in H.
  - intros [tx [Hin Ha]] E.
    assert (In tx (filter (fun tx => address_eqb (trader_wallet_address tx)
                                       (Some a)) l)) as H
      by (apply filter_In; now rewrite address_eqb_eq).
    rewrite E in H. destruct H.
Qed.

(** The activity of a wallet is built from its own trades alone. *)
Lemma walletActivity_In (l : list trade) (a : string) (w : Activity.t) :
  In (a, w) (walletActivity l)
  <-> a <> EmptyString /\ activityOf (tradesOf a l) = Some w.
Proof.
  revert a w. induction l as [|tx l IH] using rev_ind; intros a w.
  - simpl. split; [intros []|intros [_ H]; discriminate].
  - rewrite walletActivity_snoc, tradesOf_snoc.
    assert (trader_wallet_address tx <> Some a ->
            address_eqb (trader_wallet_address tx) (Some a) = false) as Hneq.
    { intros H. apply not_true_iff_false. now rewrite address_eqb_eq. }
    destruct (trader_wallet_address tx) as [a0|] eqn:Ea; simpl;
      [|rewrite IH; reflexivity].
    destruct (String.eqb a0 EmptyString) eqn:E0; simpl.
    { apply String.eqb_eq in E0. subst a0. rewrite IH.
      destruct (String.eqb EmptyString a) eqn:E; [|reflexivity].
      apply String.eqb_eq in E. subst a. split; now intros [H _]. }
    apply String.eqb_neq in E0.
    destruct (String.eqb a0 a) eqn:E.
    + apply String.eqb_eq in E. subst a0.
      unfold walletStep.
      rewrite (upsert_same String.eqb String.eqb_eq _ _ _ _ _
                 (walletActivity_NoDup l)).
      rewrite activityOf_snoc.
      split.
      * intros [[w0 [H ->]]|[Hno ->]].
        -- apply IH in H. destruct H as [_ ->]. now split.
        -- split; [exact E0|].
           destruct (activityOf (tradesOf a l)) as [w0|] eqn:Ew; [|reflexivity].
           elim Hno. apply in_map_iff. exists (a, w0). split; [reflexivity|].
           apply IH. now split.
      * intros [_ H]. injection H as <-.
        destruct (activityOf (tradesOf a l)) as [w0|] eqn:Ew.
        -- left. exists w0. split; [|reflexivity]. apply IH. now split.
        -- right. split; [|reflexivity].
           intros Hk. apply in_map_iff in Hk.
           destruct Hk as [[a1 w1] [Hk Hin]]. simpl in Hk. subst a1.
           apply IH in Hin. destruct Hin as [_ Hin]. congruence.
    + apply String.eqb_neq in E. unfold walletStep.
      rewrite (upsert_other String.eqb String.eqb_eq) by congruence.
      apply IH.
Qed.

Lemma fold_min_spec (l : list Z) (m0 : Z) :
  fold_left Z.min l m0 <= m0
  /\ Forall (fun x => fold_left Z.min l m0 <= x) l
  /\ (fold_left Z.min l m0 = m0 \/ In (fold_left Z.min l m0) l).
Proof.
  revert m0. induction l as [|x l IH]; intros m0; simpl.
  - split; [lia|]. split; [constructor|now left].
  - destruct (IH (Z.min m0 x)) as [H1 [H2 H3]].
    split; [lia|]. split.
    + constructor; [lia|exact H2].
    + destruct H3 as [H3|H3]; [|right; now right].
      rewrite H3. destruct (Z.min_spec m0 x) as [[_ ->]|[_ ->]];
        [now left|right; now left].
Qed.

Lemma fold_max_spec (l : list Z) (m0 : Z) :
  m0 <= fold_left Z.max l m0
  /\ Forall (fun x => x <= fold_left Z.max l m0) l
  /\ (fold_left Z.max l m0 = m0 \/ In (fold_left Z.max l m0) l).
Proof.
  revert m0. induction l as [|x l IH]; intros m0; simpl.
  - split; [lia|]. split; [constructor|now left].
  - destruct (IH (Z.max m0 x)) as [H1 [H2 H3]].
    split; [lia|]. split.
    + constructor; [lia|exact H2].
    + destruct H3 as [H3|H3]; [|right; now right].
      rewrite H3. destruct (Z.max_spec m0 x) as [[_ ->]|[_ ->]];
        [right; now left|now left].
Qed.

(** What a run of updates does to the counters and to the first and last
    timestamps. *)
Lemma fold_update_stats (transactions : list trade) (w0 : Activity.t) :
  let w := fold_left Activity.update transactions w0 in
  Activity.totalTransactions w
  = (Activity.totalTransactions w0 + List.length transactions)%nat
  /\ Activity.count (Activity.buys w)
     = (Activity.count (Activity.buys w0)
        + List.length (filter is_buy transactions))%nat
  /\ Activity.count (Activity.sells w)
     = (Activity.count (Activity.sells w0)
        + List.length (filter is_sell transactions))%nat
  /\ Activity.firstSeen w
     = fold_left Z.min (map trade_timestamp transactions) (Activity.firstSeen w0)
  /\ Activity.lastSeen w
     = fold_left Z.max (map trade_timestamp transactions) (Activity.lastSeen w0).
Proof.
  revert w0. induction transactions as [|tx l IH]; intros w0; simpl.
  - repeat split; lia.
  - destruct (IH (Activity.update w0 tx)) as (H1 & H2 & H3 & H4 & H5).
    rewrite H1, H2, H3, H4, H5. clear.
    unfold Activity.update at 1 2 3 4 5; simpl.
    destruct (is_buy tx) eqn:Eb; simpl.
    + rewrite (is_buy_not_sell _ Eb). simpl. repeat split; lia.
    + destruct (is_sell tx); simpl; repeat split; lia.
Qed.

(** The first and the last timestamp of a wallet are timestamps of its
    trades. *)
Lemma wallet_first_last_attained (sortedData : list trade) (a : string)
  (w : Activity.t) :
  In (a, w) (walletActivity sortedData) ->
  (exists tx, In tx (tradesOf a sortedData)
              /\ trade_timestamp tx = Activity.firstSeen w)
  /\ (exists tx, In tx (tradesOf a sortedData)
                 /\ trade_timestamp tx = Activity.lastSeen w).
Proof.
  intros Hin. apply walletActivity_In in Hin. destruct Hin as [_ Hw].
  destruct (tradesOf a sortedData) as [|first rest] eqn:T; [discriminate|].
  simpl in Hw. injection Hw as <-.
  destruct (fold_update_stats (first :: rest) (Activity.create first))
    as (_ & _ & _ & H4 & H5).
  cbn zeta in H4, H5.
  change (fold_left Activity.update rest
            (Activity.update (Activity.create first) first))
    with (fold_left Activity.update (first :: rest) (Activity.create first)).
  rewrite H4, H5. cbn [Activity.create Activity.firstSeen Activity.lastSeen].
  destruct (fold_min_spec (map trade_timestamp (first :: rest))
              (trade_timestamp first)) as [_ [_ Hmin]].
  destruct (fold_max_spec (map trade_timestamp (first :: rest))
              (trade_timestamp first)) as [_ [_ Hmax]].
  split.
  - assert (In (fold_left Z.min (map trade_timestamp (first :: rest))
                  (trade_timestamp first))
              (map trade_timestamp (first :: rest))) as H
      by (destruct Hmin as [->|H]; [now left|exact H]).
    apply in_map_iff in H. destruct H as [tx [H Hin]]. now exists tx.
  - assert (In (fold_left Z.max (map trade_timestamp (first :: rest))
                  (trade_timestamp first))
              (map trade_timestamp (first :: rest))) as H
      by (destruct Hmax as [->|H]; [now left|exact H]).
    apply in_map_iff in H. destruct H as [tx [H Hin]]. now exists tx.
Qed.


(** X6: for a wallet whose trades all have one timestamp (a single trade,
    or a burst within one second), the active time is 0 hours and the
    transaction frequency is the transaction count: nothing is divided by
    zero. *)
Theorem single_timestamp_wallet (sortedData : list trade) (a : string)
  (w : Activity.t) (t : Z) :
  In (a, w) (walletActivity sortedData) ->
  Forall (fun tx => trade_timestamp tx = t) (tradesOf a sortedData) ->
  Wallet.timeActiveHours (profileOf (a, w)) = 0%float
  /\ Wallet.transactionFrequency (profileOf (a, w))
     = JS.ofNat (Activity.totalTransactions w).
Proof.
  intros Hin Hall.
  assert (In (a, w) (walletActivity sortedData) -> Activity.lastSeen w
          - Activity.firstSeen w = 0) as Hspan.
  { intros H.
    destruct (wallet_first_last_attained sortedData a w H)
      as [[tx1 [H1 E1]] [tx2 [H2 E2]]].
    rewrite Forall_forall in Hall.
    rewrite <- E1, <- E2, (Hall _ H1), (Hall _ H2). lia. }
  unfold profileOf. simpl. rewrite (Hspan Hin).
  split; reflexivity.
Qed.

Lemma single_timestamp_wallet_witness :
  In ("c"%string, activity_c) (walletActivity (sortedData ratio_rows))
  /\ Forall (fun tx => trade_timestamp tx = 30)
       (tradesOf "c"%string (sortedData ratio_rows))
  /\ Wallet.timeActiveHours (profileOf ("c"%string, activity_c)) = 0%float
  /\ Wallet.transactionFrequency (profileOf ("c"%string, activity_c))
     = JS.ofNat (Activity.totalTransactions activity_c).
Proof.
  assert (In ("c"%string, activity_c) (walletActivity (sortedData ratio_rows)))
    as Hin by (vm_compute; right; right; left; reflexivity).
  assert (Forall (fun tx => trade_timestamp tx = 30)
            (tradesOf "c"%string (sortedData ratio_rows))) as Hall
    by (vm_compute; repeat constructor).
  split; [exact Hin|]. split; [exact Hall|].
  exact (single_timestamp_wallet _ _ _ 30 Hin Hall).
Defined.

(** ** Wallet scores *)

Lemma specifiedScore_bound (w : Wallet.t) : (specifiedScore w <= 18)%nat.
Proof.
  unfold specifiedScore, valueIncrement, ratioIncrement, frequencyIncrement,
    burstIncrement, profitIncrement.
  destruct (10 * WHALE_THRESHOLD <? Wallet.totalValue w)%float;
    destruct (WHALE_THRESHOLD <? Wallet.totalValue w)%float;
    destruct ((10 <? Wallet.buyToSellRatio w)
              || (Wallet.buyToSellRatio w <? 0.1))%float;
    destruct (10 <? Wallet.transactionFrequency w)%float;
    destruct (5 <? Wallet.transactionFrequency w)%float;
    destruct ((Wallet.timeActiveHours w <? 1)%float
              && (20 <? Wallet.transactionCount w)%nat);
    destruct (10 <? Wallet.netSOLChange w)%float;
    simpl; lia.
Qed.

Lemma one_sided_ratio (activity : Activity.t) :
  Activity.count (Activity.buys activity) = 0%nat
  \/ Activity.count (Activity.sells activity) = 0%nat ->
  ((10 <? walletBuyToSellRatio activity)
   || (walletBuyToSellRatio activity <? 0.1))%float = true.
Proof.
  unfold walletBuyToSellRatio.
  intros [->| ->]; simpl; [reflexivity|].
  rewrite andb_false_r.
  now destruct (0 <? Activity.count (Activity.buys activity))%nat.
Qed.

(** X7: the suspicion score of a wallet is at most 18, and a wallet that
    has no buy or no sell (for instance a wallet with a single trade) has
    an extreme ratio and scores at least 3. *)
Theorem wallet_score_range (sortedData : list trade) :
  Forall
    (fun w =>
       (Wallet.suspiciousScore w <= 18)%nat
       /\ (Activity.count (Wallet.buys w) = 0%nat
           \/ Activity.count (Wallet.sells w) = 0%nat ->
           (3 <= Wallet.suspiciousScore w)%nat))
    (suspectedManipulators sortedData).
Proof.
  apply Forall_forall. intros w Hw.
  apply suspectedManipulators_In in Hw.
  destruct Hw as [[a activity] [_ ->]].
  cbn [Wallet.with_score Wallet.suspiciousScore Wallet.buys Wallet.sells].
  rewrite scoreOf_specified.
  split; [apply specifiedScore_bound|].
  intros H. apply one_sided_ratio in H.
  unfold specifiedScore, ratioIncrement.
  cbn [profileOf Wallet.buyToSellRatio Wallet.buys Wallet.sells].
  rewrite H. lia.
Qed.

(** ** The top wallets *)

Lemma StronglySorted_app_cross {A} (R : A -> A -> Prop) (l1 l2 : list A) :
  StronglySorted R (l1 ++ l2) ->
  Forall (fun a => Forall (R a) l2) l1.
Proof.
  induction l1 as [|x l1 IH]; simpl; intros H; [constructor|].
  inversion H as [|? ? Hs Hx]; subst.
  constructor; [|now apply IH].
  apply Forall_app in Hx. tauto.
Qed.

Lemma StronglySorted_app_left {A} (R : A -> A -> Prop) (l1 l2 : list A) :
  StronglySorted R (l1 ++ l2) -> StronglySorted R l1.
Proof.
  induction l1 as [|x l1 IH]; simpl; intros H; [constructor|].
  inversion H as [|? ? Hs Hx]; subst.
  constructor; [now apply IH|].
  apply Forall_app in Hx. tauto.
Qed.

(** X8: the top list holds at most 20 wallets, in descending order of
    score; the scored wallets split into the top list and the rest, and no
    wallet of the rest scores more than a wallet of the top list. *)
Theorem topSuspiciousWallets_are_the_top (sortedData : list trade) :
  let top := topSuspiciousWallets sortedData in
  List.length top
  = Nat.min 20 (List.length (suspectedManipulators sortedData))
  /\ StronglySorted
       (fun a b => (Wallet.suspiciousScore b <= Wallet.suspiciousScore a)%nat)
       top
  /\ exists rest,
       Permutation (top ++ rest) (suspectedManipulators sortedData)
       /\ Forall
            (fun t =>
               Forall
                 (fun r => (Wallet.suspiciousScore r
                            <= Wallet.suspiciousScore t)%nat)
                 rest)
            top.
Proof.
  intros top. subst top. unfold topSuspiciousWallets, topScored.
  set (key := fun w : Wallet.t => - Z.of_nat (Wallet.suspiciousScore w)).
  set (sorted := JS.sort key (suspectedManipulators sortedData)).
  assert (StronglySorted
            (fun a b => (Wallet.suspiciousScore b
                         <= Wallet.suspiciousScore a)%nat) sorted) as Hs.
  { eapply StronglySorted_weaken; [|apply (sort_sorted key)].
    unfold key. simpl. intros a b. lia. }
  rewrite <- (firstn_skipn 20 sorted) in Hs.
  split.
  { rewrite length_firstn. unfold sorted.
    now rewrite <- (Permutation_length (sort_perm key _)). }
  split; [now apply StronglySorted_app_left in Hs|].
  exists (skipn 20 sorted).
  split.
  - rewrite firstn_skipn. apply Permutation_sym, sort_perm.
  - now apply StronglySorted_app_cross in Hs.
Qed.

(** ** Price changes in time *)

Lemma StronglySorted_filter {A} (R : A -> A -> Prop) (p : A -> bool)
  (l : list A) :
  StronglySorted R l -> StronglySorted R (filter p l).
Proof.
  induction 1 as [|x l Hl IH Hx]; simpl; [constructor|].
  destruct (p x); [|exact IH].
  constructor; [exact IH|].
  apply Forall_forall. intros y Hy. apply filter_In in Hy.
  rewrite Forall_forall in Hx. now apply Hx.
Qed.

Lemma StronglySorted_map {A B} (R : B -> B -> Prop) (f : A -> B) (l : list A) :
  StronglySorted (fun a b => R (f a) (f b)) l -> StronglySorted R (map f l).
Proof.
  induction 1 as [|x l Hl IH Hx]; simpl; constructor; [exact IH|].
  apply Forall_forall. intros y Hy. apply in_map_iff in Hy.
  destruct Hy as [z [<- Hz]]. rewrite Forall_forall in Hx. now apply Hx.
Qed.

Lemma adjacentPairs_length {A} (l : list A) :
  List.length (adjacentPairs l) = Nat.pred (List.length l).
Proof.
  unfold adjacentPairs. rewrite length_combine.
  destruct l as [|x l]; [reflexivity|].
  cbn [tl List.length Nat.pred]. lia.
Qed.

(** The adjacent pairs of a strictly ascending list are ascending pairs of
    its elements, each pair ending where or before the next begins. *)
Lemma adjacentPairs_sorted {A} (key : A -> Z) (l : list A) :
  StronglySorted (fun a b => key a < key b) l ->
  Forall (fun pair => key (fst pair) < key (snd pair)
                      /\ In (fst pair) l /\ In (snd pair) l)
    (adjacentPairs l)
  /\ StronglySorted (fun a b => key (snd a) <= key (fst b)) (adjacentPairs l).
Proof.
  induction 1 as [|x l Hl IH Hx]; [split; constructor|].
  destruct l as [|y l]; [split; constructor|].
  destruct IH as [IH1 IH2].
  change (adjacentPairs (x :: y :: l)) with ((x, y) :: adjacentPairs (y :: l)).
  pose proof (Forall_inv Hx) as Hxy.
  split.
  - constructor; [simpl; auto|].
    eapply Forall_impl; [|exact IH1].
    simpl. intros pair [H1 [H2 H3]]. auto.
  - constructor; [exact IH2|].
    apply Forall_forall. intros pair Hp.
    rewrite Forall_forall in IH1. destruct (IH1 _ Hp) as [_ [Hin _]].
    simpl. destruct Hin as [<-|Hin]; [lia|].
    inversion Hl as [|? ? _ Hy]; subst.
    rewrite Forall_forall in Hy. specialize (Hy _ Hin). lia.
Qed.

Lemma sortedPriceIntervals_sorted (sortedData : list trade) :
  StronglySorted
    (fun a b => PriceInterval.timestamp a < PriceInterval.timestamp b)
    (sortedPriceIntervals sortedData).
Proof.
  apply sorted_NoDup_strict; [apply sort_sorted|].
  apply (Permutation_NoDup
           (l := map PriceInterval.timestamp
                   (filter (fun i => JS.truthy_num (PriceInterval.price i))
                      (priceByInterval sortedData)))).
  - apply Permutation_map, sort_perm.
  - apply filter_distinct_keys. rewrite priceByInterval_timestamps.
    apply entries_NoDup, groupBy_NoDup.
Qed.

Lemma sortedPriceIntervals_multiple (sortedData : list trade)
  (p : PriceInterval.t) :
  In p (sortedPriceIntervals sortedData) -> PriceInterval.timestamp p mod 600 = 0.
Proof.
  intros H. apply sort_In, filter_In in H. destruct H as [H _].
  apply in_map_iff in H. destruct H as [[k txs] [<- Hin]].
  now destruct (bucket_contents 600 sortedData k txs ltac:(lia) Hin).
Qed.

(** X9: every price change joins two different 600 s buckets, the earlier
    to the later, with prices that are numbers other than 0 (so the
    percentage never divides by zero); the changes are in chronological
    order, each ending where or before the next begins, and are fewer than
    the points of the price series. *)
Theorem priceChanges_chronological (sortedData : list trade) :
  Forall
    (fun e =>
       PriceChange.startTimestamp e < PriceChange.endTimestamp e
       /\ PriceChange.startTimestamp e mod 600 = 0
       /\ PriceChange.endTimestamp e mod 600 = 0
       /\ JS.truthy (PriceChange.startPrice e) = true
       /\ JS.truthy (PriceChange.endPrice e) = true)
    (priceChanges sortedData)
  /\ StronglySorted
       (fun a b => PriceChange.endTimestamp a <= PriceChange.startTimestamp b)
       (priceChanges sortedData)
  /\ (List.length (priceChanges sortedData)
      <= Nat.pred (List.length (sortedPriceIntervals sortedData)))%nat.
Proof.
  unfold priceChanges.
  rewrite (priceChangesOf_pairs _ (sortedPriceIntervals_truthy sortedData)).
  destruct (adjacentPairs_sorted PriceInterval.timestamp _
              (sortedPriceIntervals_sorted sortedData)) as [Hp Hs].
  split; [|split].
  - apply Forall_forall. intros e He.
    apply in_map_iff in He. destruct He as [[prev curr] [<- He]].
    apply filter_In in He. destruct He as [He _].
    rewrite Forall_forall in Hp. destruct (Hp _ He) as [Hlt [Hin1 Hin2]].
    pose proof (sortedPriceIntervals_truthy sortedData) as Ht.
    rewrite Forall_forall in Ht.
    simpl in *. repeat split.
    + exact Hlt.
    + now apply (sortedPriceIntervals_multiple sortedData).
    + now apply (sortedPriceIntervals_multiple sortedData).
    + apply (Ht _ Hin1).
    + apply (Ht _ Hin2).
  - apply StronglySorted_map. simpl.
    now apply StronglySorted_filter.
  - rewrite length_map, <- adjacentPairs_length.
    apply filter_length_le.
Qed.

(** ** Pump-and-dump patterns *)

Lemma abs_above_ten (x : float) :
  (10 <? x)%float = true -> (10 <? abs x)%float = true.
Proof.
  intros H. assert (abs x = x) as ->; [|exact H].
  assert (Prim2SF (abs x) = Prim2SF x) as E.
  { rewrite FloatAxioms.abs_spec. rewrite FloatAxioms.ltb_spec in H.
    remember (Prim2SF 10%float) as ten eqn:E. vm_compute in E. subst ten.
    unfold SFltb in H.
    destruct (Prim2SF x) as [s|s| |s m e]; simpl in *;
      try destruct s; simpl in *; try reflexivity; try discriminate. }
  now rewrite <- (SF2Prim_Prim2SF (abs x)), E, SF2Prim_Prim2SF.
Qed.

Lemma set_of_length_le {A} (eqb : A -> A -> bool)
  (eqb_eq : forall a b, eqb a b = true <-> a = b) (l : list A) :
  (List.length (JS.set_of eqb l) <= List.length l)%nat.
Proof.
  apply NoDup_incl_length; [now apply set_of_NoDup|].
  intros a. now rewrite (set_of_In eqb eqb_eq).
Qed.

Lemma set_of_length_pos {A} (eqb : A -> A -> bool)
  (eqb_eq : forall a b, eqb a b = true <-> a = b) (l : list A) :
  l <> [] -> (1 <= List.length (JS.set_of eqb l))%nat.
Proof.
  destruct l as [|x l]; [intros H; now elim H|]. intros _.
  assert (In x (JS.set_of eqb (x :: l))) as H
    by (apply (set_of_In eqb eqb_eq); now left).
  destruct (JS.set_of eqb (x :: l)); [destruct H|simpl; lia].
Qed.

Lemma flat_map_length_le {A B} (f : A -> list B) (l : list A) :
  (forall x, (List.length (f x) <= 1)%nat) ->
  (List.length (flat_map f l) <= List.length l)%nat.
Proof.
  intros H. induction l as [|x l IH]; simpl; [lia|].
  rewrite length_app. specialize (H x). lia.
Qed.

Lemma price_changes_flags (sortedData : list trade) :
  Forall
    (fun e => PriceChange.isSignificant e
              = (10 <? abs (PriceChange.percentChange e))%float)
    (priceChanges sortedData).
Proof.
  unfold priceChanges.
  rewrite (priceChangesOf_pairs _ (sortedPriceIntervals_truthy sortedData)).
  apply Forall_forall. intros e He.
  apply in_map_iff in He. now destruct He as [[prev curr] [<- _]].
Qed.

(** X10: every pump-and-dump pattern belongs to a price change of more
    than 10% that is flagged significant, has at least 6 retail buys and at
    least 1 large sell, and names between 1 and [whaleSellsCount] wallets;
    there are no more patterns than price changes. *)
Theorem pumpAndDumpPatterns_invariants (sortedData : list trade) :
  Forall
    (fun c =>
       In (Pump.pump c) (priceChanges sortedData)
       /\ (10 <? PriceChange.percentChange (Pump.pump c))%float = true
       /\ PriceChange.isSignificant (Pump.pump c) = true
       /\ (6 <= Pump.retailBuysCount c)%nat
       /\ (1 <= Pump.whaleSellsCount c)%nat
       /\ (1 <= List.length (Pump.suspiciousWallets c)
           <= Pump.whaleSellsCount c)%nat)
    (pumpAndDumpPatterns sortedData)
  /\ (List.length (pumpAndDumpPatterns sortedData)
      <= List.length (priceChanges sortedData))%nat.
Proof.
  split.
  - apply Forall_forall. intros c Hc.
    unfold pumpAndDumpPatterns in Hc. apply in_flat_map in Hc.
    destruct Hc as [e [He Hc]]. apply filter_In in He.
    destruct He as [He Hup].
    unfold pumpPattern in Hc.
    destruct (5 <? List.length (retailBuysDuringPump sortedData e))%nat eqn:E5;
      [|destruct Hc].
    destruct (0 <? List.length (whaleSellsAfterPump sortedData e))%nat eqn:E0;
      [|destruct Hc].
    destruct Hc as [<-|[]].
    apply Nat.ltb_lt in E5, E0.
    cbn [Pump.pump Pump.retailBuysCount Pump.whaleSellsCount
         Pump.suspiciousWallets].
    split; [exact He|]. split; [exact Hup|]. split.
    { pose proof (price_changes_flags sortedData) as Hf.
      rewrite Forall_forall in Hf. rewrite (Hf _ He).
      now apply abs_above_ten. }
    split; [lia|]. split; [lia|]. split.
    + apply (set_of_length_pos address_eqb address_eqb_eq).
      destruct (whaleSellsAfterPump sortedData e); [simpl in E0; lia|discriminate].
    + rewrite <- (length_map trader_wallet_address
                    (whaleSellsAfterPump sortedData e)).
      apply (set_of_length_le address_eqb address_eqb_eq).
  - unfold pumpAndDumpPatterns.
    eapply Nat.le_trans; [apply flat_map_length_le|apply filter_length_le].
    intros e. unfold pumpPattern.
    destruct ((5 <? List.length (retailBuysDuringPump sortedData e))%nat
              && (0 <? List.length (whaleSellsAfterPump sortedData e))%nat);
      simpl; lia.
Qed.

(** ** Counts of an interval *)

Lemma filter_length_total {A} (p : A -> bool) (l : list A) :
  (List.length (filter p l) <= List.length l)%nat.
Proof. apply filter_length_le. Qed.

Lemma NoDup_map_Some {A} (l : list A) : NoDup l -> NoDup (map Some l).
Proof.
  induction 1 as [|x l Hn Hd IH]; simpl; constructor; [|exact IH].
  intros H. apply in_map_iff in H. destruct H as [y [E Hy]].
  injection E as ->. now apply Hn.
Qed.

Lemma potentialWashTraders_le_side (side : trade -> bool)
  (transactions : list trade) :
  (forall a, isWashTrader transactions a ->
             exists tx, In tx transactions
                        /\ trader_wallet_address tx = Some a /\ side tx = true) ->
  (List.length (potentialWashTraders transactions)
   <= List.length (filter side transactions))%nat.
Proof.
  intros Hside.
  rewrite <- (length_map Some (potentialWashTraders transactions)).
  rewrite <- (length_map trader_wallet_address (filter side transactions)).
  apply NoDup_incl_length.
  - apply NoDup_map_Some, potentialWashTraders_NoDup.
  - intros o Ho. apply in_map_iff in Ho. destruct Ho as [a [<- Ha]].
    apply potentialWashTraders_In in Ha.
    destruct (Hside a Ha) as [tx [Hin [Haddr Hs]]].
    apply in_map_iff. exists tx. split; [exact Haddr|].
    apply filter_In. now split.
Qed.

Lemma potentialWashTraders_le_unique (transactions : list trade) :
  (List.length (potentialWashTraders transactions)
   <= List.length (JS.set_of address_eqb
                     (map trader_wallet_address transactions)))%nat.
Proof.
  rewrite <- (length_map Some (potentialWashTraders transactions)).
  apply NoDup_incl_length.
  - apply NoDup_map_Some, potentialWashTraders_NoDup.
  - intros o Ho. apply in_map_iff in Ho. destruct Ho as [a [<- Ha]].
    apply potentialWashTraders_In in Ha.
    destruct Ha as [_ [[tx [Hin [Haddr _]]] _]].
    apply (set_of_In address_eqb address_eqb_eq).
    apply in_map_iff. now exists tx.
Qed.

(** X11: in every retained 300 s interval the counts are consistent: the
    timestamp is a multiple of 300 and the score is positive; there is at
    least one wallet and no more wallets than transactions; buys and sells
    together, large transactions and whale transactions are each at most
    the transactions; the distinct whale wallets are at most the whale
    transactions; and the wash-trader candidates are at most the wallets,
    the buys and the sells. *)
Theorem suspicious_interval_counts (sortedData : list trade) :
  Forall
    (fun i =>
       SuspiciousInterval.timestamp i mod 300 = 0
       /\ (0 < SuspiciousInterval.suspiciousScore i)%nat
       /\ (1 <= SuspiciousInterval.uniqueWallets i
           <= SuspiciousInterval.totalTransactions i)%nat
       /\ (SuspiciousInterval.buyCount i + SuspiciousInterval.sellCount i
           <= SuspiciousInterval.totalTransactions i)%nat
       /\ (SuspiciousInterval.largeTransactionsCount i
           <= SuspiciousInterval.totalTransactions i)%nat
       /\ (SuspiciousInterval.uniqueWhaleWallets i
           <= SuspiciousInterval.whaleTransactionsCount i
           <= SuspiciousInterval.totalTransactions i)%nat
       /\ (SuspiciousInterval.washTradingCount i
           <= SuspiciousInterval.uniqueWallets i)%nat
       /\ (SuspiciousInterval.washTradingCount i
           <= SuspiciousInterval.buyCount i)%nat
       /\ (SuspiciousInterval.washTradingCount i
           <= SuspiciousInterval.sellCount i)%nat)
    (suspiciousActivityIntervals sortedData).
Proof.
  apply Forall_forall. intros i Hi.
  apply suspiciousActivityIntervals_In in Hi.
  destruct Hi as [Hs [k [txs [Hin ->]]]].
  split.
  { unfold detailedTimeIntervals in Hin. rewrite <- entries_In in Hin.
    now destruct (bucket_contents 300 sortedData k txs ltac:(lia) Hin). }
  split; [exact Hs|].
  assert (txs <> []) as Hne
    by (unfold detailedTimeIntervals in Hin; now apply groupBy_In in Hin).
  unfold suspiciousIntervalOf.
  cbn [SuspiciousInterval.uniqueWallets SuspiciousInterval.totalTransactions
       SuspiciousInterval.buyCount SuspiciousInterval.sellCount
       SuspiciousInterval.largeTransactionsCount
       SuspiciousInterval.uniqueWhaleWallets
       SuspiciousInterval.whaleTransactionsCount
       SuspiciousInterval.washTradingCount].
  split.
  { split.
    - apply (set_of_length_pos address_eqb address_eqb_eq).
      destruct txs; [now elim Hne|discriminate].
    - rewrite <- (length_map trader_wallet_address txs).
      apply (set_of_length_le address_eqb address_eqb_eq). }
  split; [apply filter_exclusive_length, is_buy_not_sell|].
  split; [apply filter_length_total|].
  split.
  { split; [|apply filter_length_total].
    rewrite <- (length_map trader_wallet_address (whaleTransactionsOf txs)).
    apply (set_of_length_le address_eqb address_eqb_eq). }
  split; [apply potentialWashTraders_le_unique|].
  split; apply potentialWashTraders_le_side; intros a [_ [Hb Hsell]];
    assumption.
Qed.

(** ** Coordinated activities *)

Lemma suspiciousActivityIntervals_timestamps (sortedData : list trade) :
  NoDup (map SuspiciousInterval.timestamp
           (suspiciousActivityIntervals sortedData)).
Proof.
  unfold suspiciousActivityIntervals.
  eapply Permutation_NoDup; [apply Permutation_map, sort_perm|].
  apply filter_distinct_keys. rewrite map_map.
  rewrite (map_ext _ fst) by (now intros [k txs]).
  apply entries_NoDup, groupBy_NoDup.
Qed.

Lemma suspiciousActivityIntervals_descending (sortedData : list trade) :
  StronglySorted
    (fun a b => (SuspiciousInterval.suspiciousScore b
                 <= SuspiciousInterval.suspiciousScore a)%nat)
    (suspiciousActivityIntervals sortedData).
Proof.
  unfold suspiciousActivityIntervals.
  eapply StronglySorted_weaken; [|apply sort_sorted].
  simpl. intros a b. lia.
Qed.

(** X12: the coordinated activities are reported in descending order of
    score, one per bucket; each has a score of at least 5, at least 2
    transactions, and a whale count between 1 and its transaction count;
    they are no more than the retained intervals. *)
Theorem coordinatedActivities_invariants (sortedData : list trade) :
  StronglySorted
    (fun a b => (Coordinated.suspiciousScore b
                 <= Coordinated.suspiciousScore a)%nat)
    (coordinatedActivities sortedData)
  /\ NoDup (map Coordinated.timestamp (coordinatedActivities sortedData))
  /\ Forall
       (fun c =>
          (5 <= Coordinated.suspiciousScore c)%nat
          /\ (2 <= Coordinated.transactionCount c)%nat
          /\ (1 <= Coordinated.whaleCount c
              <= Coordinated.transactionCount c)%nat)
       (coordinatedActivities sortedData)
  /\ (List.length (coordinatedActivities sortedData)
      <= List.length (suspiciousActivityIntervals sortedData))%nat.
Proof.
  unfold coordinatedActivities.
  split; [|split; [|split]].
  - apply StronglySorted_map. simpl.
    apply StronglySorted_filter, suspiciousActivityIntervals_descending.
  - rewrite map_map.
    rewrite (map_ext _ SuspiciousInterval.timestamp) by reflexivity.
    apply filter_distinct_keys, suspiciousActivityIntervals_timestamps.
  - apply Forall_forall. intros c Hc.
    apply in_map_iff in Hc. destruct Hc as [i [<- Hi]].
    apply filter_In in Hi. destruct Hi as [Hi Hco].
    apply suspiciousActivityIntervals_In in Hi.
    destruct Hi as [_ [k [txs [_ ->]]]].
    unfold isCoordinated in Hco. apply andb_true_iff in Hco.
    destruct Hco as [H5 H2]. apply Nat.leb_le in H5, H2.
    unfold coordinatedOf, suspiciousIntervalOf in *.
    cbn [Coordinated.suspiciousScore Coordinated.transactionCount
         Coordinated.whaleCount SuspiciousInterval.suspiciousScore
         SuspiciousInterval.totalTransactions
         SuspiciousInterval.uniqueWhaleWallets
         SuspiciousInterval.whaleTransactionsCount] in *.
    pose proof (filter_length_total
                  (fun tx => (WHALE_THRESHOLD <=? transaction_value tx)%float)
                  txs) as Hw.
    fold (whaleTransactionsOf txs) in Hw.
    pose proof (set_of_length_le address_eqb address_eqb_eq
                  (map trader_wallet_address (whaleTransactionsOf txs))) as Hu.
    rewrite length_map in Hu.
    split; [exact H5|]. split; [lia|]. split; [|lia].
    apply (set_of_length_pos address_eqb address_eqb_eq).
    destruct (whaleTransactionsOf txs); [simpl in H2; lia|discriminate].
  - rewrite length_map. apply filter_length_le.
Qed.

(** ** Whale entries *)

Lemma filter_perm_length {A} (p : A -> bool) (l l' : list A) :
  Permutation l l' -> List.length (filter p l) = List.length (filter p l').
Proof.
  induction 1 as [|x l l' _ IH|x y l|l l' l'' _ IH1 _ IH2]; simpl.
  - reflexivity.
  - destruct (p x); simpl; lia.
  - destruct (p x), (p y); reflexivity.
  - lia.
Qed.

Lemma flat_map_keys_NoDup {A B} (f : Z * A -> list B) (key : B -> Z)
  (l : list (Z * A)) :
  (forall e x, In x (f e) -> f e = [x] /\ key x = fst e) ->
  NoDup (map fst l) -> NoDup (map key (flat_map f l)).
Proof.
  intros Hf. induction l as [|e l IH]; simpl; intros Hnd; [constructor|].
  inversion Hnd as [|? ? Hn Hd]; subst.
  rewrite map_app.
  destruct (f e) as [|x rest] eqn:E; simpl; [now apply IH|].
  destruct (Hf e x) as [Hx Hk]; [rewrite E; now left|].
  rewrite E in Hx. injection Hx as ->. simpl.
  constructor; [|now apply IH].
  intros Hin. apply Hn.
  apply in_map_iff in Hin. destruct Hin as [y [Hy Hin]].
  apply in_flat_map in Hin. destruct Hin as [e' [He' Hy']].
  destruct (Hf e' y Hy') as [_ Hk'].
  apply in_map_iff. exists e'. split; [congruence|exact He'].
Qed.

Lemma whaleEntryOf_In (sortedData : list trade) (entry : Z * list trade)
  (e : WhaleEntry.t) :
  In e (whaleEntryOf sortedData entry) ->
  whaleEntryOf sortedData entry = [e]
  /\ WhaleEntry.timestamp e = fst entry
  /\ WhaleEntry.transactions e = List.length (whaleBuysOf (snd entry))
  /\ WhaleEntry.whaleCount e
     = List.length (JS.set_of address_eqb
                      (map trader_wallet_address (whaleBuysOf (snd entry))))
  /\ (2 <= List.length (whaleBuysOf (snd entry)))%nat.
Proof.
  destruct entry as [k txs]. unfold whaleEntryOf.
  destruct (2 <=? List.length (whaleBuysOf txs))%nat eqn:E; [|intros []].
  intros [<-|[]]. apply Nat.leb_le in E. simpl. auto.
Qed.

(** The whale buys of the hour [k] among the sorted trades are as many as
    among the trades. *)
Lemma hour_whale_buys (sortedData : list trade) (k : Z) :
  List.length
    (whaleBuysOf
       (filter (fun tx => trade_timestamp tx / 3600 =? k)
          (sortedTransactions sortedData)))
  = List.length
      (filter
         (fun tx => is_buy tx
                    && (WHALE_THRESHOLD <=? transaction_value tx)%float
                    && (trade_timestamp tx / 3600 =? k))
         sortedData).
Proof.
  unfold whaleBuysOf, sortedTransactions, Lodash.sortBy.
  rewrite filter_filter_and.
  rewrite (filter_perm_length _ _ _
             (Permutation_sym (sort_perm trade_timestamp sortedData))).
  f_equal. apply filter_ext. intros tx.
  now rewrite andb_comm.
Qed.

(** X13: there is a whale entry for an hour exactly when the hour holds at
    least 2 buys of value at least WHALE_THRESHOLD; every entry counts at
    least 2 transactions and between 1 and that many distinct wallets, and
    no hour has two entries. *)
Theorem whaleEntries_invariants (sortedData : list trade) :
  Forall
    (fun e =>
       (2 <= WhaleEntry.transactions e)%nat
       /\ (1 <= WhaleEntry.whaleCount e <= WhaleEntry.transactions e)%nat)
    (whaleEntries sortedData)
  /\ NoDup (map WhaleEntry.timestamp (whaleEntries sortedData))
  /\ forall k,
       (exists e, In e (whaleEntries sortedData) /\ WhaleEntry.timestamp e = k)
       <-> (2 <= List.length
                   (filter
                      (fun tx =>
                         is_buy tx
                         && (WHALE_THRESHOLD <=? transaction_value tx)%float
                         && (trade_timestamp tx / 3600 =? k)%Z)
                      sortedData))%nat.
Proof.
  split; [|split].
  - apply Forall_forall. intros e He.
    apply in_flat_map in He. destruct He as [entry [_ He]].
    apply whaleEntryOf_In in He.
    destruct He as (_ & _ & -> & -> & H2).
    split; [exact H2|]. split.
    + apply (set_of_length_pos address_eqb address_eqb_eq).
      destruct (whaleBuysOf (snd entry)); [simpl in H2; lia|discriminate].
    + rewrite <- (length_map trader_wallet_address (whaleBuysOf (snd entry))).
      apply (set_of_length_le address_eqb address_eqb_eq).
  - unfold whaleEntries. apply flat_map_keys_NoDup.
    + intros entry e He. apply whaleEntryOf_In in He. tauto.
    + apply entries_NoDup, groupBy_NoDup.
  - intros k. rewrite <- hour_whale_buys. split.
    + intros [e [He Hk]].
      apply in_flat_map in He. destruct He as [[k' txs] [Hin He]].
      apply whaleEntryOf_In in He. destruct He as (_ & Ht & _ & _ & H2).
      simpl in Ht, H2. rewrite Hk in Ht. subst k'.
      rewrite entries_In in Hin. unfold timeWindows in Hin.
      apply groupBy_In in Hin. destruct Hin as [<- _]. exact H2.
    + intros H2.
      set (txs := filter (fun tx => trade_timestamp tx / 3600 =? k)
                    (sortedTransactions sortedData)) in *.
      assert (In (k, txs) (JS.entries (timeWindows sortedData))) as Hin.
      { rewrite entries_In. unfold timeWindows. apply groupBy_In.
        split; [reflexivity|].
        intros E. fold txs in E. rewrite E in H2. simpl in H2. lia. }
      exists {|
        WhaleEntry.timestamp := k;
        WhaleEntry.whaleCount :=
          List.length (JS.set_of address_eqb
                         (map trader_wallet_address (whaleBuysOf txs)));
        WhaleEntry.totalBuyVolume := Lodash.sumBy buy_amount (whaleBuysOf txs);
        WhaleEntry.percentOfTotalSupply :=
          (Lodash.sumBy buy_amount (whaleBuysOf txs)
           / totalTokenVolume sortedData * 100)%float;
        WhaleEntry.transactions := List.length (whaleBuysOf txs)
      |}.
      split; [|reflexivity].
      apply in_flat_map. exists (k, txs). split; [exact Hin|].
      unfold whaleEntryOf. apply Nat.leb_le in H2. rewrite H2. now left.
Qed.

(** ** The shape of the market periods *)

Lemma sorted_head_least {A} (key : A -> Z) (x : A) (l : list A) :
  StronglySorted (fun a b => key a <= key b) (x :: l) ->
  Forall (fun y => key x <= key y) (x :: l).
Proof.
  intros H. inversion H as [|? ? _ Hx]; subst.
  constructor; [lia|exact Hx].
Qed.

Lemma sorted_last_greatest {A} (key : A -> Z) (l : list A) (z : A) :
  StronglySorted (fun a b => key a <= key b) l ->
  nth_error l (List.length l - 1) = Some z ->
  Forall (fun y => key y <= key z) l.
Proof.
  induction 1 as [|x l Hl IH Hx]; intros Hz; [constructor|].
  destruct l as [|y l].
  - simpl in Hz. injection Hz as <-. repeat constructor. lia.
  - assert (nth_error (y :: l) (List.length (y :: l) - 1) = Some z) as Hz'.
    { simpl in Hz. simpl. now rewrite Nat.sub_0_r. }
    specialize (IH Hz').
    constructor; [|exact IH].
    apply nth_error_In in Hz'.
    rewrite Forall_forall in Hx. now apply Hx.
Qed.

(** The two timestamps the periods are built from are the least and the
    greatest timestamp of the data. *)
Lemma periods_extremes (sortedData : list trade) :
  sortedData <> [] ->
  exists first last,
    In first sortedData /\ In last sortedData
    /\ Forall (fun tx => trade_timestamp first <= trade_timestamp tx
                         <= trade_timestamp last) sortedData
    /\ periods sortedData
       = JS.Ok (periodsBetween sortedData (trade_timestamp first)
                  (trade_timestamp last)).
Proof.
  intros Hne. unfold periods.
  pose proof (sort_sorted trade_timestamp sortedData) as Hs.
  pose proof (sort_In trade_timestamp sortedData) as Hin.
  fold (Lodash.sortBy trade_timestamp sortedData) in Hs, Hin.
  fold (sortedTransactions sortedData) in Hs, Hin.
  assert (0 < List.length (sortedTransactions sortedData))%nat as Hlen.
  { unfold sortedTransactions, Lodash.sortBy.
    rewrite <- (Permutation_length (sort_perm trade_timestamp sortedData)).
    destruct sortedData; [now elim Hne|simpl; lia]. }
  unfold JS.prop_of_index.
  destruct (sortedTransactions sortedData) as [|first rest] eqn:E;
    [simpl in Hlen; lia|].
  cbn [nth_error JS.bind].
  destruct (nth_error (first :: rest) (List.length (first :: rest) - 1))
    as [last|] eqn:El;
    [|apply nth_error_None in El; simpl in El; lia].
  cbn [JS.bind]. exists first, last.
  pose proof (sorted_head_least _ _ _ Hs) as Hmin.
  pose proof (sorted_last_greatest _ _ _ Hs El) as Hmax.
  rewrite Forall_forall in Hmin, Hmax.
  split; [apply Hin; now left|].
  split; [apply Hin; now apply nth_error_In in El|].
  split; [|reflexivity].
  apply Forall_forall. intros tx Htx. apply Hin in Htx.
  split; [now apply Hmin|now apply Hmax].
Qed.

Lemma range_split (l : list trade) (a b c : Z) :
  a <= b <= c ->
  (List.length (periodTransactions l a b)
   + List.length (periodTransactions l b c))%nat
  = List.length (periodTransactions l a c).
Proof.
  intros H. unfold periodTransactions.
  induction l as [|tx l IH]; simpl; [reflexivity|].
  destruct (a <=? trade_timestamp tx) eqn:E1;
    destruct (trade_timestamp tx <? b) eqn:E2;
    destruct (b <=? trade_timestamp tx) eqn:E3;
    destruct (trade_timestamp tx <? c) eqn:E4;
    simpl; try lia;
    rewrite ?Z.leb_le, ?Z.leb_gt, ?Z.ltb_lt, ?Z.ltb_ge in *; lia.
Qed.

Lemma period_counts_sum (l : list trade) (e d : Z) (n : nat) :
  0 <= d ->
  list_sum
    (map (fun i => Period.transactionCount (periodOf l e d i)) (seq 0 n))
  = List.length (periodTransactions l e (e + Z.of_nat n * d)).
Proof.
  intros Hd. induction n as [|n IH].
  - simpl. unfold periodTransactions.
    rewrite Z.add_0_r.
    induction l as [|tx l IHl]; simpl; [reflexivity|].
    destruct (e <=? trade_timestamp tx) eqn:E1;
      destruct (trade_timestamp tx <? e) eqn:E2; simpl; try exact IHl.
    apply Z.leb_le in E1. apply Z.ltb_lt in E2. lia.
  - rewrite seq_S, map_app, list_sum_app, IH.
    cbn [map list_sum fold_right Nat.add]. unfold periodOf at 1.
    cbn [Period.transactionCount].
    rewrite ?Nat.add_0_r, Nat2Z.inj_succ.
    replace (e + Z.succ (Z.of_nat n) * d)
      with (e + (Z.of_nat n + 1) * d) by lia.
    apply range_split. nia.
Qed.

Lemma filter_length_lt {A} (p : A -> bool) (l : list A) (x : A) :
  In x l -> p x = false -> (List.length (filter p l) < List.length l)%nat.
Proof.
  induction l as [|y l IH]; simpl; [intros []|].
  intros [->|Hin] Hp.
  - rewrite Hp. pose proof (filter_length_le p l). lia.
  - specialize (IH Hin Hp). destruct (p y); simpl; lia.
Qed.

(** X14: on non-empty data the six periods are numbered 1 to 6, start at
    the earliest timestamp, all last floor((latest - earliest) / 6)
    seconds, and each ends where the next begins, the sixth at or before
    the latest timestamp; a period counts the trades of its interval, and
    the six counts add up to fewer than the number of trades. *)
Theorem periods_structure (sortedData : list trade) :
  sortedData <> [] ->
  exists earliest latest ps,
    periods sortedData = JS.Ok ps
    /\ Forall (fun tx => earliest <= trade_timestamp tx <= latest) sortedData
    /\ (exists tx, In tx sortedData /\ trade_timestamp tx = earliest)
    /\ (exists tx, In tx sortedData /\ trade_timestamp tx = latest)
    /\ map Period.periodNumber ps = [1; 2; 3; 4; 5; 6]%nat
    /\ (exists p, hd_error ps = Some p /\ Period.startTime p = earliest)
    /\ Forall
         (fun p =>
            Period.endTime p
            = Period.startTime p + (latest - earliest) / 6
            /\ Period.endTime p <= latest
            /\ Period.transactionCount p
               = List.length
                   (filter
                      (fun tx => (Period.startTime p <=? trade_timestamp tx)
                                 && (trade_timestamp tx <? Period.endTime p))
                      sortedData)
            /\ (Period.buyCount p + Period.sellCount p
                <= Period.transactionCount p)%nat)
         ps
    /\ Forall (fun pair => Period.endTime (fst pair) = Period.startTime (snd pair))
         (adjacentPairs ps)
    /\ (list_sum (map Period.transactionCount ps)
        < List.length sortedData)%nat.
Proof.
  intros Hne.
  destruct (periods_extremes sortedData Hne)
    as [first [last [Hf [Hl [Hall Hp]]]]].
  exists (trade_timestamp first), (trade_timestamp last).
  eexists. split; [exact Hp|].
  split; [exact Hall|].
  split; [now exists first|]. split; [now exists last|].
  set (e := trade_timestamp first) in *.
  set (d := (trade_timestamp last - e) / 6).
  assert (e <= trade_timestamp last) as Hel.
  { rewrite Forall_forall in Hall. now apply (Hall last). }
  assert (0 <= d) as Hd by (apply Z.div_pos; lia).
  assert (6 * d <= trade_timestamp last - e) as H6
    by (apply Z.mul_div_le; lia).
  split; [reflexivity|].
  split; [eexists; split; [reflexivity|simpl; lia]|].
  split.
  { unfold periodsBetween. fold d.
    apply Forall_forall. intros p Hin.
    apply in_map_iff in Hin. destruct Hin as [i [<- Hi]].
    apply in_seq in Hi. simpl.
    split; [lia|]. split; [nia|]. split; [reflexivity|].
    apply filter_exclusive_length, is_buy_not_sell. }
  split.
  { unfold periodsBetween. fold d.
    repeat constructor; simpl; lia. }
  unfold periodsBetween. fold d. rewrite map_map.
  rewrite (period_counts_sum sortedData e d 6 Hd).
  apply (filter_length_lt _ _ last Hl).
  apply andb_false_iff. right. apply Z.ltb_ge.
  change (Z.of_nat 6) with 6. lia.
Qed.

Lemma periods_structure_witness :
  sortedData minute_rows <> []
  /\ exists earliest latest ps,
       periods (sortedData minute_rows) = JS.Ok ps
       /\ Forall (fun tx => earliest <= trade_timestamp tx <= latest)
            (sortedData minute_rows)
       /\ (exists tx, In tx (sortedData minute_rows)
                      /\ trade_timestamp tx = earliest)
       /\ (exists tx, In tx (sortedData minute_rows)
                      /\ trade_timestamp tx = latest)
       /\ map Period.periodNumber ps = [1; 2; 3; 4; 5; 6]%nat
       /\ (exists p, hd_error ps = Some p /\ Period.startTime p = earliest)
       /\ Forall
            (fun p =>
               Period.endTime p
               = Period.startTime p + (latest - earliest) / 6
               /\ Period.endTime p <= latest
               /\ Period.transactionCount p
                  = List.length
                      (filter
                         (fun tx => (Period.startTime p <=? trade_timestamp tx)
                                    && (trade_timestamp tx <? Period.endTime p))
                         (sortedData minute_rows))
               /\ (Period.buyCount p + Period.sellCount p
                   <= Period.transactionCount p)%nat)
            ps
       /\ Forall
            (fun pair => Period.endTime (fst pair) = Period.startTime (snd pair))
            (adjacentPairs ps)
       /\ (list_sum (map Period.transactionCount ps)
           < List.length (sortedData minute_rows))%nat.
Proof.
  assert (sortedData minute_rows <> []) as H by (vm_compute; discriminate).
  split; [exact H|].
  exact (periods_structure (sortedData minute_rows) H).
Defined.

(** ** Market cycles *)

Lemma marketCycles_pairs (ps : list Period.t) :
  marketCycles ps
  = flat_map (fun pair => cyclesOfPair (fst pair) (snd pair)) (adjacentPairs ps).
Proof.
  destruct ps as [|current rest]; [reflexivity|].
  simpl. revert current.
  induction rest as [|next rest IH]; intros current; [reflexivity|].
  change (adjacentPairs (current :: next :: rest))
    with ((current, next) :: adjacentPairs (next :: rest)).
  simpl. now rewrite IH.
Qed.

Lemma cyclesOfPair_In (current next : Period.t) (c : Cycle.t) :
  In c (cyclesOfPair current next) ->
  JS.truthy_num (Period.priceChange current) = true
  /\ JS.truthy_num (Period.priceChange next) = true
  /\ Cycle.startPeriod c = Period.periodNumber current
  /\ Cycle.endPeriod c = Period.periodNumber next
  /\ Cycle.startTime c = Period.startTime current
  /\ Cycle.endTime c = Period.endTime next.
Proof.
  unfold cyclesOfPair.
  destruct (JS.truthy_num (Period.priceChange current)); [|intros []].
  destruct (JS.truthy_num (Period.priceChange next)); [|intros []].
  cbn [andb]. intros H.
  apply in_app_iff in H.
  destruct H as [H|H]; [|apply in_app_iff in H; destruct H as [H|H]];
    (match type of H with
     | In _ (if ?b then _ else _) => destruct b
     end; [destruct H as [<-|[]]; repeat split|destruct H]).
Qed.

Lemma cyclesOfPair_length (current next : Period.t) :
  (List.length (cyclesOfPair current next) <= 3)%nat.
Proof.
  unfold cyclesOfPair.
  destruct (JS.truthy_num (Period.priceChange current)
            && JS.truthy_num (Period.priceChange next)); [|simpl; lia].
  rewrite !length_app.
  repeat match goal with
         | |- context [if ?b then _ else _] => destruct b
         end; simpl; lia.
Qed.

Lemma flat_map_length_bound {A B} (f : A -> list B) (n : nat) (l : list A) :
  (forall x, (List.length (f x) <= n)%nat) ->
  (List.length (flat_map f l) <= n * List.length l)%nat.
Proof.
  intros H. induction l as [|x l IH]; simpl; [lia|].
  rewrite length_app. specialize (H x). lia.
Qed.

Lemma periodOf_without_transactions (sortedData : list trade) (e d : Z)
  (i : nat) :
  Period.transactionCount (periodOf sortedData e d i) = 0%nat ->
  Period.priceChange (periodOf sortedData e d i) = None
  /\ Period.avgPrice (periodOf sortedData e d i) = None.
Proof.
  unfold periodOf.
  cbn [Period.transactionCount Period.priceChange Period.avgPrice].
  destruct (periodTransactions sortedData (e + Z.of_nat i * d)
              (e + (Z.of_nat i + 1) * d)) as [|tx l];
    [split; reflexivity|discriminate].
Qed.

(** X15: a cycle is only reported for two adjacent periods that both have
    a price change other than null and 0, and carries their numbers and
    times; so a period without trades, or with a price change of exactly 0,
    takes part in no cycle.  There are at most 3 cycles per pair of
    adjacent periods. *)
Theorem marketCycles_invariants (ps : list Period.t) :
  Forall
    (fun c =>
       exists current next,
         In (current, next) (adjacentPairs ps)
         /\ JS.truthy_num (Period.priceChange current) = true
         /\ JS.truthy_num (Period.priceChange next) = true
         /\ Cycle.startPeriod c = Period.periodNumber current
         /\ Cycle.endPeriod c = Period.periodNumber next
         /\ Cycle.startTime c = Period.startTime current
         /\ Cycle.endTime c = Period.endTime next)
    (marketCycles ps)
  /\ (List.length (marketCycles ps) <= 3 * Nat.pred (List.length ps))%nat
  /\ (Forall (fun p => JS.truthy_num (Period.priceChange p) = false) ps ->
      marketCycles ps = [])
  /\ (forall sortedData e d i,
        Period.transactionCount (periodOf sortedData e d i) = 0%nat ->
        JS.truthy_num (Period.priceChange (periodOf sortedData e d i)) = false).
Proof.
  rewrite marketCycles_pairs.
  split; [|split; [|split]].
  - apply Forall_forall. intros c Hc.
    apply in_flat_map in Hc. destruct Hc as [[current next] [Hin Hc]].
    exists current, next. split; [exact Hin|].
    now apply cyclesOfPair_In.
  - rewrite <- adjacentPairs_length.
    apply flat_map_length_bound. intros pair. apply cyclesOfPair_length.
  - intros Hall.
    destruct (flat_map (fun pair => cyclesOfPair (fst pair) (snd pair))
                (adjacentPairs ps)) as [|c l] eqn:E; [reflexivity|].
    assert (In c (flat_map (fun pair => cyclesOfPair (fst pair) (snd pair))
                    (adjacentPairs ps))) as Hc by (rewrite E; now left).
    apply in_flat_map in Hc. destruct Hc as [[current next] [Hin Hc]].
    apply cyclesOfPair_In in Hc. destruct Hc as [Ht _].
    unfold adjacentPairs in Hin. apply in_combine_l in Hin.
    rewrite Forall_forall in Hall. simpl in Ht.
    rewrite (Hall _ Hin) in Ht. discriminate.
  - intros sortedData e d i H.
    now destruct (periodOf_without_transactions _ _ _ _ H) as [-> _].
Qed.

(** ** Periods of less than six seconds *)

Lemma periodTransactions_empty_range (l : list trade) (t : Z) :
  periodTransactions l t t = [].
Proof.
  unfold periodTransactions.
  induction l as [|tx l IH]; simpl; [reflexivity|].
  destruct (t <=? trade_timestamp tx) eqn:E1;
    destruct (trade_timestamp tx <? t) eqn:E2; simpl; try exact IH.
  apply Z.leb_le in E1. apply Z.ltb_lt in E2. lia.
Qed.

Lemma marketCycles_none (ps : list Period.t) :
  Forall (fun p => Period.priceChange p = None) ps -> marketCycles ps = [].
Proof.
  intros Hall. rewrite marketCycles_pairs.
  destruct (flat_map (fun pair => cyclesOfPair (fst pair) (snd pair))
              (adjacentPairs ps)) as [|c l] eqn:E; [reflexivity|].
  assert (In c (flat_map (fun pair => cyclesOfPair (fst pair) (snd pair))
                  (adjacentPairs ps))) as Hc by (rewrite E; now left).
  apply in_flat_map in Hc. destruct Hc as [[current next] [Hin Hc]].
  apply cyclesOfPair_In in Hc. destruct Hc as [Ht _].
  unfold adjacentPairs in Hin. apply in_combine_l in Hin.
  rewrite Forall_forall in Hall. simpl in Ht.
  rewrite (Hall _ Hin) in Ht. discriminate.
Qed.

(** X16: when all the trades lie within fewer than 6 seconds, the period
    duration is 0: the six periods are empty intervals without trades and
    without a price change, and no market cycle is reported. *)
Theorem periods_of_a_short_range (sortedData : list trade) :
  sortedData <> [] ->
  Forall
    (fun tx =>
       Forall (fun tx' => trade_timestamp tx' - trade_timestamp tx < 6)
         sortedData)
    sortedData ->
  exists ps,
    periods sortedData = JS.Ok ps
    /\ List.length ps = 6%nat
    /\ Forall
         (fun p =>
            Period.startTime p = Period.endTime p
            /\ Period.transactionCount p = 0%nat
            /\ Period.priceChange p = None)
         ps
    /\ marketCycles ps = [].
Proof.
  intros Hne Hshort.
  destruct (periods_extremes sortedData Hne)
    as [first [last [Hf [Hl [Hall Hp]]]]].
  eexists. split; [exact Hp|]. split; [reflexivity|].
  assert ((trade_timestamp last - trade_timestamp first) / 6 = 0) as Hd.
  { apply Z.div_small.
    rewrite Forall_forall in Hall, Hshort.
    pose proof (Hall _ Hl) as H1.
    pose proof (Hshort _ Hf) as H2. rewrite Forall_forall in H2.
    specialize (H2 _ Hl). lia. }
  assert (Forall
            (fun p =>
               Period.startTime p = Period.endTime p
               /\ Period.transactionCount p = 0%nat
               /\ Period.priceChange p = None)
            (periodsBetween sortedData (trade_timestamp first)
               (trade_timestamp last))) as Hps.
  { unfold periodsBetween. rewrite Hd.
    apply Forall_forall. intros p Hin.
    apply in_map_iff in Hin. destruct Hin as [i [<- _]].
    assert (Period.transactionCount
              (periodOf sortedData (trade_timestamp first) 0 i) = 0%nat) as H0.
    { unfold periodOf. cbn [Period.transactionCount].
      rewrite !Z.mul_0_r, Z.add_0_r.
      now rewrite periodTransactions_empty_range. }
    split; [unfold periodOf; cbn [Period.startTime Period.endTime]; lia|].
    split; [exact H0|].
    now destruct (periodOf_without_transactions _ _ _ _ H0). }
  split; [exact Hps|].
  apply marketCycles_none.
  eapply Forall_impl; [|exact Hps]. simpl. tauto.
Qed.

Lemma periods_of_a_short_range_witness :
  sortedData one_whale_rows <> []
  /\ Forall
       (fun tx =>
          Forall (fun tx' => trade_timestamp tx' - trade_timestamp tx < 6)
            (sortedData one_whale_rows))
       (sortedData one_whale_rows)
  /\ exists ps,
       periods (sortedData one_whale_rows) = JS.Ok ps
       /\ List.length ps = 6%nat
       /\ Forall
            (fun p =>
               Period.startTime p = Period.endTime p
               /\ Period.transactionCount p = 0%nat
               /\ Period.priceChange p = None)
            ps
       /\ marketCycles ps = [].
Proof.
  assert (sortedData one_whale_rows <> []) as H by (vm_compute; discriminate).
  assert (Forall
            (fun tx =>
               Forall (fun tx' => trade_timestamp tx' - trade_timestamp tx < 6)
                 (sortedData one_whale_rows))
            (sortedData one_whale_rows)) as Hshort
    by (vm_compute; repeat constructor).
  split; [exact H|]. split; [exact Hshort|].
  exact (periods_of_a_short_range (sortedData one_whale_rows) H Hshort).
Defined.

(** ** The order of JavaScript numbers *)

Lemma SFltb_trans (a b c : spec_float) :
  SFltb a b = true -> SFltb b c = true -> SFltb a c = true.
Proof.
  unfold SFltb, SFcompare.
  destruct a as [sa|sa| |sa ma ea], b as [sb|sb| |sb mb eb],
           c as [sc|sc| |sc mc ec];
    try destruct sa; try destruct sb; try destruct sc;
    try reflexivity; try discriminate;
    fold (Pos.compare ma mb); fold (Pos.compare mb mc);
    fold (Pos.compare ma mc);
    destruct (Z.compare_spec ea eb), (Z.compare_spec eb ec),
             (Z.compare_spec ea ec);
    try reflexivity; try discriminate; try lia; subst;
    destruct (Pos.compare_spec ma mb), (Pos.compare_spec mb mc),
             (Pos.compare_spec ma mc);
    simpl; try reflexivity; try discriminate; try lia.
Qed.

Lemma float_ltb_trans (a b c : float) :
  (a <? b)%float = true -> (b <? c)%float = true -> (a <? c)%float = true.
Proof. rewrite !FloatAxioms.ltb_spec. apply SFltb_trans. Qed.

Lemma float_ltb_irrefl (a : float) : (a <? a)%float = false.
Proof.
  rewrite FloatAxioms.ltb_spec. unfold SFltb, SFcompare.
  destruct (Prim2SF a) as [s|s| |s m e]; try destruct s; try reflexivity;
    rewrite Z.compare_refl; fold (Pos.compare m m);
    now rewrite Pos.compare_refl.
Qed.

(** ** Price statistics *)

Lemma priceStats_snoc (l : list trade) (row : trade) :
  priceStats (l ++ [row]) = priceStatsStep (priceStats l) row.
Proof. unfold priceStats. now rewrite fold_left_app. Qed.

(** One step of the search for an extreme. *)
Lemma extreme_of_snoc (better : float -> float -> bool) (l : list trade)
  (o : option PriceStat.t) (row : trade) :
  (forall a, better a a = false) ->
  (forall a b c, better b a = true -> better c b = true -> better c a = true) ->
  extreme_of better l o ->
  extreme_of better (l ++ [row])
    (if JS.truthy (price row)
     then if match o with
             | None => true
             | Some m => better (price row) (PriceStat.price m)
             end
          then Some {| PriceStat.price := price row;
                       PriceStat.time := trade_timestamp row |}
          else o
     else o).
Proof.
  intros Hirr Htrans Ho.
  destruct (JS.truthy (price row)) eqn:Et.
  - destruct o as [m|]; simpl in *.
    + destruct Ho as [[tx [Hin Htx]] Hall].
      destruct (better (price row) (PriceStat.price m)) eqn:Eb; simpl.
      * split.
        -- exists row. split; [apply in_app_iff; right; now left|]. auto.
        -- apply Forall_app. split.
           ++ eapply Forall_impl; [|exact Hall]. simpl. intros p Hp Htp.
              specialize (Hp Htp).
              destruct (better (price p) (price row)) eqn:E; [|reflexivity].
              rewrite (Htrans _ _ _ Eb E) in Hp. discriminate.
           ++ repeat constructor. intros _. apply Hirr.
      * split.
        -- exists tx. split; [apply in_app_iff; now left|exact Htx].
        -- apply Forall_app. split; [exact Hall|].
           repeat constructor. now intros _.
    + split.
      * exists row. split; [apply in_app_iff; right; now left|]. auto.
      * apply Forall_app. split.
        -- eapply Forall_impl; [|exact Ho]. simpl. intros p Hp Htp.
           congruence.
        -- repeat constructor. intros _. apply Hirr.
  - destruct o as [m|]; simpl in *.
    + destruct Ho as [[tx [Hin Htx]] Hall]. split.
      * exists tx. split; [apply in_app_iff; now left|exact Htx].
      * apply Forall_app. split; [exact Hall|].
        repeat constructor. congruence.
    + apply Forall_app. split; [exact Ho|]. now repeat constructor.
Qed.

(** X17: the maximum of [priceStats] is the price and timestamp of a trade
    with a usable price (a number other than 0), and no usable price is
    greater; the minimum likewise, with no usable price smaller; both are
    null exactly when no trade has a usable price. *)
Theorem priceStats_extremes (sortedData : list trade) :
  extreme_of (fun p m => (m <? p)%float) sortedData
    (stats_max (priceStats sortedData))
  /\ extreme_of (fun p m => (p <? m)%float) sortedData
       (stats_min (priceStats sortedData))
  /\ (stats_max (priceStats sortedData) = None
      <-> Forall (fun tx => JS.truthy (price tx) = false) sortedData)
  /\ (stats_min (priceStats sortedData) = None
      <-> Forall (fun tx => JS.truthy (price tx) = false) sortedData).
Proof.
  assert (extreme_of (fun p m => (m <? p)%float) sortedData
            (stats_max (priceStats sortedData))
          /\ extreme_of (fun p m => (p <? m)%float) sortedData
               (stats_min (priceStats sortedData))) as [Hmax Hmin].
  { induction sortedData as [|row l IH] using rev_ind.
    - split; constructor.
    - destruct IH as [IHmax IHmin].
      rewrite priceStats_snoc.
      pose proof (extreme_of_snoc (fun p m => (m <? p)%float) l _ row
                    float_ltb_irrefl
                    (fun a b c H1 H2 => float_ltb_trans a b c H1 H2)
                    IHmax) as Hmax.
      pose proof (extreme_of_snoc (fun p m => (p <? m)%float) l _ row
                    float_ltb_irrefl
                    (fun a b c H1 H2 => float_ltb_trans c b a H2 H1)
                    IHmin) as Hmin.
      cbv beta in Hmax, Hmin. revert Hmax Hmin. clear IHmax IHmin.
      unfold priceStatsStep.
      destruct (priceStats l) as [[mx|] [mn|]];
        destruct (JS.truthy (price row));
        cbn [stats_max stats_min];
        try destruct (PriceStat.price mx <? price row)%float;
        cbn [stats_max stats_min];
        try destruct (price row <? PriceStat.price mn)%float;
        cbn [stats_max stats_min]; intros Hmax Hmin;
        split; assumption. }
  split; [exact Hmax|]. split; [exact Hmin|].
  split.
  - destruct (stats_max (priceStats sortedData)) as [m|]; simpl in Hmax.
    + split; [discriminate|]. intros Hall.
      destruct Hmax as [[tx [Hin [Ht _]]] _].
      rewrite Forall_forall in Hall. rewrite (Hall _ Hin) in Ht. discriminate.
    + split; [now intros _|reflexivity].
  - destruct (stats_min (priceStats sortedData)) as [m|]; simpl in Hmin.
    + split; [discriminate|]. intros Hall.
      destruct Hmin as [[tx [Hin [Ht _]]] _].
      rewrite Forall_forall in Hall. rewrite (Hall _ Hin) in Ht. discriminate.
    + split; [now intros _|reflexivity].
Qed.

(** ** The order of [Object.entries] *)

Lemma filter_all {A} (p : A -> bool) (l : list A) :
  Forall (fun x => p x = true) l -> filter p l = l.
Proof.
  induction 1 as [|x l Hx _ IH]; simpl; [reflexivity|].
  now rewrite Hx, IH.
Qed.

Lemma filter_none {A} (p : A -> bool) (l : list A) :
  Forall (fun x => p x = true) l -> filter (fun x => negb (p x)) l = [].
Proof.
  induction 1 as [|x l Hx _ IH]; simpl; [reflexivity|].
  now rewrite Hx.
Qed.

(** When every key is an array index, the entries are in ascending order
    of the keys. *)
Lemma entries_of_indices {A} (o : JS.object A) :
  Forall (fun e => JS.is_array_index (fst e) = true) o ->
  NoDup (map fst o) ->
  StronglySorted (fun a b => fst a < fst b) (JS.entries o).
Proof.
  intros Hidx Hnd. unfold JS.entries.
  rewrite (filter_all _ _ Hidx), (filter_none _ _ Hidx), app_nil_r.
  apply sorted_NoDup_strict; [apply sort_sorted|].
  eapply Permutation_NoDup; [apply Permutation_map, sort_perm|exact Hnd].
Qed.

Lemma groupBy_index_keys {A} (f : A -> Z) (l : list A) :
  Forall (fun x => JS.is_array_index (f x) = true) l ->
  Forall (fun e => JS.is_array_index (fst e) = true) (Lodash.groupBy f l).
Proof.
  intros H. apply Forall_forall. intros [k xs] Hin.
  apply groupBy_In in Hin. destruct Hin as [-> Hne].
  destruct (filter (fun x => f x =? k) l) as [|x rest] eqn:F;
    [now elim Hne|].
  assert (In x (filter (fun x => f x =? k) l)) as Hx by (rewrite F; now left).
  apply filter_In in Hx. destruct Hx as [Hx Hk].
  apply Z.eqb_eq in Hk. rewrite Forall_forall in H. simpl.
  rewrite <- Hk. now apply H.
Qed.

Lemma quotient_is_index (w t : Z) :
  0 < w -> 0 <= t <= 4294967294 ->
  JS.is_array_index (t / w) = true /\ JS.is_array_index (t / w * w) = true.
Proof.
  intros Hw Ht. unfold JS.is_array_index.
  pose proof (Z.div_pos t w ltac:(lia) Hw).
  pose proof (Z.mul_div_le t w Hw).
  assert (t / w <= t / w * w) by nia.
  split; apply andb_true_iff; split; apply Z.leb_le; lia.
Qed.

Lemma flat_map_sorted {A B} (f : Z * A -> list B) (key : B -> Z)
  (l : list (Z * A)) :
  (forall e x, In x (f e) -> f e = [x] /\ key x = fst e) ->
  StronglySorted (fun a b => fst a < fst b) l ->
  StronglySorted (fun a b => key a < key b) (flat_map f l).
Proof.
  intros Hf. induction 1 as [|e l Hl IH He]; simpl; [constructor|].
  destruct (f e) as [|x rest] eqn:E; simpl; [exact IH|].
  destruct (Hf e x) as [Hx Hk]; [rewrite E; now left|].
  rewrite E in Hx. injection Hx as ->. simpl.
  constructor; [exact IH|].
  apply Forall_forall. intros y Hy.
  apply in_flat_map in Hy. destruct Hy as [e' [He' Hy]].
  destruct (Hf e' y Hy) as [_ Hk'].
  rewrite Forall_forall in He. specialize (He _ He'). lia.
Qed.

(** X18: for timestamps between 0 and 2^32 - 2, [Object.entries] lists the
    buckets in ascending order of their keys: the price intervals are
    already in chronological order, so that the sort of line 333 changes
    nothing after the filter, and the whale entries are in ascending order
    of their hours. *)
Theorem buckets_are_listed_in_order (sortedData : list trade) :
  Forall (fun tx => 0 <= trade_timestamp tx <= 4294967294) sortedData ->
  StronglySorted
    (fun a b => PriceInterval.timestamp a < PriceInterval.timestamp b)
    (priceByInterval sortedData)
  /\ sortedPriceIntervals sortedData
     = filter (fun interval => JS.truthy_num (PriceInterval.price interval))
         (priceByInterval sortedData)
  /\ StronglySorted
       (fun a b => WhaleEntry.timestamp a < WhaleEntry.timestamp b)
       (whaleEntries sortedData).
Proof.
  intros Hrange.
  assert (StronglySorted
            (fun a b => PriceInterval.timestamp a < PriceInterval.timestamp b)
            (priceByInterval sortedData)) as Hs.
  { unfold priceByInterval, timeIntervals.
    apply StronglySorted_map.
    eapply StronglySorted_weaken;
      [|apply entries_of_indices; [|apply groupBy_NoDup]].
    - now intros [k1 t1] [k2 t2].
    - apply groupBy_index_keys.
      eapply Forall_impl; [|exact Hrange]. simpl. intros tx Ht.
      unfold bucketKey. now apply quotient_is_index. }
  split; [exact Hs|]. split.
  - unfold sortedPriceIntervals. apply sort_ascending_fixed.
    apply StronglySorted_filter.
    eapply StronglySorted_weaken; [|exact Hs]. simpl. intros a b. lia.
  - unfold whaleEntries. apply flat_map_sorted.
    + intros entry e He. apply whaleEntryOf_In in He. tauto.
    + unfold timeWindows.
      apply entries_of_indices; [|apply groupBy_NoDup].
      apply groupBy_index_keys.
      apply Forall_forall. intros tx Htx.
      apply sort_In in Htx. rewrite Forall_forall in Hrange.
      now apply quotient_is_index; [|apply Hrange].
Qed.

Lemma buckets_are_listed_in_order_witness :
  Forall (fun tx => 0 <= trade_timestamp tx <= 4294967294)
    (sortedData tied_rows)
  /\ map PriceInterval.timestamp (priceByInterval (sortedData tied_rows))
     = [3600; 4200; 5400; 7200; 7800; 9000]
  /\ map WhaleEntry.timestamp (whaleEntries (sortedData tied_rows)) = [1; 2]
  /\ StronglySorted
       (fun a b => PriceInterval.timestamp a < PriceInterval.timestamp b)
       (priceByInterval (sortedData tied_rows))
  /\ sortedPriceIntervals (sortedData tied_rows)
     = filter (fun interval => JS.truthy_num (PriceInterval.price interval))
         (priceByInterval (sortedData tied_rows))
  /\ StronglySorted
       (fun a b => WhaleEntry.timestamp a < WhaleEntry.timestamp b)
       (whaleEntries (sortedData tied_rows)).
Proof.
  assert (Forall (fun tx => 0 <= trade_timestamp tx <= 4294967294)
            (sortedData tied_rows)) as H
    by (apply Forall_forall; intros tx Htx; vm_compute in Htx;
        repeat (destruct Htx as [<-|Htx]; [vm_compute; split; discriminate|]);
        destruct Htx).
  split; [exact H|].
  split; [vm_compute; reflexivity|].
  split; [vm_compute; reflexivity|].
  exact (buckets_are_listed_in_order (sortedData tied_rows) H).
Defined.

(** X19: for timestamps between 0 and 2^32 - 2, the retained intervals of
    one score are listed in chronological order: the descending sort is
    stable and receives the buckets in ascending order. *)
Theorem equal_scores_are_chronological (sortedData : list trade) :
  Forall (fun tx => 0 <= trade_timestamp tx <= 4294967294) sortedData ->
  forall score : nat,
    StronglySorted
      (fun a b => SuspiciousInterval.timestamp a < SuspiciousInterval.timestamp b)
      (filter
         (fun i => (SuspiciousInterval.suspiciousScore i =? score)%nat)
         (suspiciousActivityIntervals sortedData)).
Proof.
  intros Hrange score. unfold suspiciousActivityIntervals.
  set (key := fun i => - Z.of_nat (SuspiciousInterval.suspiciousScore i)).
  rewrite (filter_ext _ (fun i => key i =? - Z.of_nat score)).
  2:{ intros i. unfold key.
      destruct (Nat.eqb_spec (SuspiciousInterval.suspiciousScore i) score)
        as [->|Hne].
      - symmetry. apply Z.eqb_refl.
      - symmetry. apply Z.eqb_neq. lia. }
  rewrite sort_stable.
  do 2 apply StronglySorted_filter.
  apply StronglySorted_map.
  eapply StronglySorted_weaken;
    [|apply entries_of_indices; [|apply groupBy_NoDup]].
  - now intros [k1 t1] [k2 t2].
  - apply groupBy_index_keys.
    eapply Forall_impl; [|exact Hrange]. simpl. intros tx Ht.
    unfold bucketKey. now apply quotient_is_index.
Qed.

Lemma equal_scores_are_chronological_witness :
  Forall (fun tx => 0 <= trade_timestamp tx <= 4294967294)
    (sortedData tied_rows)
  /\ map (fun i => (SuspiciousInterval.timestamp i,
                    SuspiciousInterval.suspiciousScore i))
       (suspiciousActivityIntervals (sortedData tied_rows))
     = [(4200, 4%nat); (8100, 4%nat); (3600, 2%nat); (7200, 2%nat);
        (9000, 2%nat)]
  /\ forall score : nat,
       StronglySorted
         (fun a b => SuspiciousInterval.timestamp a
                     < SuspiciousInterval.timestamp b)
         (filter
            (fun i => (SuspiciousInterval.suspiciousScore i =? score)%nat)
            (suspiciousActivityIntervals (sortedData tied_rows))).
Proof.
  assert (Forall (fun tx => 0 <= trade_timestamp tx <= 4294967294)
            (sortedData tied_rows)) as H
    by (apply Forall_forall; intros tx Htx; vm_compute in Htx;
        repeat (destruct Htx as [<-|Htx]; [vm_compute; split; discriminate|]);
        destruct Htx).
  split; [exact H|].
  split; [vm_compute; reflexivity|].
  exact (equal_scores_are_chronological (sortedData tied_rows) H).
Defined.

(** ** Completion *)






(** A loop whose steps can throw, and the loop of the steps that do not. *)
Section RunFacts.
Context {S A : Type} (stepRun : S -> A -> JS.result S) (step : S -> A -> S).





End RunFacts.


















